(** * box-slack-demo: a shallow embedding of [process.js]

    The program is an Express application with one route, [POST /event],
    that relays Slack event callbacks and the [/boxadd] slash command to
    the Box API.  Every function of [process.js] is translated below, under
    its own name, into a computation of a state-and-exception monad over

    - the Slack workspace (read only: [users.info], [conversations.members]),
    - the Box enterprise (groups, users, memberships, collaborations and the
      [asUser] setting of the shared client),
    - the Express response object of the request being served,
    - the async callbacks started by [forEach] and not awaited, and
    - a trace of what the program did (console output, HTTP and SDK calls,
      entries into [addGroupUser] and [removeGroupUser], responses sent).

    A rejected promise and a thrown exception are both the [Throw] outcome;
    [await f(x)] is monadic bind.

    What the libraries do is not in [process.js]; the model fixes it as
    follows, each choice stated where it is made:
    - axios rejects a response whose status is outside 200..299;
    - a Box SDK call without callback returns a promise;
    - [groups.getAll] answers with all the groups of the enterprise, and
      the user search without a filter term with all its users;
    - a string is held as its UTF-8 encoding, and [isNaN] strips the white
      space of ECMAScript in that encoding;
    - Express refuses a second [send] with a body once a response is out;
    - the callbacks that [forEach] starts run after the handler that
      started them, one after the other, each from its first statement;
    - which calls the service allows to the user set with [asUser] is not
      modelled, except for the collaboration call;
    - whom the enterprise user search matches, and which collaborations the
      service accepts, are fields of the Box state, so that the theorems hold
      for every search semantics and every acceptance policy. *)

From Stdlib Require Import String Ascii List Bool PeanoNat Lia Permutation.
From Stdlib Require Import DecimalString.
Import ListNotations.
Local Open Scope string_scope.
Local Open Scope list_scope.

(** ** JavaScript values and built-ins used by the program *)

Module JS.

(** A string-valued property that may be missing: [None] is [undefined].
    A JavaScript string is held as its UTF-8 encoding, one [ascii] per
    byte: equality is the same on both, and so is cutting at the space,
    a byte that no longer encoding contains. *)
Definition str := option string.

(** Interpolation [${x}] in a template literal. *)
Definition show (x : str) : string :=
  match x with Some s => s | None => "undefined" end.

(** Truthiness of a string-or-undefined value: the empty string and
    [undefined] are falsy. *)
Definition truthy (x : str) : bool :=
  match x with
  | Some s => negb (s =? "")
  | None => false
  end.

(** [a === b] on string-or-undefined values. *)
Definition strict_eq (a b : str) : bool :=
  match a, b with
  | Some x, Some y => x =? y
  | None, None => true
  | _, _ => false
  end.

(** [s.split(' ')]: cut at every space; never empty. *)
Fixpoint split_space (s : string) : list string :=
  match s with
  | EmptyString => [""]
  | String c rest =>
      if Ascii.eqb c " "%char then "" :: split_space rest
      else match split_space rest with
           | tok :: toks => String c tok :: toks
           | [] => [String c ""]
           end
  end.

(** [xs.includes(x)] for an array of strings. *)
Definition includes (xs : list string) (x : str) : bool :=
  existsb (fun y => strict_eq (Some y) x) xs.

(** *** [isNaN] on a string or [undefined]

    [isNaN(x)] is [Number(x)] being NaN.  [Number(undefined)] is NaN; on
    a string it is the StringNumericLiteral grammar of ECMAScript: white
    space around, then nothing (0), a signed decimal literal or
    [Infinity], or an unsigned binary, octal or hexadecimal integer. *)

Definition in_range (lo hi c : ascii) : bool :=
  Nat.leb (nat_of_ascii lo) (nat_of_ascii c)
  && Nat.leb (nat_of_ascii c) (nat_of_ascii hi).

Definition is_digit (c : ascii) : bool := in_range "0" "9" c.
Definition is_bin (c : ascii) : bool := in_range "0" "1" c.
Definition is_oct (c : ascii) : bool := in_range "0" "7" c.
Definition is_hex (c : ascii) : bool :=
  is_digit c || in_range "a" "f" c || in_range "A" "F" c.

(** The white space that [Number] strips around a numeric string
    (StrWhiteSpaceChar: WhiteSpace and LineTerminator), by the length of
    its UTF-8 encoding.  One byte: tab, line feed, vertical tab, form feed,
    carriage return, space. *)
Definition is_space (c : ascii) : bool :=
  let n := nat_of_ascii c in
  (Nat.leb 9 n && Nat.leb n 13) || Nat.eqb n 32.

(** Two bytes: U+00A0, the no-break space (C2 A0). *)
Definition is_space2 (c d : ascii) : bool :=
  Nat.eqb (nat_of_ascii c) 194 && Nat.eqb (nat_of_ascii d) 160.

(** Three bytes: U+1680 (E1 9A 80); U+2000 to U+200A, U+2028, U+2029 and
    U+202F (E2 80 80..8A, A8, A9, AF); U+205F (E2 81 9F); U+3000
    (E3 80 80); U+FEFF, the byte order mark (EF BB BF). *)
Definition is_space3 (c d e : ascii) : bool :=
  let c := nat_of_ascii c in
  let d := nat_of_ascii d in
  let e := nat_of_ascii e in
  (Nat.eqb c 225 && Nat.eqb d 154 && Nat.eqb e 128)
  || (Nat.eqb c 226 && Nat.eqb d 128
      && ((Nat.leb 128 e && Nat.leb e 138)
          || Nat.eqb e 168 || Nat.eqb e 169 || Nat.eqb e 175))
  || (Nat.eqb c 226 && Nat.eqb d 129 && Nat.eqb e 159)
  || (Nat.eqb c 227 && Nat.eqb d 128 && Nat.eqb e 128)
  || (Nat.eqb c 239 && Nat.eqb d 187 && Nat.eqb e 191).

Fixpoint skip (p : ascii -> bool) (l : list ascii) : list ascii :=
  match l with
  | c :: l' => if p c then skip p l' else l
  | [] => []
  end.

(** The list without the white space it starts with; [sp2] and [sp3]
    tell the white space of two and of three bytes. *)
Fixpoint skip_space (sp2 : ascii -> ascii -> bool)
  (sp3 : ascii -> ascii -> ascii -> bool) (l : list ascii) : list ascii :=
  match l with
  | c :: l1 =>
      if is_space c then skip_space sp2 sp3 l1
      else
        match l1 with
        | d :: l2 =>
            if sp2 c d then skip_space sp2 sp3 l2
            else
              match l2 with
              | e :: l3 => if sp3 c d e then skip_space sp2 sp3 l3 else l
              | [] => l
              end
        | [] => l
        end
  | [] => []
  end.

Definition skip_leading (l : list ascii) : list ascii :=
  skip_space is_space2 is_space3 l.

(** The same from the end, on the reversed list: the bytes of a character
    come last first. *)
Definition skip_trailing (l : list ascii) : list ascii :=
  skip_space (fun d c => is_space2 c d) (fun e d c => is_space3 c d e) l.

Definition trim (l : list ascii) : list ascii :=
  rev (skip_trailing (rev (skip_leading l))).

(** One or more characters, all satisfying [p]. *)
Definition all1 (p : ascii -> bool) (l : list ascii) : bool :=
  match l with
  | [] => false
  | _ => forallb p l
  end.

Definition chars (s : string) : list ascii := list_ascii_of_string s.

Definition is_e (c : ascii) : bool :=
  Ascii.eqb c "e" || Ascii.eqb c "E".

Definition is_sign (c : ascii) : bool :=
  Ascii.eqb c "+" || Ascii.eqb c "-".

(** What may follow the mantissa: nothing, or an exponent part. *)
Definition exponent_opt (l : list ascii) : bool :=
  match l with
  | [] => true
  | c :: l' =>
      is_e c &&
      match l' with
      | s :: l'' => if is_sign s then all1 is_digit l'' else all1 is_digit l'
      | [] => false
      end
  end.

(** StrUnsignedDecimalLiteral: [Infinity], [d+ . d* exp?], [. d+ exp?]
    or [d+ exp?]. *)
Definition unsigned_decimal (l : list ascii) : bool :=
  if list_eq_dec ascii_dec l (chars "Infinity") then true
  else
    match l with
    | c :: l1 =>
        if is_digit c then
          match skip is_digit l1 with
          | d :: l2 =>
              if Ascii.eqb d "." then exponent_opt (skip is_digit l2)
              else exponent_opt (d :: l2)
          | [] => true
          end
        else if Ascii.eqb c "." then
          match l1 with
          | d :: _ => is_digit d && exponent_opt (skip is_digit l1)
          | [] => false
          end
        else false
    | [] => false
    end.

Definition non_decimal_integer (l : list ascii) : bool :=
  match l with
  | z :: x :: l' =>
      Ascii.eqb z "0" &&
      (((Ascii.eqb x "b" || Ascii.eqb x "B") && all1 is_bin l')
       || ((Ascii.eqb x "o" || Ascii.eqb x "O") && all1 is_oct l')
       || ((Ascii.eqb x "x" || Ascii.eqb x "X") && all1 is_hex l'))
  | _ => false
  end.

Definition numeric_literal (l : list ascii) : bool :=
  match trim l with
  | [] => true
  | c :: l' =>
      non_decimal_integer (c :: l')
      || (if is_sign c then unsigned_decimal l' else unsigned_decimal (c :: l'))
  end.

Definition isNaN (x : str) : bool :=
  match x with
  | None => true
  | Some s => negb (numeric_literal (chars s))
  end.

End JS.

(** ** The Slack workspace, as the two endpoints the program reads *)

Module Slack.

Record Profile := { email : JS.str }.

Record User := { name : string; is_bot : bool; profile : Profile }.

(** An HTTP response as axios hands it over: status and parsed body
    ([None]: no body, or one that is not an object). *)
Record Response (A : Type) := { status : nat; data : option A }.
Arguments status {A} _.
Arguments data {A} _.

(** The statuses axios takes for a success. *)
Definition ok_status (n : nat) : bool := Nat.leb 200 n && Nat.ltb n 300.
Arguments ok_status : simpl never.

(** Body of [users.info]: the [user] property may be missing. *)
Record UsersInfo := { user : option User }.

(** Body of [conversations.members]: the [members] property may be
    missing. *)
Record Members := { members : option (list string) }.

Record Workspace := {
  users_info : string -> Response UsersInfo;
  (** the answer for a channel, with its whole member list *)
  roster : string -> Response Members
}.

(** [conversations.members?channel=c&limit=n]: the first page. *)
Definition conversations_members (w : Workspace) (c : string) (limit : nat)
  : Response Members :=
  {| status := status (roster w c);
     data := option_map
               (fun b => {| members := option_map (firstn limit) (members b) |})
               (data (roster w c)) |}.

End Slack.

(** ** The Box enterprise and the SDK calls the program makes *)

Module Box.

Record Group := { group_id : string; group_name : string }.

Record User := { user_id : string; user_login : string }.

Record Membership := {
  membership_id : string;
  membership_user : User;
  membership_group : Group;
  membership_role : string
}.

Record Collaboration := {
  collab_as_user : JS.str;
  collab_group : string;
  collab_item : JS.str;
  collab_role : string;
  collab_type : JS.str
}.

Record Enterprise := {
  groups : list Group;
  users : list User;
  memberships : list Membership;
  collaborations : list Collaboration;
  (** source of the identifiers the service hands out *)
  next_id : nat;
  (** [client.asUser(id)] on the shared client *)
  as_user : JS.str;
  (** does the user search with this [filter_term] match this user *)
  search_match : string -> User -> bool;
  (** does the service accept this collaboration: acting user, group,
      item id, item type *)
  collab_accepts : JS.str -> string -> JS.str -> JS.str -> bool
}.

Definition with_groups (gs : list Group) (n : nat) (b : Enterprise) :=
  {| groups := gs; users := users b; memberships := memberships b;
     collaborations := collaborations b; next_id := n;
     as_user := as_user b; search_match := search_match b;
     collab_accepts := collab_accepts b |}.

Definition with_memberships (ms : list Membership) (n : nat) (b : Enterprise) :=
  {| groups := groups b; users := users b; memberships := ms;
     collaborations := collaborations b; next_id := n;
     as_user := as_user b; search_match := search_match b;
     collab_accepts := collab_accepts b |}.

Definition with_collaborations (cs : list Collaboration) (b : Enterprise) :=
  {| groups := groups b; users := users b; memberships := memberships b;
     collaborations := cs; next_id := next_id b;
     as_user := as_user b; search_match := search_match b;
     collab_accepts := collab_accepts b |}.

Definition with_as_user (u : JS.str) (b : Enterprise) :=
  {| groups := groups b; users := users b; memberships := memberships b;
     collaborations := collaborations b; next_id := next_id b;
     as_user := u; search_match := search_match b;
     collab_accepts := collab_accepts b |}.

(** The identifier the service gives to the next object it creates. *)
Definition fresh_id (b : Enterprise) : string :=
  NilEmpty.string_of_uint (Nat.to_uint (next_id b)).

Definition userRoles_MEMBER : string := "member".
Definition collaborationRoles_VIEWER : string := "viewer".

Definition find_group (gid : string) (b : Enterprise) : option Group :=
  find (fun g => group_id g =? gid) (groups b).

Definition find_user (uid : string) (b : Enterprise) : option User :=
  find (fun u => user_id u =? uid) (users b).

(** [groups.getAll()]: all the groups. *)
Definition groups_getAll (b : Enterprise) : list Group := groups b.

(** [groups.create(name, opts)]: the new group and the enterprise with
    it. *)
Definition groups_create (name : string) (b : Enterprise) : Group * Enterprise :=
  let g := {| group_id := fresh_id b; group_name := name |} in
  (g, with_groups (groups b ++ [g]) (S (next_id b)) b).

(** [enterprise.getUsers({filter_term})]: without a term, all users. *)
Definition enterprise_getUsers (term : JS.str) (b : Enterprise) : list User :=
  match term with
  | Some t => filter (search_match b t) (users b)
  | None => users b
  end.

(** [users.getGroupMemberships(userId)]: the memberships of that user. *)
Definition users_getGroupMemberships (uid : string) (b : Enterprise)
  : list Membership :=
  filter (fun m => user_id (membership_user m) =? uid) (memberships b).

(** [groups.getMemberships(groupId)]: the memberships of that group;
    refused for a group the enterprise does not have. *)
Definition groups_getMemberships (gid : JS.str) (b : Enterprise)
  : option (list Membership) :=
  match gid with
  | Some i =>
      match find_group i b with
      | Some _ =>
          Some (filter (fun m => group_id (membership_group m) =? i) (memberships b))
      | None => None
      end
  | None => None
  end.

(** [groups.addUser(groupId, userId, {role})]: refused for an unknown
    group or user. *)
Definition groups_addUser (gid : JS.str) (uid : string) (role : string)
  (b : Enterprise) : option Enterprise :=
  match gid with
  | Some i =>
      match find_group i b, find_user uid b with
      | Some g, Some u =>
          let m := {| membership_id := fresh_id b; membership_user := u;
                      membership_group := g; membership_role := role |} in
          Some (with_memberships (memberships b ++ [m]) (S (next_id b)) b)
      | _, _ => None
      end
  | None => None
  end.

(** [groups.removeMembership(id)]. *)
Definition groups_removeMembership (mid : string) (b : Enterprise) : Enterprise :=
  with_memberships
    (filter (fun m => negb (membership_id m =? mid)) (memberships b))
    (next_id b) b.

(** [collaborations.createWithGroupID(groupId, itemId, role, {type})]:
    refused without a known group, or when the service does not accept
    it. *)
Definition collaborations_createWithGroupID
  (gid : JS.str) (item : JS.str) (role : string) (type : JS.str)
  (b : Enterprise) : option Enterprise :=
  match gid with
  | Some i =>
      match find_group i b with
      | Some _ =>
          if collab_accepts b (as_user b) i item type then
            Some (with_collaborations
                    (collaborations b ++
                       [{| collab_as_user := as_user b; collab_group := i;
                           collab_item := item; collab_role := role;
                           collab_type := type |}]) b)
          else None
      | None => None
      end
  | None => None
  end.

End Box.

(** ** The running program: state, trace, exceptions *)

(** [slackConfig.json]. *)
Record Config := { verificationToken : string; botToken : string }.

(** The body of [POST /event] after the body parsers: any property may
    be missing. *)
Record SlackEvent := { ev_type : JS.str; ev_channel : JS.str; ev_user : JS.str }.

Record ReqBody := {
  token : JS.str;
  type : JS.str;
  challenge : JS.str;
  event : option SlackEvent;
  command : JS.str;
  channel_id : JS.str;
  user_id : JS.str;
  text : JS.str
}.

Inductive exn :=
| TypeError (reading : string)   (* a property of [undefined] is read *)
| AxiosError (status : nat)      (* axios: status outside 200..299 *)
| BoxError (call : string)       (* the Box SDK promise rejects *)
| HeadersSent.                   (* Express: headers set after the response *)

(** What [res.send] is given. *)
Inductive ResBody :=
| NoBody
| TextBody (s : string)
| ChallengeBody (challenge : JS.str)
| ErrorPage (e : exn).

Inductive SdkCall :=
| Groups_getAll
| Groups_create (name : string)
| Enterprise_getUsers (filter_term : JS.str)
| Users_getGroupMemberships (userId : string)
| Groups_addUser (groupId : JS.str) (userId : string) (role : string)
| Groups_getMemberships (groupId : JS.str)
| Groups_removeMembership (membershipId : string)
| Client_asUser (userId : string)
| Collaborations_createWithGroupID
    (groupId : JS.str) (itemId : JS.str) (role : string) (itemType : JS.str).

Inductive Event :=
| ConsoleLog (msg : string)
| ConsoleError (msg : string)
| AxiosGet (url : string)
| Sdk (call : SdkCall)
| Enter_addGroupUser (groupId email : JS.str)
| Enter_removeGroupUser (groupId email : JS.str)
| ResSend (status : nat) (body : ResBody)
| ExpressCaught (e : exn)        (* thrown inside the route, caught by Express *)
| UnhandledRejection (e : exn).  (* an async function nobody awaits rejects *)

(** An async callback that was started and is not awaited: the arrow
    function of [syncChannelToGroup], with the variables it closes over. *)
Inductive Task :=
| ForEachCallback (groupId : JS.str) (userId : string).

Record State := {
  slack : Slack.Workspace;
  box : Box.Enterprise;
  res_status : nat;                       (* [res.statusCode] *)
  res_sent : option (nat * ResBody);      (* the response, once out *)
  pending : list Task;
  trace : list Event
}.

Definition initial (sw : Slack.Workspace) (b : Box.Enterprise) : State :=
  {| slack := sw; box := b; res_status := 200; res_sent := None;
     pending := []; trace := [] |}.

Definition set_box (b : Box.Enterprise) (s : State) : State :=
  {| slack := slack s; box := b; res_status := res_status s;
     res_sent := res_sent s; pending := pending s; trace := trace s |}.

Definition set_res_status (n : nat) (s : State) : State :=
  {| slack := slack s; box := box s; res_status := n;
     res_sent := res_sent s; pending := pending s; trace := trace s |}.

Definition set_res_sent (r : option (nat * ResBody)) (s : State) : State :=
  {| slack := slack s; box := box s; res_status := res_status s;
     res_sent := r; pending := pending s; trace := trace s |}.

Definition set_pending (ts : list Task) (s : State) : State :=
  {| slack := slack s; box := box s; res_status := res_status s;
     res_sent := res_sent s; pending := ts; trace := trace s |}.

Definition set_trace (tr : list Event) (s : State) : State :=
  {| slack := slack s; box := box s; res_status := res_status s;
     res_sent := res_sent s; pending := pending s; trace := tr |}.

Inductive outcome (A : Type) :=
| Ret (a : A)
| Throw (e : exn).
Arguments Ret {A} a.
Arguments Throw {A} e.

(** A computation of the program; an awaited async call is one too. *)
Definition M (A : Type) : Type := State -> outcome A * State.

Definition ret {A} (a : A) : M A := fun s => (Ret a, s).

Definition throw {A} (e : exn) : M A := fun s => (Throw e, s).

Definition bind {A B} (m : M A) (k : A -> M B) : M B :=
  fun s =>
    match m s with
    | (Ret a, s') => k a s'
    | (Throw e, s') => (Throw e, s')
    end.

Declare Scope js_scope.
Delimit Scope js_scope with js.
Notation "x <- m ;; k" := (bind m (fun x => k))
  (at level 61, m at next level, right associativity) : js_scope.
Notation "m ;; k" := (bind m (fun _ => k))
  (at level 61, right associativity) : js_scope.
Local Open Scope js_scope.

(** [try { m } catch (error) { h }]. *)
Definition try_catch {A} (m : M A) (h : exn -> M A) : M A :=
  fun s =>
    match m s with
    | (Ret a, s') => (Ret a, s')
    | (Throw e, s') => h e s'
    end.

Definition emit (e : Event) : M unit :=
  fun s => (Ret tt, set_trace (trace s ++ [e]) s).

Definition console_log (msg : string) : M unit := emit (ConsoleLog msg).
Definition console_error (msg : string) : M unit := emit (ConsoleError msg).

(** [x.p] where [x] may be [undefined]. *)
Definition deref {A} (x : option A) (p : string) : M A :=
  match x with
  | Some a => ret a
  | None => throw (TypeError p)
  end.

(** [axios.get(url)]: the request goes out, and the promise fulfils with
    the response when its status is 2xx and rejects otherwise. *)
Definition axios_get {A} (url : string)
  (answer : Slack.Workspace -> Slack.Response A) : M (Slack.Response A) :=
  emit (AxiosGet url) ;;
  fun s =>
    let r := answer (slack s) in
    if Slack.ok_status (Slack.status r)
    then (Ret r, s)
    else (Throw (AxiosError (Slack.status r)), s).

(** An SDK call that reads the enterprise. *)
Definition sdk_read {A} (c : SdkCall) (f : Box.Enterprise -> A) : M A :=
  emit (Sdk c) ;; fun s => (Ret (f (box s)), s).

(** An SDK call that changes the enterprise, or is refused. *)
Definition sdk_write (c : SdkCall) (name : string)
  (f : Box.Enterprise -> option Box.Enterprise) : M unit :=
  emit (Sdk c) ;;
  fun s =>
    match f (box s) with
    | Some b' => (Ret tt, set_box b' s)
    | None => (Throw (BoxError name), s)
    end.

(** [res.status(n)]. *)
Definition res_status_set (n : nat) : M unit :=
  fun s => (Ret tt, set_res_status n s).

(** [res.send(body)].  The first one is the response.  Afterwards Express
    throws when there is a body (it sets Content-Type, and the headers are
    out), and ends the finished response again, to no effect, when there is
    none. *)
Definition res_send (body : ResBody) : M unit :=
  fun s =>
    match res_sent s with
    | None =>
        (Ret tt,
         set_trace (trace s ++ [ResSend (res_status s) body])
           (set_res_sent (Some (res_status s, body)) s))
    | Some _ =>
        match body with
        | NoBody => (Ret tt, s)
        | _ => (Throw HeadersSent, s)
        end
    end.

(** The settled state of a promise. *)
Inductive Promise (A : Type) :=
| Fulfils (a : A)
| Rejects (e : exn).
Arguments Fulfils {A} a.
Arguments Rejects {A} e.

(** What the variable [group] of [getGroup] holds: a group object out of
    the listing, or the promise that [client.groups.create] returned. *)
Inductive GroupValue :=
| GroupObject (g : Box.Group)
| GroupPromise (p : Promise Box.Group).

(** [v.id]: a promise has no such property. *)
Definition dot_id (v : GroupValue) : JS.str :=
  match v with
  | GroupObject g => Some (Box.group_id g)
  | GroupPromise _ => None
  end.

(** [return v] in an async function, seen from the caller's [await]: the
    function's promise is resolved with [v], and resolving with a promise
    adopts its settlement. *)
Definition async_return (v : GroupValue) : M Box.Group :=
  match v with
  | GroupObject g => ret g
  | GroupPromise (Fulfils g) => ret g
  | GroupPromise (Rejects e) => throw e
  end.

(** ** The functions of [process.js] *)

Section Program.

Variable slackConfig : Config.

Local Open Scope string_scope.

(** [handleUrlVerification]. *)
Definition handleUrlVerification (req : ReqBody) : M unit :=
  console_log "Received URL verification challenge" ;;
  res_send (ChallengeBody (challenge req)).

(** [getSlackUser]: the user object, or [undefined] after
    [console.error]. *)
Definition getSlackUser (userId : JS.str) : M (option Slack.User) :=
  response <- axios_get
    ("https://slack.com/api/users.info?token=" ++ botToken slackConfig
       ++ "&user=" ++ JS.show userId)
    (fun w => Slack.users_info w (JS.show userId)) ;;
  match Slack.data response with
  | Some d =>
      match Slack.user d with
      | Some u => ret (Some u)
      | None => console_error "No user data found" ;; ret None
      end
  | None => console_error "No user data found" ;; ret None
  end.

(** [getGroup], up to its [return]: the value of the variable [group]. *)
Definition getGroup_body (channelId : JS.str) : M GroupValue :=
  console_log ("Get group for channel " ++ JS.show channelId) ;;
  let groupName := "slack-" ++ JS.show channelId in
  groups <- sdk_read Groups_getAll Box.groups_getAll ;;
  match hd_error (filter (fun g => Box.group_name g =? groupName) groups) with
  | Some g => ret (GroupObject g)
  | None =>
      (* client.groups.create(groupName, {...}), not awaited here *)
      emit (Sdk (Groups_create groupName)) ;;
      fun s =>
        let (g, b') := Box.groups_create groupName (box s) in
        (Ret (GroupPromise (Fulfils g)), set_box b' s)
  end.

(** [await getGroup(channelId)]. *)
Definition getGroup (channelId : JS.str) : M Box.Group :=
  v <- getGroup_body channelId ;;
  async_return v.

(** [addGroupUser]. *)
Definition addGroupUser (groupId email : JS.str) : M unit :=
  emit (Enter_addGroupUser groupId email) ;;
  console_log ("Adding " ++ JS.show email ++ " to group " ++ JS.show groupId) ;;
  users <- sdk_read (Enterprise_getUsers email) (Box.enterprise_getUsers email) ;;
  match hd_error users with
  | None => console_error ("User " ++ JS.show email ++ " not found")
  | Some u =>
      let userId := Box.user_id u in
      memberships <- sdk_read (Users_getGroupMemberships userId)
                       (Box.users_getGroupMemberships userId) ;;
      let existingMembership :=
        hd_error
          (filter (fun m => Box.user_id (Box.membership_user m) =? userId)
             memberships) in
      match existingMembership with
      | Some _ =>
          console_log ("User " ++ JS.show email
                         ++ " is already a member of group " ++ JS.show groupId)
      | None =>
          let groupRole := Box.userRoles_MEMBER in
          sdk_write (Groups_addUser groupId userId groupRole) "groups.addUser"
            (Box.groups_addUser groupId userId groupRole) ;;
          console_log ("Added " ++ JS.show email ++ " to group #" ++ JS.show groupId)
      end
  end.

(** [removeGroupUser]. *)
Definition removeGroupUser (groupId email : JS.str) : M unit :=
  emit (Enter_removeGroupUser groupId email) ;;
  console_log ("Removing " ++ JS.show email ++ " from group #" ++ JS.show groupId) ;;
  emit (Sdk (Groups_getMemberships groupId)) ;;
  memberships <- (fun s =>
                    match Box.groups_getMemberships groupId (box s) with
                    | Some ms => (Ret ms, s)
                    | None => (Throw (BoxError "groups.getMemberships"), s)
                    end) ;;
  let membership :=
    hd_error
      (filter (fun m => JS.strict_eq (Some (Box.user_login (Box.membership_user m))) email)
         memberships) in
  match membership with
  | Some m =>
      sdk_write (Groups_removeMembership (Box.membership_id m))
        "groups.removeMembership"
        (fun b => Some (Box.groups_removeMembership (Box.membership_id m) b)) ;;
      console_log ("Removed " ++ JS.show email ++ " from group #" ++ JS.show groupId)
  | None =>
      console_error ("User " ++ JS.show email ++ " is not a member of group #"
                       ++ JS.show groupId)
  end.

(** The arrow function given to [forEach] in [syncChannelToGroup]. *)
Definition forEach_callback (groupId : JS.str) (userId : string) : M unit :=
  user <- getSlackUser (Some userId) ;;
  u <- deref user "profile" ;;
  if JS.truthy (Slack.email (Slack.profile u)) && negb (Slack.is_bot u)
  then addGroupUser groupId (Slack.email (Slack.profile u))
  else ret tt.

(** Starting an async callback whose promise is dropped: it is queued,
    and runs, from its first statement on, once the handler that started it
    is done. *)
Definition spawn (t : Task) : M unit :=
  fun s => (Ret tt, set_pending (pending s ++ [t])%list s).

Fixpoint forEach {A} (xs : list A) (f : A -> M unit) : M unit :=
  match xs with
  | [] => ret tt
  | x :: xs' => f x ;; forEach xs' f
  end.

(** [syncChannelToGroup]: one callback per member of the first page,
    none awaited. *)
Definition syncChannelToGroup (channelId groupId : JS.str) : M unit :=
  console_log ("Syncing channel " ++ JS.show channelId ++ " to group "
                 ++ JS.show groupId) ;;
  response <- axios_get
    ("https://slack.com/api/conversations.members?token="
       ++ botToken slackConfig ++ "&channel=" ++ JS.show channelId
       ++ "&limit=100")
    (fun w => Slack.conversations_members w (JS.show channelId) 100) ;;
  d <- deref (Slack.data response) "members" ;;
  members <- deref (Slack.members d) "forEach" ;;
  forEach members (fun userId => spawn (ForEachCallback groupId userId)).

(** [syncSlackUsers]. *)
Definition syncSlackUsers (user : option Slack.User) (event channelId : JS.str)
  : M unit :=
  u <- deref user "name" ;;
  console_log ("Received " ++ JS.show event ++ " for " ++ Slack.name u) ;;
  group <- getGroup channelId ;;
  if Slack.is_bot u then
    syncChannelToGroup channelId (dot_id (GroupObject group))
  else if JS.truthy (Slack.email (Slack.profile u)) then
    if JS.strict_eq event (Some "member_joined_channel") then
      addGroupUser (dot_id (GroupObject group)) (Slack.email (Slack.profile u))
    else if JS.strict_eq event (Some "member_left_channel") then
      removeGroupUser (dot_id (GroupObject group)) (Slack.email (Slack.profile u))
    else ret tt
  else ret tt.

(** [handleEventCallback]. *)
Definition handleEventCallback (req : ReqBody) : M unit :=
  ev <- deref (event req) "type" ;;
  let eventType := ev_type ev in
  let channelId := ev_channel ev in
  let userId := ev_user ev in
  user <- getSlackUser userId ;;
  syncSlackUsers user eventType channelId ;;
  res_send NoBody.

(** The statements of [handleCommand] after the validation [if]. *)
Definition handleCommand_rest (channelId userId itemType itemId : JS.str)
  : M unit :=
  group <- getGroup channelId ;;
  slackUser <- getSlackUser userId ;;
  su <- deref slackUser "profile" ;;
  let email := Slack.email (Slack.profile su) in
  boxUsers <- sdk_read (Enterprise_getUsers email) (Box.enterprise_getUsers email) ;;
  match hd_error boxUsers with
  | None =>
      res_send (TextBody ("Could not find a Box user with email " ++ JS.show email))
  | Some boxUser =>
      sdk_write (Client_asUser (Box.user_id boxUser)) "asUser"
        (fun b => Some (Box.with_as_user (Some (Box.user_id boxUser)) b)) ;;
      try_catch
        (sdk_write
           (Collaborations_createWithGroupID (dot_id (GroupObject group)) itemId
              Box.collaborationRoles_VIEWER itemType)
           "collaborations.createWithGroupID"
           (Box.collaborations_createWithGroupID (dot_id (GroupObject group))
              itemId Box.collaborationRoles_VIEWER itemType) ;;
         res_send (TextBody "Provided all users with access to item"))
        (fun _ => res_send (TextBody "Could not provide all users access"))
  end.

(** The test of the validation [if] of [handleCommand]. *)
Definition invalid_input (itemType itemId : JS.str) : bool :=
  negb (JS.includes ["file"; "folder"] itemType) || JS.isNaN itemId.

(** [handleCommand]. *)
Definition handleCommand (req : ReqBody) : M unit :=
  let channelId := channel_id req in
  let userId := user_id req in
  t <- deref (text req) "split" ;;
  let parts := JS.split_space t in
  let itemType := nth_error parts 0 in
  let itemId := nth_error parts 1 in
  (if invalid_input itemType itemId
   then res_send (TextBody "Invalid input. Example usage: /boxadd file 123456")
   else ret tt) ;;
  handleCommand_rest channelId userId itemType itemId.

(** Calling an async function and dropping its promise: a rejection is
    nobody's to handle. *)
Definition fire (m : M unit) : M unit :=
  fun s =>
    match m s with
    | (Ret _, s') => (Ret tt, s')
    | (Throw e, s') =>
        (Ret tt, set_trace (trace s' ++ [UnhandledRejection e])%list s')
    end.

(** The classification of [app.post('/event')], after the token test. *)
Definition dispatch (req : ReqBody) : M unit :=
  if JS.strict_eq (type req) (Some "url_verification") then
    handleUrlVerification req
  else if JS.strict_eq (type req) (Some "event_callback") then
    fire (handleEventCallback req)
  else if JS.strict_eq (command req) (Some "/boxadd") then
    fire (handleCommand req)
  else
    res_status_set 400 ;; res_send NoBody.

(** The token test of [app.post('/event')].  The body parsers always
    leave an object in [req.body]. *)
Definition verify (req : ReqBody) : M unit :=
  if negb (JS.strict_eq (token req) (Some (verificationToken slackConfig)))
  then res_status_set 400 ;; res_send (TextBody "Slack Verification Failed")
  else ret tt.

(** What Express does when the route's callback is over: an exception
    thrown inside it is caught and answered with a 500, unless a response
    is out already. *)
Definition express_finish (r : outcome unit * State) : State :=
  match r with
  | (Ret _, s') => s'
  | (Throw e, s') =>
      let s'' := set_trace (trace s' ++ [ExpressCaught e])%list s' in
      match res_sent s'' with
      | Some _ => s''
      | None => snd ((res_status_set 500 ;; res_send (ErrorPage e)) s'')
      end
  end.

(** The callback of [app.post('/event')]. *)
Definition post_event (req : ReqBody) (s : State) : State :=
  express_finish ((verify req ;; dispatch req) s).

Definition run_task (t : Task) : M unit :=
  match t with
  | ForEachCallback groupId userId => forEach_callback groupId userId
  end.

(** The started callbacks run to their end, here one after the other in
    the order they were started. *)
Fixpoint run_tasks (ts : list Task) (s : State) : State :=
  match ts with
  | [] => s
  | t :: ts' => run_tasks ts' (snd (fire (run_task t) s))
  end.

Definition settle (s : State) : State :=
  run_tasks (pending s) (set_pending [] s).

(** One request, from its arrival until nothing of it is left to run. *)
Definition process (sw : Slack.Workspace) (b : Box.Enterprise) (req : ReqBody)
  : State :=
  settle (post_event req (initial sw b)).

End Program.

(** ** Reading a trace *)

Fixpoint add_calls (tr : list Event) : list (JS.str * JS.str) :=
  match tr with
  | Enter_addGroupUser g e :: tr' => (g, e) :: add_calls tr'
  | _ :: tr' => add_calls tr'
  | [] => []
  end.

Fixpoint remove_calls (tr : list Event) : list (JS.str * JS.str) :=
  match tr with
  | Enter_removeGroupUser g e :: tr' => (g, e) :: remove_calls tr'
  | _ :: tr' => remove_calls tr'
  | [] => []
  end.

Fixpoint collab_calls (tr : list Event) : list (JS.str * JS.str * string * JS.str) :=
  match tr with
  | Sdk (Collaborations_createWithGroupID g i r t) :: tr' =>
      (g, i, r, t) :: collab_calls tr'
  | _ :: tr' => collab_calls tr'
  | [] => []
  end.

(** ** Notions the statements use *)

(** What a [users.info] lookup that succeeds hands back: a 2xx response
    whose body has a [user]. *)
Definition lookup_user (sw : Slack.Workspace) (userId : JS.str) : option Slack.User :=
  let r := Slack.users_info sw (JS.show userId) in
  if Slack.ok_status (Slack.status r) then
    match Slack.data r with
    | Some d => Slack.user d
    | None => None
    end
  else None.

(** The member list the program gets to see: the first page of 100, and
    nothing when the request fails or the body has no [members]. *)
Definition first_page (sw : Slack.Workspace) (channelId : JS.str) : list string :=
  let r := Slack.conversations_members sw (JS.show channelId) 100 in
  if Slack.ok_status (Slack.status r) then
    match Slack.data r with
    | Some d => match Slack.members d with Some ms => ms | None => [] end
    | None => []
    end
  else [].

(** In the words of the specification: the members that are non-bot
    users with an email, each with that email. *)
Definition eligible_email (sw : Slack.Workspace) (userId : string) : list JS.str :=
  match lookup_user sw (Some userId) with
  | Some u =>
      if negb (Slack.is_bot u) && JS.truthy (Slack.email (Slack.profile u))
      then [Slack.email (Slack.profile u)]
      else []
  | None => []
  end.

(** The first group of that name in the listing. *)
Definition group_named (name : string) (b : Box.Enterprise) : option Box.Group :=
  hd_error (filter (fun g => (Box.group_name g =? name)%string) (Box.groups b)).

Definition mirror_name (channelId : JS.str) : string :=
  ("slack-" ++ JS.show channelId)%string.

(** The group find-or-create answers with, the enterprise afterwards and
    the SDK calls made. *)
Definition mirror_group (channelId : JS.str) (b : Box.Enterprise) : Box.Group :=
  match group_named (mirror_name channelId) b with
  | Some g => g
  | None => fst (Box.groups_create (mirror_name channelId) b)
  end.

Definition with_mirror_group (channelId : JS.str) (b : Box.Enterprise)
  : Box.Enterprise :=
  match group_named (mirror_name channelId) b with
  | Some _ => b
  | None => snd (Box.groups_create (mirror_name channelId) b)
  end.

Definition getGroup_events (channelId : JS.str) (b : Box.Enterprise) : list Event :=
  ConsoleLog ("Get group for channel " ++ JS.show channelId)%string
  :: Sdk Groups_getAll
  :: match group_named (mirror_name channelId) b with
     | Some _ => []
     | None => [Sdk (Groups_create (mirror_name channelId))]
     end.

(** A step that touches the enterprise and the trace only. *)
Definition upd (b' : Box.Enterprise) (evs : list Event) (s : State) : State :=
  set_box b' (set_trace (trace s ++ evs) s).

(** Does the group with this id have a membership whose user's login is
    this email. *)
Definition has_membership (b : Box.Enterprise) (gid : string) (email : JS.str)
  : bool :=
  existsb
    (fun m => (Box.group_id (Box.membership_group m) =? gid)%string
              && JS.strict_eq (Some (Box.user_login (Box.membership_user m))) email)
    (Box.memberships b).

(** What went wrong while a request was processed: exceptions that
    reached Express and rejections that reached nobody. *)
Fixpoint errors (tr : list Event) : list exn :=
  match tr with
  | ExpressCaught e :: tr' => e :: errors tr'
  | UnhandledRejection e :: tr' => e :: errors tr'
  | _ :: tr' => errors tr'
  | [] => []
  end.

(** ** A workspace and an enterprise to run the program on *)

Module Scenario.

Local Open Scope string_scope.

Definition cfg : Config :=
  {| verificationToken := "secret"; botToken := "xoxb" |}.

Definition person (n : string) (e : JS.str) : Slack.User :=
  {| Slack.name := n; Slack.is_bot := false;
     Slack.profile := {| Slack.email := e |} |}.

Definition robot (n : string) : Slack.User :=
  {| Slack.name := n; Slack.is_bot := true;
     Slack.profile := {| Slack.email := None |} |}.

Definition found (u : Slack.User) : Slack.Response Slack.UsersInfo :=
  {| Slack.status := 200; Slack.data := Some {| Slack.user := Some u |} |}.

(** Three people (bob has no email), a bot, a user id that answers 500,
    and [user_not_found] bodies for the rest; channel C1 has five
    members, one of them unknown. *)
Definition workspace : Slack.Workspace :=
  {| Slack.users_info := fun uid =>
       if uid =? "U1" then found (person "alice" (Some "alice@example.com"))
       else if uid =? "U2" then found (person "bob" None)
       else if uid =? "U3" then found (person "carol" (Some "carol@example.com"))
       else if uid =? "B1" then found (robot "syncbot")
       else if uid =? "U500" then {| Slack.status := 500; Slack.data := None |}
       else {| Slack.status := 200; Slack.data := Some {| Slack.user := None |} |};
     Slack.roster := fun c =>
       if c =? "C1" then
         {| Slack.status := 200;
            Slack.data :=
              Some {| Slack.members := Some ["U1"; "U2"; "B1"; "U3"; "U404"] |} |}
       else
         {| Slack.status := 200;
            Slack.data := Some {| Slack.members := None |} |} |}.

Definition alice : Box.User :=
  {| Box.user_id := "11"; Box.user_login := "alice@example.com" |}.

Definition carol : Box.User :=
  {| Box.user_id := "12"; Box.user_login := "carol@example.com" |}.

(** No group yet; the search matches the login exactly; the only item
    the service shares is 123456. *)
Definition enterprise : Box.Enterprise :=
  {| Box.groups := []; Box.users := [alice; carol]; Box.memberships := [];
     Box.collaborations := []; Box.next_id := 100; Box.as_user := None;
     Box.search_match := fun t u => Box.user_login u =? t;
     Box.collab_accepts := fun _ _ item _ => JS.strict_eq item (Some "123456") |}.

Definition team : Box.Group :=
  {| Box.group_id := "7"; Box.group_name := "slack-C1" |}.

Definition other : Box.Group :=
  {| Box.group_id := "8"; Box.group_name := "slack-C2" |}.

(** Both mirror groups exist, and alice is a member of the second
    only. *)
Definition enterprise2 : Box.Enterprise :=
  {| Box.groups := [team; other]; Box.users := [alice; carol];
     Box.memberships :=
       [{| Box.membership_id := "9"; Box.membership_user := alice;
           Box.membership_group := other; Box.membership_role := "member" |}];
     Box.collaborations := []; Box.next_id := 100; Box.as_user := None;
     Box.search_match := fun t u => Box.user_login u =? t;
     Box.collab_accepts := fun _ _ item _ => JS.strict_eq item (Some "123456") |}.

Definition event_req (tok t c u : string) : ReqBody :=
  {| token := Some tok; type := Some "event_callback"; challenge := None;
     event := Some {| ev_type := Some t; ev_channel := Some c;
                      ev_user := Some u |};
     command := None; channel_id := None; user_id := None; text := None |}.

Definition command_req (tok c u t : string) : ReqBody :=
  {| token := Some tok; type := None; challenge := None; event := None;
     command := Some "/boxadd"; channel_id := Some c; user_id := Some u;
     text := Some t |}.

End Scenario.

(** ** Further notions the statements and the lemmas use *)

Definition quiet (evs : list Event) : Prop :=
  add_calls evs = [] /\ remove_calls evs = [] /\ collab_calls evs = [].

Definition users_info_url (cfg : Config) (userId : JS.str) : string :=
  ("https://slack.com/api/users.info?token=" ++ botToken cfg
     ++ "&user=" ++ JS.show userId)%string.

(** The calls to [addGroupUser] that a started callback makes. *)
Definition task_adds (sw : Slack.Workspace) (t : Task) : list (JS.str * JS.str) :=
  match t with
  | ForEachCallback groupId userId => map (pair groupId) (eligible_email sw userId)
  end.

Definition members_url (cfg : Config) (channelId : JS.str) : string :=
  ("https://slack.com/api/conversations.members?token=" ++ botToken cfg
     ++ "&channel=" ++ JS.show channelId ++ "&limit=100")%string.

(** The calls to [addGroupUser] that an event callback leads to. *)
Definition expected_adds (sw : Slack.Workspace) (b : Box.Enterprise) (ev : SlackEvent)
  (u : Slack.User) : list (JS.str * JS.str) :=
  let groupId := Some (Box.group_id (mirror_group (ev_channel ev) b)) in
  if Slack.is_bot u then
    flat_map (fun m => map (pair groupId) (eligible_email sw m))
      (first_page sw (ev_channel ev))
  else if JS.truthy (Slack.email (Slack.profile u))
          && JS.strict_eq (ev_type ev) (Some "member_joined_channel"%string)
  then [(groupId, Slack.email (Slack.profile u))]
  else [].

(** The calls to [removeGroupUser] that an event callback leads to. *)
Definition expected_removes (b : Box.Enterprise) (ev : SlackEvent) (u : Slack.User)
  : list (JS.str * JS.str) :=
  let groupId := Some (Box.group_id (mirror_group (ev_channel ev) b)) in
  if negb (Slack.is_bot u)
     && JS.truthy (Slack.email (Slack.profile u))
     && negb (JS.strict_eq (ev_type ev) (Some "member_joined_channel"%string))
     && JS.strict_eq (ev_type ev) (Some "member_left_channel"%string)
  then [(groupId, Slack.email (Slack.profile u))]
  else [].

(** The state in which the classification starts: the request's own, or
    with the 400 of the token test already out. *)
Definition after_verify (cfg : Config) (sw : Slack.Workspace) (b : Box.Enterprise)
  (req : ReqBody) : State :=
  if JS.strict_eq (token req) (Some (verificationToken cfg)) then initial sw b
  else
    {| slack := sw; box := b; res_status := 400;
       res_sent := Some (400, TextBody "Slack Verification Failed");
       pending := [];
       trace := [ResSend 400 (TextBody "Slack Verification Failed")] |}.

(** The whole member list of a channel, as Slack would page it. *)
Definition whole_roster (sw : Slack.Workspace) (channelId : JS.str) : list string :=
  let r := Slack.roster sw (JS.show channelId) in
  if Slack.ok_status (Slack.status r) then
    match Slack.data r with
    | Some d => match Slack.members d with Some ms => ms | None => [] end
    | None => []
    end
  else [].


(** The Box user the requester resolves to: the first hit of the search
    for the email of the Slack user. *)
Definition requester (sw : Slack.Workspace) (b : Box.Enterprise) (userId : JS.str)
  : option Box.User :=
  match lookup_user sw userId with
  | Some su => hd_error (Box.enterprise_getUsers (Slack.email (Slack.profile su)) b)
  | None => None
  end.

(** The collaboration the command asks for. *)
Definition wanted_collab (b : Box.Enterprise) (c ty item : JS.str) (bu : Box.User)
  : Box.Collaboration :=
  {| Box.collab_as_user := Some (Box.user_id bu);
     Box.collab_group := Box.group_id (mirror_group c b);
     Box.collab_item := item;
     Box.collab_role := Box.collaborationRoles_VIEWER;
     Box.collab_type := ty |}.

(** The classification of [dispatch] that leads to [handleCommand]. *)
Definition routes_to_command (req : ReqBody) : bool :=
  negb (JS.strict_eq (type req) (Some "url_verification"%string))
  && negb (JS.strict_eq (type req) (Some "event_callback"%string))
  && JS.strict_eq (command req) (Some "/boxadd"%string).

Definition usage : ResBody :=
  TextBody "Invalid input. Example usage: /boxadd file 123456".

Definition verification_failed : ResBody :=
  TextBody "Slack Verification Failed".

Definition not_found (email : JS.str) : ResBody :=
  TextBody ("Could not find a Box user with email " ++ JS.show email).

(** The same request with another token. *)
Definition with_token (tok : JS.str) (req : ReqBody) : ReqBody :=
  {| token := tok; type := type req; challenge := challenge req;
     event := event req; command := command req; channel_id := channel_id req;
     user_id := user_id req; text := text req |}.

(** The state after the token test has failed. *)
Definition rejected (sw : Slack.Workspace) (b : Box.Enterprise) : State :=
  {| slack := sw; box := b; res_status := 400;
     res_sent := Some (400, verification_failed);
     pending := []; trace := [ResSend 400 verification_failed] |}.

(** The state after the validation of [handleCommand] has failed on a
    verified request. *)
Definition told_usage (sw : Slack.Workspace) (b : Box.Enterprise) : State :=
  {| slack := sw; box := b; res_status := 200;
     res_sent := Some (200, usage);
     pending := []; trace := [ResSend 200 usage] |}.

(** ** Relations between the state before and after *)

(** A computation keeps the relation [R] between the state it starts in
    and the state it leaves, whether it returns or throws. *)
Definition preserves (R : State -> State -> Prop) {A : Type} (m : M A) : Prop :=
  forall s : State, R s (snd (m s)).

(** A response that is out stays the response. *)
Definition response_kept (s s' : State) : Prop :=
  forall x, res_sent s = Some x -> res_sent s' = Some x.

(** Groups are neither removed, changed nor reordered, and a group that
    comes on top is named after a channel. *)
Definition groups_grow (s s' : State) : Prop :=
  exists extra,
    Box.groups (box s') = (Box.groups (box s) ++ extra)%list
    /\ Forall (fun g => exists c, Box.group_name g = mirror_name c) extra.

(** No two groups of the enterprise have the same name. *)
Definition unique_names (b : Box.Enterprise) : Prop :=
  NoDup (map Box.group_name (Box.groups b)).

Definition names_stay_unique (s s' : State) : Prop :=
  unique_names (box s) -> unique_names (box s').

(** The enterprise's users, its search and its acceptance policy. *)
Definition directory_kept (s s' : State) : Prop :=
  Box.users (box s') = Box.users (box s)
  /\ Box.search_match (box s') = Box.search_match (box s)
  /\ Box.collab_accepts (box s') = Box.collab_accepts (box s).

(** Collaborations and the client's acting user. *)
Definition sharing_kept (s s' : State) : Prop :=
  Box.collaborations (box s') = Box.collaborations (box s)
  /\ Box.as_user (box s') = Box.as_user (box s).

(** Memberships, and no callback started. *)
Definition memberships_kept (s s' : State) : Prop :=
  Box.memberships (box s') = Box.memberships (box s)
  /\ (pending s = [] -> pending s' = []).

(** ** What the membership operations do to the enterprise *)

(** The membership [addGroupUser] makes: none when the search for the
    email finds no user, or when the user found has a membership already. *)
Definition added_membership (gid : string) (email : JS.str) (b : Box.Enterprise)
  : list Box.Membership :=
  match hd_error (Box.enterprise_getUsers email b) with
  | Some u =>
      match Box.users_getGroupMemberships (Box.user_id u) b with
      | [] =>
          match Box.find_group gid b, Box.find_user (Box.user_id u) b with
          | Some g, Some u' =>
              [{| Box.membership_id := Box.fresh_id b;
                  Box.membership_user := u';
                  Box.membership_group := g;
                  Box.membership_role := Box.userRoles_MEMBER |}]
          | _, _ => []
          end
      | _ :: _ => []
      end
  | None => []
  end.

(** The enterprise after [addGroupUser]. *)
Definition after_add (gid : string) (email : JS.str) (b : Box.Enterprise)
  : Box.Enterprise :=
  match added_membership gid email b with
  | [] => b
  | ms => Box.with_memberships (Box.memberships b ++ ms)%list (S (Box.next_id b)) b
  end.

(** The membership [removeGroupUser] picks: the first of the group whose
    user's login is the email. *)
Definition first_membership (gid : string) (email : JS.str) (b : Box.Enterprise)
  : option Box.Membership :=
  hd_error
    (filter (fun m => JS.strict_eq (Some (Box.user_login (Box.membership_user m))) email)
       (filter (fun m => (Box.group_id (Box.membership_group m) =? gid)%string)
          (Box.memberships b))).

(** The enterprise after [removeGroupUser]. *)
Definition after_remove (gid : string) (email : JS.str) (b : Box.Enterprise)
  : Box.Enterprise :=
  match first_membership gid email b with
  | Some m => Box.groups_removeMembership (Box.membership_id m) b
  | None => b
  end.

(** What the event does to the enterprise once the mirror group [gid] is
    there, for a non-bot user: the branches of [syncSlackUsers]. *)
Definition member_effect (ev : SlackEvent) (u : Slack.User) (gid : string)
  (b : Box.Enterprise) : Box.Enterprise :=
  if JS.truthy (Slack.email (Slack.profile u)) then
    if JS.strict_eq (ev_type ev) (Some "member_joined_channel"%string) then
      after_add gid (Slack.email (Slack.profile u)) b
    else if JS.strict_eq (ev_type ev) (Some "member_left_channel"%string) then
      after_remove gid (Slack.email (Slack.profile u)) b
    else b
  else b.

(** No membership of the enterprise has this id. *)
Definition id_unused (i : string) (b : Box.Enterprise) : bool :=
  forallb (fun m => negb (Box.membership_id m =? i)%string) (Box.memberships b).

(** The member list of the channel comes back: a 2xx answer whose body
    has [members]. *)
Definition listing_ok (sw : Slack.Workspace) (channelId : JS.str) : bool :=
  let r := Slack.conversations_members sw (JS.show channelId) 100 in
  Slack.ok_status (Slack.status r)
  && match Slack.data r with
     | Some d => match Slack.members d with Some _ => true | None => false end
     | None => false
     end.

(** A word: a string without a space. *)
Definition spaceless (w : string) : bool :=
  forallb (fun c => negb (Ascii.eqb c " ")) (JS.chars w).

(** One or more decimal digits. *)
Definition decimal_digits (s : string) : bool :=
  JS.all1 JS.is_digit (JS.chars s).

(** The two tokens the validation of [handleCommand] looks at. *)
Definition item_type_of (t : string) : JS.str := nth_error (JS.split_space t) 0.
Definition item_id_of (t : string) : JS.str := nth_error (JS.split_space t) 1.

(** * Properties *)

(** ** Bookkeeping *)

Lemma add_calls_app (tr1 tr2 : list Event) :
  add_calls (tr1 ++ tr2) = add_calls tr1 ++ add_calls tr2.
Proof.
  induction tr1 as [|e tr1 IH]; [reflexivity|].
  destruct e; cbn; rewrite IH; reflexivity.
Qed.

Lemma remove_calls_app (tr1 tr2 : list Event) :
  remove_calls (tr1 ++ tr2) = remove_calls tr1 ++ remove_calls tr2.
Proof.
  induction tr1 as [|e tr1 IH]; [reflexivity|].
  destruct e; cbn; rewrite IH; reflexivity.
Qed.

Lemma collab_calls_app (tr1 tr2 : list Event) :
  collab_calls (tr1 ++ tr2) = collab_calls tr1 ++ collab_calls tr2.
Proof.
  induction tr1 as [|e tr1 IH]; [reflexivity|].
  destruct e as [| | |c| | | | |]; try (cbn; rewrite IH; reflexivity).
  destruct c; cbn; rewrite IH; reflexivity.
Qed.

Lemma upd_upd (b1 b2 : Box.Enterprise) (e1 e2 : list Event) (s : State) :
  upd b2 e2 (upd b1 e1 s) = upd b2 (e1 ++ e2) s.
Proof. destruct s; unfold upd; cbn. rewrite app_assoc. reflexivity. Qed.

Lemma box_upd (b : Box.Enterprise) (evs : list Event) (s : State) :
  box (upd b evs s) = b.
Proof. reflexivity. Qed.

Lemma trace_upd (b : Box.Enterprise) (evs : list Event) (s : State) :
  trace (upd b evs s) = trace s ++ evs.
Proof. reflexivity. Qed.

Lemma upd_same (s : State) : upd (box s) [] s = s.
Proof. destruct s; unfold upd; cbn. rewrite app_nil_r. reflexivity. Qed.

(** ** Find-or-create *)

Lemma group_named_name (name : string) (b : Box.Enterprise) (g : Box.Group) :
  group_named name b = Some g -> Box.group_name g = name /\ In g (Box.groups b).
Proof.
  unfold group_named. intros H.
  assert (Hin : In g (filter (fun g => (Box.group_name g =? name)%string) (Box.groups b))).
  { destruct (filter _ _) as [|x l]; [discriminate|].
    injection H as ->. left; reflexivity. }
  apply filter_In in Hin. destruct Hin as [Hin Hn].
  apply String.eqb_eq in Hn. split; assumption.
Qed.

Lemma group_named_fresh (name : string) (g : Box.Group) (b b' : Box.Enterprise) :
  Box.groups b' = Box.groups b ++ [g] -> Box.group_name g = name ->
  group_named name b = None ->
  group_named name b' = Some g.
Proof.
  unfold group_named. intros Hgs Hn Hnone.
  rewrite Hgs, filter_app. cbn. rewrite Hn, String.eqb_refl.
  destruct (filter _ (Box.groups b)); [reflexivity | discriminate].
Qed.

Lemma getGroup_run (c : JS.str) (s : State) :
  getGroup c s =
    (Ret (mirror_group c (box s)),
     upd (with_mirror_group c (box s)) (getGroup_events c (box s)) s).
Proof.
  unfold getGroup, getGroup_body, mirror_group, with_mirror_group,
    getGroup_events, group_named, mirror_name, upd.
  unfold bind, console_log, sdk_read, emit, Box.groups_getAll. cbn.
  destruct (hd_error _) as [g|]; destruct s; cbn;
    rewrite <- ?app_assoc; reflexivity.
Qed.

Lemma mirror_group_spec (c : JS.str) (b : Box.Enterprise) :
  Box.group_name (mirror_group c b) = mirror_name c
  /\ In (mirror_group c b) (Box.groups (with_mirror_group c b))
  /\ group_named (mirror_name c) (with_mirror_group c b) = Some (mirror_group c b).
Proof.
  unfold mirror_group, with_mirror_group.
  destruct (group_named (mirror_name c) b) as [g|] eqn:E.
  - destruct (group_named_name _ _ _ E) as [Hn Hin]. repeat split; assumption.
  - cbn. repeat split.
    + apply in_or_app. right. left. reflexivity.
    + eapply group_named_fresh; try eassumption; reflexivity.
Qed.

Lemma mirror_group_again (c : JS.str) (b : Box.Enterprise) :
  mirror_group c (with_mirror_group c b) = mirror_group c b
  /\ with_mirror_group c (with_mirror_group c b) = with_mirror_group c b.
Proof.
  destruct (mirror_group_spec c b) as (_ & _ & Hagain).
  split.
  - unfold mirror_group at 1. rewrite Hagain. reflexivity.
  - unfold with_mirror_group at 1. rewrite Hagain. reflexivity.
Qed.

Lemma mirror_group_found (c : JS.str) (b : Box.Enterprise) :
  Box.find_group (Box.group_id (mirror_group c b)) (with_mirror_group c b) <> None.
Proof.
  destruct (mirror_group_spec c b) as (_ & Hin & _).
  unfold Box.find_group. intros H.
  eapply find_none in H; [|exact Hin]. cbn in H.
  rewrite String.eqb_refl in H. discriminate.
Qed.

(** C2. For every channel identifier [C] the group that find-or-create
    answers with is named ["slack-" ++ C], and a second find-or-create for
    the same [C], run right after the first, answers with the same group
    and leaves the enterprise as it is. *)
Theorem C2_mirror_name_and_idempotence :
  forall (C : string) (s : State),
  exists (g : Box.Group) (s1 s2 : State),
    getGroup (Some C) s = (Ret g, s1)
    /\ getGroup (Some C) s1 = (Ret g, s2)
    /\ Box.group_name g = ("slack-" ++ C)%string
    /\ In g (Box.groups (box s1))
    /\ box s2 = box s1.
Proof.
  intros C s.
  destruct (mirror_group_spec (Some C) (box s)) as (Hn & Hin & Hagain).
  exists (mirror_group (Some C) (box s)).
  eexists. eexists.
  split; [apply getGroup_run|].
  rewrite getGroup_run, !box_upd.
  destruct (mirror_group_again (Some C) (box s)) as [-> ->].
  repeat split; assumption.
Qed.

(** ** The steps of the workflows, one lemma each *)

(** Running the monad's plumbing on an explicit state. *)
Ltac run :=
  cbv beta iota zeta delta
    [bind ret throw try_catch emit console_log console_error sdk_read sdk_write
     deref upd fire res_send res_status_set axios_get async_return
     set_box set_trace set_pending set_res_sent set_res_status
     box trace slack pending res_sent res_status fst snd].

Ltac run_in H :=
  cbv beta iota zeta delta
    [bind ret throw try_catch emit console_log console_error sdk_read sdk_write
     deref upd fire res_send res_status_set axios_get async_return
     set_box set_trace set_pending set_res_sent set_res_status
     box trace slack pending res_sent res_status fst snd] in H.

Ltac flat := rewrite <- ?app_assoc; cbn [app].

Ltac calls :=
  repeat (progress cbn [add_calls remove_calls collab_calls app]
          || rewrite add_calls_app
          || rewrite remove_calls_app
          || rewrite collab_calls_app).

Lemma getSlackUser_found (cfg : Config) (userId : JS.str) (u : Slack.User) (s : State) :
  lookup_user (slack s) userId = Some u ->
  getSlackUser cfg userId s
  = (Ret (Some u), upd (box s) [AxiosGet (users_info_url cfg userId)] s).
Proof.
  unfold lookup_user, getSlackUser, users_info_url.
  destruct s as [sw b st sent pend tr]; run.
  destruct (Slack.ok_status _); [|discriminate].
  destruct (Slack.data _) as [d|]; [|discriminate].
  intros ->. reflexivity.
Qed.

Lemma getSlackUser_missing (cfg : Config) (userId : JS.str) (s : State) :
  lookup_user (slack s) userId = None ->
  exists r evs,
    getSlackUser cfg userId s
    = (r, upd (box s) (AxiosGet (users_info_url cfg userId) :: evs) s)
    /\ quiet evs
    /\ (r = Ret None \/ exists e, r = Throw e)
    /\ errors evs = [].
Proof.
  unfold lookup_user, getSlackUser, users_info_url.
  destruct s as [sw b st sent pend tr]; run.
  destruct (Slack.ok_status _).
  - destruct (Slack.data _) as [d|].
    + intros ->. exists (Ret None), [ConsoleError "No user data found"].
      flat. repeat split; auto.
    + intros _. exists (Ret None), [ConsoleError "No user data found"].
      flat. repeat split; auto.
  - intros _. eexists (Throw _), []. repeat split; eauto.
Qed.

(** [addGroupUser] announces itself once, makes no other call that the
    statements count, and leaves groups, collaborations and the client's
    acting user alone. *)
Lemma addGroupUser_run (groupId email : JS.str) (s : State) :
  exists r b' evs,
    addGroupUser groupId email s
    = (r, upd b' (Enter_addGroupUser groupId email :: evs) s)
    /\ quiet evs
    /\ Box.groups b' = Box.groups (box s)
    /\ Box.collaborations b' = Box.collaborations (box s).
Proof.
  unfold addGroupUser.
  destruct s as [sw b st sent pend tr]; run.
  destruct (hd_error (Box.enterprise_getUsers email b)) as [u|].
  - destruct (hd_error (filter _ _)) as [m|].
    + eexists (Ret tt), b, [_; _; _; _]. flat.
      repeat split.
    + destruct (Box.groups_addUser groupId (Box.user_id u) Box.userRoles_MEMBER b)
        as [b'|] eqn:E.
      * eexists (Ret tt), b', [_; _; _; _; _]. flat.
        unfold Box.groups_addUser in E.
        destruct groupId as [i|]; [|discriminate].
        destruct (Box.find_group i b); [|discriminate].
        destruct (Box.find_user _ b); [|discriminate].
        injection E as <-. repeat split.
      * eexists (Throw _), b, [_; _; _; _]. flat.
        repeat split.
  - eexists (Ret tt), b, [_; _; _]. flat.
    repeat split.
Qed.

(** [removeGroupUser] likewise. *)
Lemma removeGroupUser_run (groupId email : JS.str) (s : State) :
  exists r b' evs,
    removeGroupUser groupId email s
    = (r, upd b' (Enter_removeGroupUser groupId email :: evs) s)
    /\ quiet evs
    /\ Box.groups b' = Box.groups (box s)
    /\ Box.collaborations b' = Box.collaborations (box s).
Proof.
  unfold removeGroupUser.
  destruct s as [sw b st sent pend tr]; run.
  destruct (Box.groups_getMemberships groupId b) as [ms|].
  - destruct (hd_error (filter _ ms)) as [m|].
    + eexists (Ret tt), _, [_; _; _; _]. flat.
      repeat split.
    + eexists (Ret tt), b, [_; _; _]. flat.
      repeat split.
  - eexists (Throw _), b, [_; _]. flat.
    repeat split.
Qed.

(** When the group is there and none of its memberships has that login,
    [removeGroupUser] logs that and returns; the enterprise is as before. *)
Lemma removeGroupUser_absent (i : string) (email : JS.str) (s : State) :
  Box.find_group i (box s) <> None ->
  has_membership (box s) i email = false ->
  removeGroupUser (Some i) email s
  = (Ret tt,
     upd (box s)
       [Enter_removeGroupUser (Some i) email;
        ConsoleLog ("Removing " ++ JS.show email ++ " from group #" ++ i)%string;
        Sdk (Groups_getMemberships (Some i));
        ConsoleError ("User " ++ JS.show email ++ " is not a member of group #"
                        ++ i)%string] s).
Proof.
  unfold removeGroupUser, Box.groups_getMemberships, has_membership.
  destruct s as [sw b st sent pend tr]; run.
  intros Hg Hnone.
  destruct (Box.find_group i b); [|congruence].
  assert (E : filter
                (fun m => JS.strict_eq (Some (Box.user_login (Box.membership_user m))) email)
                (filter (fun m => (Box.group_id (Box.membership_group m) =? i)%string)
                   (Box.memberships b)) = []).
  { induction (Box.memberships b) as [|m ms IH]; [reflexivity|].
    cbn [existsb] in Hnone. apply orb_false_iff in Hnone. destruct Hnone as [H1 H2].
    cbn [filter].
    destruct (Box.group_id (Box.membership_group m) =? i)%string; cbn [filter].
    - cbn [andb] in H1. rewrite H1. auto.
    - auto. }
  rewrite E. cbn [hd_error JS.show]. flat. reflexivity.
Qed.

(** One callback of the fan-out: it calls [addGroupUser] for its member
    exactly when the lookup gives a non-bot user with an email. *)
Lemma forEach_callback_run (cfg : Config) (groupId : JS.str) (userId : string)
  (s : State) :
  exists r b' evs,
    forEach_callback cfg groupId userId s = (r, upd b' evs s)
    /\ add_calls evs = map (pair groupId) (eligible_email (slack s) userId)
    /\ remove_calls evs = [] /\ collab_calls evs = []
    /\ Box.groups b' = Box.groups (box s)
    /\ Box.collaborations b' = Box.collaborations (box s).
Proof.
  unfold forEach_callback, eligible_email, bind.
  destruct (lookup_user (slack s) (Some userId)) as [u|] eqn:L.
  - rewrite (getSlackUser_found cfg _ u s L). cbn [deref ret].
    rewrite andb_comm.
    destruct (negb (Slack.is_bot u) && JS.truthy _).
    + destruct (addGroupUser_run groupId (Slack.email (Slack.profile u))
                  (upd (box s) [AxiosGet (users_info_url cfg (Some userId))] s))
        as (r & b' & evs & -> & (Ha & Hr & Hc) & Hg & Hco).
      rewrite upd_upd. exists r, b'. eexists. split; [reflexivity|].
      cbn. rewrite Ha, Hr, Hc. repeat split; assumption.
    + exists (Ret tt), (box s). eexists. split; [reflexivity|]. repeat split.
  - destruct (getSlackUser_missing cfg (Some userId) s L)
      as (r & evs & -> & (Ha & Hr & Hc) & [-> | [e ->]] & _).
    + exists (Throw (TypeError "profile")), (box s). eexists.
      split; [reflexivity|]. cbn. rewrite Ha, Hr, Hc. repeat split.
    + exists (Throw e), (box s). eexists.
      split; [reflexivity|]. cbn. rewrite Ha, Hr, Hc. repeat split.
Qed.

Lemma fire_upd (m : M unit) (s : State) (r : outcome unit) (b' : Box.Enterprise)
  (evs : list Event) :
  m s = (r, upd b' evs s) ->
  fire m s
  = (Ret tt,
     upd b' (evs ++ match r with Ret _ => [] | Throw e => [UnhandledRejection e] end) s).
Proof.
  unfold fire. intros ->. destruct r as [[]|e].
  - rewrite app_nil_r. reflexivity.
  - destruct s; unfold upd; cbn. rewrite app_assoc. reflexivity.
Qed.

(** Started callbacks, run to their end one after the other. *)
Lemma run_tasks_any (cfg : Config) (ts : list Task) :
  forall s : State,
  exists b' evs,
    run_tasks cfg ts s = upd b' evs s
    /\ add_calls evs = flat_map (task_adds (slack s)) ts
    /\ remove_calls evs = [] /\ collab_calls evs = []
    /\ Box.groups b' = Box.groups (box s)
    /\ Box.collaborations b' = Box.collaborations (box s).
Proof.
  induction ts as [|[groupId m] ts IH]; intros s.
  - exists (box s), []. cbn. rewrite upd_same. repeat split.
  - cbn [run_tasks run_task flat_map task_adds].
    destruct (forEach_callback_run cfg groupId m s)
      as (r & b1 & evs1 & E & Ha & Hr & Hc & Hg & Hco).
    rewrite (fire_upd _ _ _ _ _ E). cbn [snd].
    destruct (IH (upd b1 (evs1 ++ match r with
                                   | Ret _ => []
                                   | Throw e => [UnhandledRejection e]
                                   end) s))
      as (b2 & evs2 & -> & Ha2 & Hr2 & Hc2 & Hg2 & Hco2).
    rewrite upd_upd. exists b2. eexists. split; [reflexivity|].
    rewrite !add_calls_app, !remove_calls_app, !collab_calls_app.
    rewrite Ha, Hr, Hc, Ha2, Hr2, Hc2.
    rewrite box_upd in Hg2, Hco2.
    assert (Q : forall r : outcome unit,
               quiet match r with Ret _ => [] | Throw e => [UnhandledRejection e] end)
      by (intros [?|?]; repeat split).
    destruct (Q r) as (-> & -> & ->).
    rewrite !app_nil_r. repeat split; try congruence.
Qed.

(** The callbacks of a fan-out, run to their end: the calls to
    [addGroupUser] are those of the members that are non-bot users with an
    email, in the order of the member list. *)
Lemma run_tasks_run (cfg : Config) (groupId : JS.str) (members : list string) :
  forall s : State,
  exists b' evs,
    run_tasks cfg (map (ForEachCallback groupId) members) s = upd b' evs s
    /\ add_calls evs
       = flat_map (fun m => map (pair groupId) (eligible_email (slack s) m)) members
    /\ remove_calls evs = [] /\ collab_calls evs = []
    /\ Box.groups b' = Box.groups (box s)
    /\ Box.collaborations b' = Box.collaborations (box s).
Proof.
  intros s.
  destruct (run_tasks_any cfg (map (ForEachCallback groupId) members) s)
    as (b' & evs & E & Ha & H).
  exists b', evs. split; [exact E|]. split; [|exact H].
  rewrite Ha. clear. induction members as [|m ms IH]; [reflexivity|].
  cbn [map flat_map task_adds]. rewrite IH. reflexivity.
Qed.

(** The model runs the started callbacks in the order of the member
    list; in another order they make the same calls to [addGroupUser]. *)
Lemma fan_out_order_irrelevant (cfg : Config) (ts ts' : list Task) (s : State) :
  Permutation ts ts' ->
  Permutation (add_calls (trace (run_tasks cfg ts s)))
              (add_calls (trace (run_tasks cfg ts' s))).
Proof.
  intros P.
  destruct (run_tasks_any cfg ts s) as (b1 & evs1 & -> & Ha1 & _).
  destruct (run_tasks_any cfg ts' s) as (b2 & evs2 & -> & Ha2 & _).
  rewrite !trace_upd, !add_calls_app, Ha1, Ha2.
  apply Permutation_app_head, Permutation_flat_map, P.
Qed.

Lemma forEach_spawn (f : string -> Task) (members : list string) :
  forall s : State,
    forEach members (fun m => spawn (f m)) s
    = (Ret tt, set_pending (pending s ++ map f members) s).
Proof.
  induction members as [|m members IH]; intros s.
  - destruct s; cbn. unfold ret, set_pending; cbn. rewrite app_nil_r. reflexivity.
  - cbn [forEach map]. unfold bind, spawn. rewrite IH.
    destruct s; unfold set_pending; cbn. rewrite <- app_assoc. reflexivity.
Qed.

(** [syncChannelToGroup] starts one callback per member of the first
    page and returns. *)
Lemma syncChannelToGroup_run (cfg : Config) (channelId groupId : JS.str) (s : State) :
  exists r,
    syncChannelToGroup cfg channelId groupId s
    = (r,
       set_pending
         (pending s ++ map (ForEachCallback groupId) (first_page (slack s) channelId))
         (upd (box s)
            [ConsoleLog ("Syncing channel " ++ JS.show channelId ++ " to group "
                           ++ JS.show groupId)%string;
             AxiosGet (members_url cfg channelId)] s)).
Proof.
  unfold syncChannelToGroup, first_page, members_url.
  destruct s as [sw b st sent pend tr]. run.
  destruct (Slack.ok_status _).
  - destruct (Slack.data _) as [d|].
    + destruct (Slack.members d) as [ms|].
      * exists (Ret tt). rewrite forEach_spawn. cbn. flat. reflexivity.
      * eexists (Throw _). flat. rewrite app_nil_r. reflexivity.
    + eexists (Throw _). flat. rewrite app_nil_r. reflexivity.
  - eexists (Throw _). flat. rewrite app_nil_r. reflexivity.
Qed.

(** ** Event callbacks *)

Lemma fire_ret (m : M unit) (s : State) : fire m s = (Ret tt, snd (fire m s)).
Proof. unfold fire. destruct (m s) as [[[]|e] s']; reflexivity. Qed.

(** The handler of an event callback whose acting user is found: what
    it leaves behind.  The callbacks it started are those of the fan-out. *)
Lemma handleEventCallback_resolved (cfg : Config) (req : ReqBody) (ev : SlackEvent)
  (u : Slack.User) (sw : Slack.Workspace) (b : Box.Enterprise) (st : nat)
  (sent : option (nat * ResBody)) (tr : list Event) :
  event req = Some ev ->
  lookup_user sw (ev_user ev) = Some u ->
  exists r b' sent' evs,
    handleEventCallback cfg req
      {| slack := sw; box := b; res_status := st; res_sent := sent;
         pending := []; trace := tr |}
    = (r, {| slack := sw; box := b'; res_status := st; res_sent := sent';
             pending :=
               if Slack.is_bot u
               then map (ForEachCallback
                           (Some (Box.group_id (mirror_group (ev_channel ev) b))))
                      (first_page sw (ev_channel ev))
               else [];
             trace := tr ++ evs |})
    /\ Box.groups b' = Box.groups (with_mirror_group (ev_channel ev) b)
    /\ Box.collaborations b' = Box.collaborations b
    /\ add_calls evs = (if Slack.is_bot u then [] else expected_adds sw b ev u)
    /\ remove_calls evs = expected_removes b ev u
    /\ collab_calls evs = []
    /\ (add_calls evs = [] -> remove_calls evs = [] ->
        b' = with_mirror_group (ev_channel ev) b)
    /\ (exists rest,
          evs = AxiosGet (users_info_url cfg (ev_user ev))
                :: ConsoleLog ("Received " ++ JS.show (ev_type ev) ++ " for "
                                 ++ Slack.name u)%string
                :: getGroup_events (ev_channel ev) b ++ rest).
Proof.
  intros Hev Hu.
  unfold handleEventCallback, expected_adds, expected_removes.
  rewrite Hev. run.
  erewrite getSlackUser_found by exact Hu. run.
  unfold syncSlackUsers. run. rewrite getGroup_run. run.
  assert (Hwg : Box.collaborations (with_mirror_group (ev_channel ev) b)
                = Box.collaborations b).
  { unfold with_mirror_group. destruct (group_named _ b); reflexivity. }
  assert (Hq : quiet (getGroup_events (ev_channel ev) b)).
  { unfold getGroup_events. destruct (group_named _ b); repeat split. }
  destruct Hq as (Hqa & Hqr & Hqc).
  destruct (Slack.is_bot u); cbn [negb andb].
  - match goal with
    | |- context [syncChannelToGroup ?a ?c ?g ?s] =>
        destruct (syncChannelToGroup_run a c g s) as [r E]; rewrite E
    end.
    run. cbn [app].
    destruct r as [[]|e].
    + destruct sent as [x|].
      * eexists (Ret tt), _, _, _. flat. split; [reflexivity|].
        calls. rewrite Hqa, Hqr, Hqc. repeat split; auto; eexists; reflexivity.
      * eexists (Ret tt), _, _, _. flat. split; [reflexivity|].
        calls. rewrite Hqa, Hqr, Hqc. repeat split; auto; eexists; reflexivity.
    + eexists (Throw e), _, _, _. flat. split; [reflexivity|].
      calls. rewrite Hqa, Hqr, Hqc. repeat split; auto; eexists; reflexivity.
  - destruct (JS.truthy (Slack.email (Slack.profile u))); cbn [andb].
    + destruct (JS.strict_eq (ev_type ev) (Some "member_joined_channel"%string));
        cbn [negb andb].
      * match goal with
        | |- context [addGroupUser ?g ?e ?s] =>
            destruct (addGroupUser_run g e s)
              as (r & b' & evs & E & (Ha & Hr & Hc) & Hg & Hco); rewrite E
        end.
        run. cbn [app box] in *.
        destruct r as [[]|e]; [destruct sent as [x|]|];
          eexists _, _, _, _; flat; (split; [reflexivity|]);
          calls; rewrite Hqa, Hqr, Hqc, Ha, Hr, Hc;
          repeat split; try congruence; try (eexists; reflexivity);
          cbn; intros; discriminate.
      * destruct (JS.strict_eq (ev_type ev) (Some "member_left_channel"%string)).
        -- match goal with
           | |- context [removeGroupUser ?g ?e ?s] =>
               destruct (removeGroupUser_run g e s)
                 as (r & b' & evs & E & (Ha & Hr & Hc) & Hg & Hco); rewrite E
           end.
           run. cbn [app box] in *.
           destruct r as [[]|e]; [destruct sent as [x|]|];
             eexists _, _, _, _; flat; (split; [reflexivity|]);
             calls; rewrite Hqa, Hqr, Hqc, Ha, Hr, Hc;
             repeat split; try congruence; try (eexists; reflexivity);
          cbn; intros; discriminate.
        -- run. destruct sent as [x|];
             eexists _, _, _, _; flat; (split; [reflexivity|]);
             calls; rewrite Hqa, Hqr, Hqc; repeat split;
             solve [congruence | auto | eexists; reflexivity
                   | exists []; rewrite app_nil_r; reflexivity].
    + run. destruct sent as [x|];
        eexists _, _, _, _; flat; (split; [reflexivity|]);
        calls; rewrite Hqa, Hqr, Hqc; repeat split;
             solve [congruence | auto | eexists; reflexivity
                   | exists []; rewrite app_nil_r; reflexivity].
Qed.

Lemma verify_run (cfg : Config) (sw : Slack.Workspace) (b : Box.Enterprise)
  (req : ReqBody) :
  verify cfg req (initial sw b) = (Ret tt, after_verify cfg sw b req).
Proof.
  unfold verify, after_verify.
  destruct (JS.strict_eq (token req) (Some (verificationToken cfg)));
    reflexivity.
Qed.

Lemma after_verify_shape (cfg : Config) (sw : Slack.Workspace) (b : Box.Enterprise)
  (req : ReqBody) :
  exists st sent tr,
    after_verify cfg sw b req
    = {| slack := sw; box := b; res_status := st; res_sent := sent;
         pending := []; trace := tr |}
    /\ quiet tr.
Proof.
  unfold after_verify.
  destruct (JS.strict_eq (token req) (Some (verificationToken cfg)));
    eexists _, _, _; (split; [reflexivity|]); repeat split.
Qed.

Lemma post_event_event_callback (cfg : Config) (sw : Slack.Workspace)
  (b : Box.Enterprise) (req : ReqBody) :
  type req = Some "event_callback"%string ->
  post_event cfg req (initial sw b)
  = snd (fire (handleEventCallback cfg req) (after_verify cfg sw b req)).
Proof.
  intros Ht. unfold post_event, express_finish, bind. rewrite verify_run.
  unfold dispatch. rewrite Ht. cbn [JS.strict_eq String.eqb Ascii.eqb Bool.eqb].
  rewrite fire_ret. reflexivity.
Qed.

(** What processing an event callback comes to, when its acting user is
    found. *)
Lemma event_flow (cfg : Config) (sw : Slack.Workspace) (b : Box.Enterprise)
  (req : ReqBody) (ev : SlackEvent) (u : Slack.User) :
  type req = Some "event_callback"%string ->
  event req = Some ev ->
  lookup_user sw (ev_user ev) = Some u ->
  add_calls (trace (process cfg sw b req)) = expected_adds sw b ev u
  /\ remove_calls (trace (process cfg sw b req)) = expected_removes b ev u
  /\ collab_calls (trace (process cfg sw b req)) = []
  /\ Box.groups (box (process cfg sw b req))
     = Box.groups (with_mirror_group (ev_channel ev) b)
  /\ Box.collaborations (box (process cfg sw b req)) = Box.collaborations b
  /\ (Slack.is_bot u = false ->
      expected_adds sw b ev u = [] -> expected_removes b ev u = [] ->
      box (process cfg sw b req) = with_mirror_group (ev_channel ev) b)
  /\ (exists pre post,
        trace (process cfg sw b req)
        = pre ++ getGroup_events (ev_channel ev) b ++ post
        /\ quiet pre).
Proof.
  intros Ht Hev Hu. unfold process.
  rewrite (post_event_event_callback cfg sw b req Ht).
  destruct (after_verify_shape cfg sw b req) as (st & sent & tr & -> & Qa & Qr & Qc).
  destruct (handleEventCallback_resolved cfg req ev u sw b st sent tr Hev Hu)
    as (r & b' & sent' & evs & E & Hg & Hco & Ha & Hr & Hc & Hex & rest & Hrest).
  unfold fire. rewrite E. unfold settle.
  set (gid := Some (Box.group_id (mirror_group (ev_channel ev) b))) in *.
  assert (Hfan :
    forall (tasks : list string) (tr1 : list Event),
      add_calls tr1 = [] -> remove_calls tr1 = [] -> collab_calls tr1 = [] ->
      let s' :=
        run_tasks cfg (map (ForEachCallback gid) tasks)
          {| slack := sw; box := b'; res_status := st; res_sent := sent';
             pending := []; trace := (tr ++ evs) ++ tr1 |} in
      add_calls (trace s')
      = add_calls evs
        ++ flat_map (fun m => map (pair gid) (eligible_email sw m)) tasks
      /\ remove_calls (trace s') = remove_calls evs
      /\ collab_calls (trace s') = []
      /\ Box.groups (box s') = Box.groups b'
      /\ Box.collaborations (box s') = Box.collaborations b'
      /\ (exists pre post,
            trace s' = pre ++ getGroup_events (ev_channel ev) b ++ post
            /\ quiet pre)).
  { intros tasks tr1 T1 T2 T3 s'. subst s'.
    match goal with
    | |- context [run_tasks ?c (map (ForEachCallback ?g) ?ms) ?s] =>
        destruct (run_tasks_run c g ms s)
          as (b2 & evs2 & -> & Ha2 & Hr2 & Hc2 & Hg2 & Hco2)
    end.
    rewrite trace_upd, box_upd. cbn [trace slack box] in *.
    calls. rewrite Qa, Qr, Qc, T1, T2, T3, Ha2, Hr2, Hc2, Hc.
    rewrite !app_nil_r. repeat split; try assumption.
    exists (tr ++ [AxiosGet (users_info_url cfg (ev_user ev));
                   ConsoleLog ("Received " ++ JS.show (ev_type ev) ++ " for "
                                 ++ Slack.name u)%string]).
    exists (rest ++ tr1 ++ evs2).
    split.
    - rewrite Hrest, <- !app_assoc. cbn [app]. rewrite <- !app_assoc. reflexivity.
    - unfold quiet. calls. rewrite Qa, Qr, Qc. repeat split. }
  assert (Hexp : expected_adds sw b ev u
                 = (if Slack.is_bot u then [] else expected_adds sw b ev u)
                   ++ (if Slack.is_bot u
                       then flat_map (fun m => map (pair gid) (eligible_email sw m))
                              (first_page sw (ev_channel ev))
                       else [])).
  { unfold expected_adds. destruct (Slack.is_bot u); [reflexivity|].
    rewrite app_nil_r. reflexivity. }
  rewrite Hexp, <- Ha, <- Hr, <- Hg, <- Hco.
  destruct r as [[]|e]; cbn [set_pending set_trace slack box res_status res_sent pending trace].
  - destruct (Slack.is_bot u).
    + specialize (Hfan (first_page sw (ev_channel ev)) [] eq_refl eq_refl eq_refl).
      rewrite app_nil_r in Hfan.
      repeat split; try apply Hfan. discriminate.
    + specialize (Hfan [] [] eq_refl eq_refl eq_refl).
      rewrite app_nil_r in Hfan.
      repeat split; try apply Hfan.
      intros _ H1 H2. cbn. rewrite app_nil_r in H1. apply Hex; assumption.
  - destruct (Slack.is_bot u).
    + specialize (Hfan (first_page sw (ev_channel ev)) [UnhandledRejection e]
                    eq_refl eq_refl eq_refl).
      repeat split; try apply Hfan. discriminate.
    + specialize (Hfan [] [UnhandledRejection e] eq_refl eq_refl eq_refl).
      repeat split; try apply Hfan.
      intros _ H1 H2. cbn. rewrite app_nil_r in H1. apply Hex; assumption.
Qed.

Lemma first_page_bound (sw : Slack.Workspace) (channelId : JS.str) :
  first_page sw channelId = firstn 100 (whole_roster sw channelId).
Proof.
  unfold first_page, whole_roster, Slack.conversations_members.
  cbn [Slack.status Slack.data].
  destruct (Slack.ok_status _); [|reflexivity].
  destruct (Slack.data _) as [d|]; [|reflexivity].
  cbn [option_map Slack.members].
  destruct (Slack.members d); reflexivity.
Qed.

(** C3. Processing a [member_joined_channel] event whose acting user is
    a non-bot with an email calls [addGroupUser] exactly once, with the id
    of the channel's mirror group (the group named ["slack-" ++ channel]
    that find-or-create answers with, now in the enterprise) and that
    user's email. *)
Theorem C3_join_event_adds_once :
  forall (cfg : Config) (sw : Slack.Workspace) (b : Box.Enterprise)
         (req : ReqBody) (ev : SlackEvent) (u : Slack.User),
    type req = Some "event_callback"%string ->
    event req = Some ev ->
    ev_type ev = Some "member_joined_channel"%string ->
    lookup_user sw (ev_user ev) = Some u ->
    Slack.is_bot u = false ->
    JS.truthy (Slack.email (Slack.profile u)) = true ->
    exists g : Box.Group,
      add_calls (trace (process cfg sw b req))
      = [(Some (Box.group_id g), Slack.email (Slack.profile u))]
      /\ Box.group_name g = ("slack-" ++ JS.show (ev_channel ev))%string
      /\ In g (Box.groups (box (process cfg sw b req)))
      /\ fst (getGroup (ev_channel ev) (initial sw b)) = Ret g.
Proof.
  intros cfg sw b req ev u Ht Hev Hjoin Hu Hbot Hmail.
  destruct (event_flow cfg sw b req ev u Ht Hev Hu) as (Ha & _ & _ & Hg & _).
  destruct (mirror_group_spec (ev_channel ev) b) as (Hn & Hin & _).
  exists (mirror_group (ev_channel ev) b).
  rewrite Ha, Hg, getGroup_run. unfold expected_adds.
  rewrite Hbot, Hmail, Hjoin. cbn [JS.strict_eq andb].
  rewrite String.eqb_refl. repeat split; assumption.
Qed.

Lemma C3_join_event_adds_once_witness :
  exists g : Box.Group,
    add_calls (trace (process Scenario.cfg Scenario.workspace Scenario.enterprise
                        (Scenario.event_req "secret" "member_joined_channel" "C1" "U1")))
    = [(Some (Box.group_id g), Some "alice@example.com"%string)]
    /\ Box.group_name g = "slack-C1"%string
    /\ In g (Box.groups (box (process Scenario.cfg Scenario.workspace
                                Scenario.enterprise
                                (Scenario.event_req "secret" "member_joined_channel"
                                   "C1" "U1"))))
    /\ fst (getGroup (Some "C1"%string)
              (initial Scenario.workspace Scenario.enterprise)) = Ret g.
Proof.
  apply (C3_join_event_adds_once Scenario.cfg Scenario.workspace Scenario.enterprise
           (Scenario.event_req "secret" "member_joined_channel" "C1" "U1")
           {| ev_type := Some "member_joined_channel"%string;
              ev_channel := Some "C1"%string; ev_user := Some "U1"%string |}
           (Scenario.person "alice" (Some "alice@example.com"%string)));
    reflexivity.
Defined.

(** C4. Processing an event whose acting user is a bot calls
    [addGroupUser], with the id of the channel's mirror group, once for each
    member of the first page of the channel's member list (its first 100
    members) whose lookup gives a non-bot user with an email, with that
    email, and for no one else: a member that is a bot or has no email gets
    no call. *)
Theorem C4_fan_out_adds_eligible_members :
  forall (cfg : Config) (sw : Slack.Workspace) (b : Box.Enterprise)
         (req : ReqBody) (ev : SlackEvent) (u : Slack.User),
    type req = Some "event_callback"%string ->
    event req = Some ev ->
    lookup_user sw (ev_user ev) = Some u ->
    Slack.is_bot u = true ->
    exists g : Box.Group,
      fst (getGroup (ev_channel ev) (initial sw b)) = Ret g
      /\ add_calls (trace (process cfg sw b req))
         = flat_map
             (fun m => map (pair (Some (Box.group_id g))) (eligible_email sw m))
             (firstn 100 (whole_roster sw (ev_channel ev)))
      /\ (forall m u',
            lookup_user sw (Some m) = Some u' ->
            Slack.is_bot u' = true \/ JS.truthy (Slack.email (Slack.profile u')) = false ->
            eligible_email sw m = [])
      /\ (forall m u',
            lookup_user sw (Some m) = Some u' ->
            Slack.is_bot u' = false ->
            JS.truthy (Slack.email (Slack.profile u')) = true ->
            eligible_email sw m = [Slack.email (Slack.profile u')]).
Proof.
  intros cfg sw b req ev u Ht Hev Hu Hbot.
  destruct (event_flow cfg sw b req ev u Ht Hev Hu) as (Ha & _).
  exists (mirror_group (ev_channel ev) b).
  rewrite Ha, getGroup_run, <- first_page_bound. unfold expected_adds.
  rewrite Hbot. repeat split.
  - intros m u' L [H|H]; unfold eligible_email; rewrite L, H;
      [reflexivity | rewrite andb_false_r; reflexivity].
  - intros m u' L H1 H2. unfold eligible_email. rewrite L, H1, H2. reflexivity.
Qed.

Lemma C4_fan_out_adds_eligible_members_witness :
  add_calls (trace (process Scenario.cfg Scenario.workspace Scenario.enterprise
                      (Scenario.event_req "secret" "member_joined_channel" "C1" "B1")))
  = [(Some "100"%string, Some "alice@example.com"%string);
     (Some "100"%string, Some "carol@example.com"%string)].
Proof.
  destruct (C4_fan_out_adds_eligible_members
              Scenario.cfg Scenario.workspace Scenario.enterprise
              (Scenario.event_req "secret" "member_joined_channel" "C1" "B1")
              {| ev_type := Some "member_joined_channel"%string;
                 ev_channel := Some "C1"%string; ev_user := Some "B1"%string |}
              (Scenario.robot "syncbot")
              eq_refl eq_refl eq_refl eq_refl) as (g & Hg & Hcalls & _).
  rewrite Hcalls. injection Hg as <-. reflexivity.
Defined.

(** ** Leaving a channel *)

Lemma with_mirror_group_memberships (c : JS.str) (b : Box.Enterprise) :
  Box.memberships (with_mirror_group c b) = Box.memberships b.
Proof. unfold with_mirror_group. destruct (group_named _ b); reflexivity. Qed.

Lemma errors_app (tr1 tr2 : list Event) :
  errors (tr1 ++ tr2) = errors tr1 ++ errors tr2.
Proof.
  induction tr1 as [|e tr1 IH]; [reflexivity|].
  destruct e; cbn; rewrite IH; reflexivity.
Qed.

Lemma getGroup_events_no_error (c : JS.str) (b : Box.Enterprise) :
  errors (getGroup_events c b) = [].
Proof. unfold getGroup_events. destruct (group_named _ b); reflexivity. Qed.

(** The handler on a [member_left_channel] event of a non-bot user with
    an email that no membership of the mirror group carries. *)
Lemma handleEventCallback_left_absent (cfg : Config) (req : ReqBody)
  (ev : SlackEvent) (u : Slack.User) (sw : Slack.Workspace) (b : Box.Enterprise)
  (st : nat) (sent : option (nat * ResBody)) (tr : list Event) :
  event req = Some ev ->
  ev_type ev = Some "member_left_channel"%string ->
  lookup_user sw (ev_user ev) = Some u ->
  Slack.is_bot u = false ->
  JS.truthy (Slack.email (Slack.profile u)) = true ->
  has_membership b (Box.group_id (mirror_group (ev_channel ev) b))
    (Slack.email (Slack.profile u)) = false ->
  exists evs,
    handleEventCallback cfg req
      {| slack := sw; box := b; res_status := st; res_sent := sent;
         pending := []; trace := tr |}
    = (Ret tt,
       {| slack := sw; box := with_mirror_group (ev_channel ev) b;
          res_status := st;
          res_sent := match sent with
                      | Some x => Some x
                      | None => Some (st, NoBody)
                      end;
          pending := []; trace := tr ++ evs |})
    /\ errors evs = [].
Proof.
  intros Hev Hleft Hu Hbot Hmail Habs.
  unfold handleEventCallback. rewrite Hev. run.
  erewrite getSlackUser_found by exact Hu. run.
  unfold syncSlackUsers. run. rewrite getGroup_run. run.
  rewrite Hbot, Hmail, Hleft. cbn [JS.strict_eq String.eqb Ascii.eqb Bool.eqb].
  cbn [dot_id].
  rewrite removeGroupUser_absent.
  - run. pose proof (getGroup_events_no_error (ev_channel ev) b) as Hq.
    destruct sent as [x|]; eexists; flat; (split; [reflexivity|]);
      cbn [errors]; rewrite !errors_app, Hq; reflexivity.
  - cbn [box]. apply mirror_group_found.
  - cbn [box]. unfold has_membership in *.
    rewrite with_mirror_group_memberships. exact Habs.
Qed.

(** The same at the level of the request: nothing goes wrong, a response
    is out, and the memberships are what they were. *)
Lemma left_absent_process (cfg : Config) (sw : Slack.Workspace) (b : Box.Enterprise)
  (req : ReqBody) (ev : SlackEvent) (u : Slack.User) :
  type req = Some "event_callback"%string ->
  event req = Some ev ->
  ev_type ev = Some "member_left_channel"%string ->
  lookup_user sw (ev_user ev) = Some u ->
  Slack.is_bot u = false ->
  JS.truthy (Slack.email (Slack.profile u)) = true ->
  has_membership b (Box.group_id (mirror_group (ev_channel ev) b))
    (Slack.email (Slack.profile u)) = false ->
  errors (trace (process cfg sw b req)) = []
  /\ res_sent (process cfg sw b req) <> None
  /\ Box.memberships (box (process cfg sw b req)) = Box.memberships b.
Proof.
  intros Ht Hev Hleft Hu Hbot Hmail Habs.
  remember (process cfg sw b req) as final eqn:Hf.
  unfold process in Hf. rewrite (post_event_event_callback cfg sw b req Ht) in Hf.
  destruct (handleEventCallback_left_absent cfg req ev u sw b
              (res_status (after_verify cfg sw b req))
              (res_sent (after_verify cfg sw b req))
              (trace (after_verify cfg sw b req))
              Hev Hleft Hu Hbot Hmail Habs) as (evs & E & Herr).
  unfold after_verify in *.
  destruct (JS.strict_eq (token req) (Some (verificationToken cfg)));
    cbn [initial res_status res_sent trace] in E; unfold fire, initial in Hf;
    rewrite E in Hf; unfold settle in Hf;
    cbn [snd pending run_tasks set_pending] in Hf; subst final;
    cbn [set_pending trace res_sent box app errors]; rewrite ?errors_app, Herr;
    (split; [reflexivity|]); (split; [discriminate|]);
    apply with_mirror_group_memberships.
Qed.

(** C5, as the program has it. Processing a [member_left_channel] event
    whose acting user is a non-bot with an email calls [removeGroupUser]
    exactly once, with the id of the channel's mirror group and that email,
    and [addGroupUser] not at all; if no membership of that group has the
    email as its user's login, nothing goes wrong (no exception, no
    rejection), a response is out, and the memberships of the enterprise are
    what they were. *)
Theorem C5_left_event_removes_once :
  forall (cfg : Config) (sw : Slack.Workspace) (b : Box.Enterprise)
         (req : ReqBody) (ev : SlackEvent) (u : Slack.User),
    type req = Some "event_callback"%string ->
    event req = Some ev ->
    ev_type ev = Some "member_left_channel"%string ->
    lookup_user sw (ev_user ev) = Some u ->
    Slack.is_bot u = false ->
    JS.truthy (Slack.email (Slack.profile u)) = true ->
    exists g : Box.Group,
      fst (getGroup (ev_channel ev) (initial sw b)) = Ret g
      /\ remove_calls (trace (process cfg sw b req))
         = [(Some (Box.group_id g), Slack.email (Slack.profile u))]
      /\ add_calls (trace (process cfg sw b req)) = []
      /\ (has_membership b (Box.group_id g) (Slack.email (Slack.profile u)) = false ->
          errors (trace (process cfg sw b req)) = []
          /\ res_sent (process cfg sw b req) <> None
          /\ Box.memberships (box (process cfg sw b req)) = Box.memberships b).
Proof.
  intros cfg sw b req ev u Ht Hev Hleft Hu Hbot Hmail.
  destruct (event_flow cfg sw b req ev u Ht Hev Hu) as (Ha & Hr & _).
  exists (mirror_group (ev_channel ev) b).
  rewrite Ha, Hr, getGroup_run. unfold expected_adds, expected_removes.
  rewrite Hbot, Hmail, Hleft. cbn [JS.strict_eq String.eqb Ascii.eqb Bool.eqb negb andb].
  repeat split; apply (left_absent_process cfg sw b req ev u); assumption.
Qed.

Lemma C5_left_event_removes_once_witness :
  remove_calls
    (trace (process Scenario.cfg Scenario.workspace Scenario.enterprise2
              (Scenario.event_req "secret" "member_left_channel" "C1" "U1")))
  = [(Some "7"%string, Some "alice@example.com"%string)]
  /\ errors
       (trace (process Scenario.cfg Scenario.workspace Scenario.enterprise2
                 (Scenario.event_req "secret" "member_left_channel" "C1" "U1")))
     = []
  /\ Box.memberships
       (box (process Scenario.cfg Scenario.workspace Scenario.enterprise2
               (Scenario.event_req "secret" "member_left_channel" "C1" "U1")))
     = Box.memberships Scenario.enterprise2.
Proof.
  destruct (C5_left_event_removes_once Scenario.cfg Scenario.workspace
              Scenario.enterprise2
              (Scenario.event_req "secret" "member_left_channel" "C1" "U1")
              {| ev_type := Some "member_left_channel"%string;
                 ev_channel := Some "C1"%string; ev_user := Some "U1"%string |}
              (Scenario.person "alice" (Some "alice@example.com"%string))
              eq_refl eq_refl eq_refl eq_refl eq_refl eq_refl)
    as (g & Hg & Hr & _ & Habs).
  injection Hg as <-.
  destruct (Habs eq_refl) as (He & _ & Hm).
  split; [exact Hr|]. split; [exact He | exact Hm].
Defined.

(** C5 as stated fails: a [member_left_channel] event of a user without
    an email, and one of a bot, lead to no call of [removeGroupUser]. *)
Lemma C5_left_event_without_remove_call :
  ev_type
    {| ev_type := Some "member_left_channel"%string;
       ev_channel := Some "C1"%string; ev_user := Some "U2"%string |}
  = Some "member_left_channel"%string
  /\ remove_calls
       (trace (process Scenario.cfg Scenario.workspace Scenario.enterprise
                 (Scenario.event_req "secret" "member_left_channel" "C1" "U2")))
     = []
  /\ remove_calls
       (trace (process Scenario.cfg Scenario.workspace Scenario.enterprise
                 (Scenario.event_req "secret" "member_left_channel" "C1" "B1")))
     = [].
Proof. repeat split. Qed.

(** ** The group is resolved whatever the event *)





(** ** The promise of [groups.create] *)

Lemma getGroup_body_creates (c : JS.str) (s : State) :
  group_named (mirror_name c) (box s) = None ->
  getGroup_body c s
  = (Ret (GroupPromise (Fulfils (mirror_group c (box s)))),
     upd (with_mirror_group c (box s)) (getGroup_events c (box s)) s).
Proof.
  intros Hnone.
  unfold getGroup_body, mirror_group, with_mirror_group, getGroup_events.
  rewrite Hnone. unfold group_named, mirror_name in Hnone.
  destruct s as [sw b st sent pend tr]. run. unfold Box.groups_getAll.
  cbn [box] in Hnone. rewrite Hnone. cbn. flat. reflexivity.
Qed.

Lemma expected_adds_group (sw : Slack.Workspace) (b : Box.Enterprise)
  (ev : SlackEvent) (u : Slack.User) (gid e : JS.str) :
  In (gid, e) (expected_adds sw b ev u) ->
  gid = Some (Box.group_id (mirror_group (ev_channel ev) b)).
Proof.
  unfold expected_adds. destruct (Slack.is_bot u).
  - intros H. apply in_flat_map in H. destruct H as (m & _ & H).
    apply in_map_iff in H. destruct H as (x & H & _). congruence.
  - destruct (_ && _); [|intros []].
    intros [H|[]]. congruence.
Qed.

Lemma expected_removes_group (b : Box.Enterprise) (ev : SlackEvent) (u : Slack.User)
  (gid e : JS.str) :
  In (gid, e) (expected_removes b ev u) ->
  gid = Some (Box.group_id (mirror_group (ev_channel ev) b)).
Proof.
  unfold expected_removes. destruct (_ && _); [|intros []].
  intros [H|[]]. congruence.
Qed.

(** C9, as the program has it. When the channel has no mirror group yet,
    the variable [group] of [getGroup] holds the promise that
    [client.groups.create] returned, not awaited, and a promise has no [id];
    but [getGroup] is an async function, so its caller's [await] gets what
    that promise fulfils with: the created group, which is in the enterprise
    by then and whose [id] is the one the service gave it.  Every call of
    [addGroupUser] and [removeGroupUser] that the first event on a new
    channel leads to is handed that id. *)
Theorem C9_created_group_reaches_the_caller :
  forall (cfg : Config) (sw : Slack.Workspace) (b : Box.Enterprise)
         (req : ReqBody) (ev : SlackEvent) (u : Slack.User),
    type req = Some "event_callback"%string ->
    event req = Some ev ->
    lookup_user sw (ev_user ev) = Some u ->
    group_named (mirror_name (ev_channel ev)) b = None ->
    exists (g : Box.Group) (s1 : State),
      getGroup_body (ev_channel ev) (initial sw b)
      = (Ret (GroupPromise (Fulfils g)), s1)
      /\ dot_id (GroupPromise (Fulfils g)) = None
      /\ getGroup (ev_channel ev) (initial sw b) = (Ret g, s1)
      /\ In g (Box.groups (box s1))
      /\ dot_id (GroupObject g) = Some (Box.fresh_id b)
      /\ (forall gid e,
            In (gid, e) (add_calls (trace (process cfg sw b req)))
            \/ In (gid, e) (remove_calls (trace (process cfg sw b req))) ->
            gid = Some (Box.fresh_id b)).
Proof.
  intros cfg sw b req ev u Ht Hev Hu Hnone.
  destruct (event_flow cfg sw b req ev u Ht Hev Hu) as (Ha & Hr & _).
  destruct (mirror_group_spec (ev_channel ev) b) as (_ & Hin & _).
  assert (Hid : Box.group_id (mirror_group (ev_channel ev) b) = Box.fresh_id b).
  { unfold mirror_group. rewrite Hnone. reflexivity. }
  exists (mirror_group (ev_channel ev) b). eexists.
  split; [apply (getGroup_body_creates (ev_channel ev) (initial sw b) Hnone)|].
  split; [reflexivity|].
  split; [apply getGroup_run|].
  split; [exact Hin|].
  split; [cbn [dot_id]; rewrite Hid; reflexivity|].
  intros gid e [H|H].
  - rewrite Ha in H. rewrite <- Hid. eapply expected_adds_group; eassumption.
  - rewrite Hr in H. rewrite <- Hid. eapply expected_removes_group; eassumption.
Qed.

Lemma C9_created_group_reaches_the_caller_witness :
  exists (g : Box.Group) (s1 : State),
    getGroup_body (Some "C1"%string) (initial Scenario.workspace Scenario.enterprise)
    = (Ret (GroupPromise (Fulfils g)), s1)
    /\ dot_id (GroupPromise (Fulfils g)) = None
    /\ getGroup (Some "C1"%string) (initial Scenario.workspace Scenario.enterprise)
       = (Ret g, s1)
    /\ In g (Box.groups (box s1))
    /\ dot_id (GroupObject g) = Some "100"%string
    /\ (forall gid e,
          In (gid, e)
            (add_calls
               (trace (process Scenario.cfg Scenario.workspace Scenario.enterprise
                         (Scenario.event_req "secret" "member_joined_channel"
                            "C1" "U1"))))
          \/ In (gid, e)
               (remove_calls
                  (trace (process Scenario.cfg Scenario.workspace
                            Scenario.enterprise
                            (Scenario.event_req "secret" "member_joined_channel"
                               "C1" "U1")))) ->
          gid = Some "100"%string).
Proof.
  apply (C9_created_group_reaches_the_caller
           Scenario.cfg Scenario.workspace Scenario.enterprise
           (Scenario.event_req "secret" "member_joined_channel" "C1" "U1")
           {| ev_type := Some "member_joined_channel"%string;
              ev_channel := Some "C1"%string; ev_user := Some "U1"%string |}
           (Scenario.person "alice" (Some "alice@example.com"%string)));
    reflexivity.
Defined.

(** C9 as stated fails: on the first event of a channel without a mirror
    group, [addGroupUser] is handed the id of the group just created, not
    [undefined]. *)
Lemma C9_first_event_hands_over_created_id :
  group_named "slack-C1" Scenario.enterprise = None
  /\ add_calls
       (trace (process Scenario.cfg Scenario.workspace Scenario.enterprise
                 (Scenario.event_req "secret" "member_joined_channel" "C1" "U1")))
     = [(Some "100"%string, Some "alice@example.com"%string)]
  /\ Box.groups
       (box (process Scenario.cfg Scenario.workspace Scenario.enterprise
               (Scenario.event_req "secret" "member_joined_channel" "C1" "U1")))
     = [{| Box.group_id := "100"%string; Box.group_name := "slack-C1"%string |}]
  /\ (Some "100"%string : JS.str) <> None.
Proof. repeat split. discriminate. Qed.

(** ** The [/boxadd] command *)

Lemma with_mirror_group_users (c : JS.str) (b : Box.Enterprise) (t : JS.str) :
  Box.enterprise_getUsers t (with_mirror_group c b) = Box.enterprise_getUsers t b.
Proof. unfold with_mirror_group. destruct (group_named _ b); reflexivity. Qed.

Lemma with_mirror_group_rest (c : JS.str) (b : Box.Enterprise) :
  Box.collaborations (with_mirror_group c b) = Box.collaborations b
  /\ Box.as_user (with_mirror_group c b) = Box.as_user b
  /\ Box.collab_accepts (with_mirror_group c b) = Box.collab_accepts b.
Proof. unfold with_mirror_group. destruct (group_named _ b); repeat split. Qed.

(** The statements of [handleCommand] after the validation, for a
    requester that Slack knows and whose email finds a Box user [bu], on a
    response that is not out yet. *)
Lemma handleCommand_rest_resolved (cfg : Config) (c uid ty item : JS.str)
  (su : Slack.User) (bu : Box.User) (sw : Slack.Workspace) (b : Box.Enterprise)
  (st : nat) (tr : list Event) :
  lookup_user sw uid = Some su ->
  hd_error (Box.enterprise_getUsers (Slack.email (Slack.profile su)) b) = Some bu ->
  let gid := Box.group_id (mirror_group c b) in
  let ok := Box.collab_accepts b (Some (Box.user_id bu)) gid item ty in
  exists b',
    handleCommand_rest cfg c uid ty item
      {| slack := sw; box := b; res_status := st; res_sent := None;
         pending := []; trace := tr |}
    = (Ret tt,
       {| slack := sw; box := b'; res_status := st;
          res_sent :=
            Some (st, TextBody (if ok then "Provided all users with access to item"
                                else "Could not provide all users access"));
          pending := [];
          trace :=
            tr ++ getGroup_events c b
               ++ [AxiosGet (users_info_url cfg uid);
                   Sdk (Enterprise_getUsers (Slack.email (Slack.profile su)));
                   Sdk (Client_asUser (Box.user_id bu));
                   Sdk (Collaborations_createWithGroupID (Some gid) item
                          Box.collaborationRoles_VIEWER ty);
                   ResSend st
                     (TextBody (if ok then "Provided all users with access to item"
                                else "Could not provide all users access"))] |})
    /\ Box.groups b' = Box.groups (with_mirror_group c b)
    /\ Box.memberships b' = Box.memberships b
    /\ Box.collaborations b'
       = Box.collaborations b
         ++ (if ok
             then [{| Box.collab_as_user := Some (Box.user_id bu);
                      Box.collab_group := gid; Box.collab_item := item;
                      Box.collab_role := Box.collaborationRoles_VIEWER;
                      Box.collab_type := ty |}]
             else []).
Proof.
  intros Hsu Hbu gid ok.
  destruct (with_mirror_group_rest c b) as (Hco & Hau & Hacc).
  pose proof (mirror_group_found c b) as Hfound.
  unfold handleCommand_rest. run. rewrite getGroup_run. run.
  erewrite getSlackUser_found by exact Hsu. run.
  rewrite with_mirror_group_users, Hbu. run.
  unfold Box.collaborations_createWithGroupID, dot_id.
  fold gid. fold gid in Hfound.
  replace (Box.find_group gid (Box.with_as_user (Some (Box.user_id bu))
                                 (with_mirror_group c b)))
    with (Box.find_group gid (with_mirror_group c b)) by reflexivity.
  destruct (Box.find_group gid (with_mirror_group c b)) as [g|]; [|congruence].
  cbn [Box.collab_accepts Box.as_user Box.with_as_user].
  rewrite Hacc. fold ok.
  destruct ok.
  - eexists. flat. split; [reflexivity|]. cbn.
    rewrite Hco, with_mirror_group_memberships. repeat split.
  - eexists. flat. split; [reflexivity|]. cbn.
    rewrite Hco, with_mirror_group_memberships, app_nil_r. repeat split.
Qed.

(** The statements of [handleCommand] after the validation, whatever the
    lookups give and whether or not a response is out: the mirror group is
    found or created, and the collaboration is asked for exactly when the
    requester resolves to a Box user. *)
Lemma handleCommand_rest_run (cfg : Config) (c uid ty item : JS.str)
  (sw : Slack.Workspace) (b : Box.Enterprise) (st : nat)
  (sent : option (nat * ResBody)) (tr : list Event) :
  let gid := Box.group_id (mirror_group c b) in
  exists r b' sent' evs,
    handleCommand_rest cfg c uid ty item
      {| slack := sw; box := b; res_status := st; res_sent := sent;
         pending := []; trace := tr |}
    = (r, {| slack := sw; box := b'; res_status := st; res_sent := sent';
             pending := []; trace := tr ++ getGroup_events c b ++ evs |})
    /\ Box.groups b' = Box.groups (with_mirror_group c b)
    /\ Box.memberships b' = Box.memberships b
    /\ add_calls evs = [] /\ remove_calls evs = []
    /\ collab_calls evs
       = match requester sw b uid with
         | Some _ => [(Some gid, item, Box.collaborationRoles_VIEWER, ty)]
         | None => []
         end
    /\ Box.collaborations b'
       = Box.collaborations b
         ++ match requester sw b uid with
            | Some bu =>
                if Box.collab_accepts b (Some (Box.user_id bu)) gid item ty
                then [wanted_collab b c ty item bu]
                else []
            | None => []
            end
    /\ (forall x, sent = Some x -> sent' = Some x).
Proof.
  intros gid.
  destruct (with_mirror_group_rest c b) as (Hco & Hau & Hacc).
  pose proof (mirror_group_found c b) as Hfound.
  pose proof (with_mirror_group_memberships c b) as Hmem.
  unfold handleCommand_rest, requester. run. rewrite getGroup_run. run.
  destruct (lookup_user sw uid) as [su|] eqn:Hsu.
  - erewrite getSlackUser_found by exact Hsu. run.
    rewrite with_mirror_group_users.
    destruct (hd_error (Box.enterprise_getUsers _ b)) as [bu|]; run.
    + unfold Box.collaborations_createWithGroupID, dot_id, wanted_collab.
      fold gid. fold gid in Hfound.
      replace (Box.find_group gid (Box.with_as_user (Some (Box.user_id bu))
                                     (with_mirror_group c b)))
        with (Box.find_group gid (with_mirror_group c b)) by reflexivity.
      destruct (Box.find_group gid (with_mirror_group c b)) as [g|]; [|congruence].
      cbn [Box.collab_accepts Box.as_user Box.with_as_user].
      rewrite Hacc.
      destruct (Box.collab_accepts b (Some (Box.user_id bu)) gid item ty);
        destruct sent as [x|];
        eexists _, _, _, _; flat; (split; [reflexivity|]); cbn;
        rewrite ?Hco, ?Hmem, ?app_nil_r; repeat split; congruence.
    + destruct sent as [x|];
        eexists _, _, _, _; flat; (split; [reflexivity|]); cbn;
        rewrite ?Hco, ?Hmem, ?app_nil_r; repeat split; congruence.
  - match goal with
    | |- context [getSlackUser ?a ?u ?s] =>
        destruct (getSlackUser_missing a u s Hsu)
          as (r & evs & -> & (Ha & Hr & Hc) & [-> | [e ->]] & _)
    end; run;
      eexists _, _, _, _; flat; (split; [reflexivity|]); calls;
      rewrite Ha, Hr, Hc, ?Hco, ?Hmem, ?app_nil_r; repeat split; congruence.
Qed.

Lemma post_event_command (cfg : Config) (sw : Slack.Workspace)
  (b : Box.Enterprise) (req : ReqBody) :
  routes_to_command req = true ->
  post_event cfg req (initial sw b)
  = snd (fire (handleCommand cfg req) (after_verify cfg sw b req)).
Proof.
  unfold routes_to_command. intros H.
  apply andb_true_iff in H. destruct H as [H H3].
  apply andb_true_iff in H. destruct H as [H1 H2].
  apply negb_true_iff in H1, H2.
  unfold post_event, express_finish, bind. rewrite verify_run.
  unfold dispatch. rewrite H1, H2, H3.
  rewrite fire_ret. reflexivity.
Qed.

(** What processing a [/boxadd] command comes to, unless both the token
    test and the validation fail. *)
Lemma command_flow (cfg : Config) (sw : Slack.Workspace) (b : Box.Enterprise)
  (req : ReqBody) (t : string) :
  routes_to_command req = true ->
  text req = Some t ->
  let ty := nth_error (JS.split_space t) 0 in
  let item := nth_error (JS.split_space t) 1 in
  let gid := Box.group_id (mirror_group (channel_id req) b) in
  let good := JS.strict_eq (token req) (Some (verificationToken cfg)) in
  good || negb (invalid_input ty item) = true ->
  Box.groups (box (process cfg sw b req))
  = Box.groups (with_mirror_group (channel_id req) b)
  /\ Box.memberships (box (process cfg sw b req)) = Box.memberships b
  /\ add_calls (trace (process cfg sw b req)) = []
  /\ remove_calls (trace (process cfg sw b req)) = []
  /\ collab_calls (trace (process cfg sw b req))
     = match requester sw b (user_id req) with
       | Some _ => [(Some gid, item, Box.collaborationRoles_VIEWER, ty)]
       | None => []
       end
  /\ Box.collaborations (box (process cfg sw b req))
     = Box.collaborations b
       ++ match requester sw b (user_id req) with
          | Some bu =>
              if Box.collab_accepts b (Some (Box.user_id bu)) gid item ty
              then [wanted_collab b (channel_id req) ty item bu]
              else []
          | None => []
          end
  /\ (good = false ->
      res_sent (process cfg sw b req) = Some (400, verification_failed))
  /\ (good = true -> invalid_input ty item = true ->
      res_sent (process cfg sw b req) = Some (200, usage)).
Proof.
  intros Hroute Htext ty item gid good Hcase.
  subst ty item gid good.
  remember (process cfg sw b req) as final eqn:Hf.
  unfold process in Hf. rewrite (post_event_command cfg sw b req Hroute) in Hf.
  unfold handleCommand in Hf. rewrite Htext in Hf.
  unfold after_verify, initial in Hf. run_in Hf.
  assert (Hq : quiet (getGroup_events (channel_id req) b)).
  { unfold getGroup_events. destruct (group_named _ b); repeat split. }
  destruct Hq as (Hqa & Hqr & Hqc).
  destruct (JS.strict_eq (token req) (Some (verificationToken cfg)));
    destruct (invalid_input _ _); try discriminate Hcase;
    run_in Hf;
    match type of Hf with
    | context [handleCommand_rest ?a ?c ?u ?y ?i
                 {| slack := _; box := _; res_status := ?st; res_sent := ?sent;
                    pending := _; trace := ?tr |}] =>
        destruct (handleCommand_rest_run a c u y i sw b st sent tr)
          as (r & b' & sent' & evs & E & Hg & Hm & Ha & Hr & Hc & Hco & Hsent);
        rewrite E in Hf
    end;
    destruct r as [[]|e]; unfold settle in Hf;
    cbn [pending run_tasks set_pending trace slack box res_sent res_status app] in Hf;
    subst final;
    cbn [run_tasks set_pending pending trace slack box res_sent res_status]; calls; rewrite Hqa, Hqr, Hqc, Ha, Hr, Hc; cbn [app];
    rewrite ?app_nil_r;
    repeat split; try assumption; try discriminate;
    intros; apply Hsent; reflexivity.
Qed.

Lemma handleCommand_rest_not_found (cfg : Config) (c uid ty item : JS.str)
  (su : Slack.User) (sw : Slack.Workspace) (b : Box.Enterprise)
  (st : nat) (tr : list Event) :
  lookup_user sw uid = Some su ->
  hd_error (Box.enterprise_getUsers (Slack.email (Slack.profile su)) b) = None ->
  handleCommand_rest cfg c uid ty item
    {| slack := sw; box := b; res_status := st; res_sent := None;
       pending := []; trace := tr |}
  = (Ret tt,
     {| slack := sw; box := with_mirror_group c b; res_status := st;
        res_sent := Some (st, not_found (Slack.email (Slack.profile su)));
        pending := [];
        trace :=
          tr ++ getGroup_events c b
             ++ [AxiosGet (users_info_url cfg uid);
                 Sdk (Enterprise_getUsers (Slack.email (Slack.profile su)));
                 ResSend st (not_found (Slack.email (Slack.profile su)))] |}).
Proof.
  intros Hsu Hbu.
  unfold handleCommand_rest, not_found. run. rewrite getGroup_run. run.
  erewrite getSlackUser_found by exact Hsu. run.
  rewrite with_mirror_group_users, Hbu. run. flat. reflexivity.
Qed.

(** The response to a verified, well-formed [/boxadd] of a requester that
    Slack knows. *)
Lemma command_response (cfg : Config) (sw : Slack.Workspace) (b : Box.Enterprise)
  (req : ReqBody) (t : string) (su : Slack.User) :
  routes_to_command req = true ->
  text req = Some t ->
  JS.strict_eq (token req) (Some (verificationToken cfg)) = true ->
  invalid_input (nth_error (JS.split_space t) 0) (nth_error (JS.split_space t) 1)
  = false ->
  lookup_user sw (user_id req) = Some su ->
  res_sent (process cfg sw b req)
  = Some (200,
          match hd_error (Box.enterprise_getUsers (Slack.email (Slack.profile su)) b)
          with
          | Some bu =>
              TextBody
                (if Box.collab_accepts b (Some (Box.user_id bu))
                      (Box.group_id (mirror_group (channel_id req) b))
                      (nth_error (JS.split_space t) 1)
                      (nth_error (JS.split_space t) 0)
                 then "Provided all users with access to item"
                 else "Could not provide all users access")
          | None => not_found (Slack.email (Slack.profile su))
          end)
  /\ errors (trace (process cfg sw b req)) = [].
Proof.
  intros Hroute Htext Hgood Hvalid Hsu.
  remember (process cfg sw b req) as final eqn:Hf.
  unfold process in Hf. rewrite (post_event_command cfg sw b req Hroute) in Hf.
  unfold handleCommand in Hf. rewrite Htext in Hf.
  unfold after_verify, initial in Hf. rewrite Hgood in Hf. run_in Hf.
  rewrite Hvalid in Hf. run_in Hf.
  pose proof (getGroup_events_no_error (channel_id req) b) as Hq.
  destruct (hd_error (Box.enterprise_getUsers (Slack.email (Slack.profile su)) b))
    as [bu|] eqn:Hbu.
  - destruct (handleCommand_rest_resolved cfg (channel_id req) (user_id req)
                (nth_error (JS.split_space t) 0) (nth_error (JS.split_space t) 1)
                su bu sw b 200 [] Hsu Hbu) as (b' & E & _).
    rewrite E in Hf. unfold settle in Hf.
    cbn [pending run_tasks set_pending trace slack box res_sent res_status app] in Hf.
    subst final. cbn [set_pending trace res_sent].
    rewrite errors_app, Hq. split; reflexivity.
  - rewrite (handleCommand_rest_not_found cfg (channel_id req) (user_id req)
               (nth_error (JS.split_space t) 0) (nth_error (JS.split_space t) 1)
               su sw b 200 [] Hsu Hbu) in Hf.
    unfold settle in Hf.
    cbn [pending run_tasks set_pending trace slack box res_sent res_status app] in Hf.
    subst final. cbn [set_pending trace res_sent].
    rewrite errors_app, Hq. split; reflexivity.
Qed.

(** C6, as the program has it. For a [/boxadd] whose token matches, whose
    text passes the validation (item type [file] or [folder], item id not
    NaN) and whose requester Slack knows: when the search for the
    requester's email finds a Box user, exactly one collaboration is asked
    for, with the mirror group's id, the given item id, role VIEWER and the
    given item type, and the response is the success message if the service
    accepts it and the failure message if it refuses; when the search finds
    no one, the response is the not-found message and no collaboration is
    asked for. *)
Theorem C6_boxadd_collaboration :
  forall (cfg : Config) (sw : Slack.Workspace) (b : Box.Enterprise)
         (req : ReqBody) (t : string) (su : Slack.User),
    routes_to_command req = true ->
    text req = Some t ->
    JS.strict_eq (token req) (Some (verificationToken cfg)) = true ->
    let ty := nth_error (JS.split_space t) 0 in
    let item := nth_error (JS.split_space t) 1 in
    invalid_input ty item = false ->
    lookup_user sw (user_id req) = Some su ->
    let email := Slack.email (Slack.profile su) in
    let gid := Box.group_id (mirror_group (channel_id req) b) in
    let final := process cfg sw b req in
    (forall bu : Box.User,
        hd_error (Box.enterprise_getUsers email b) = Some bu ->
        collab_calls (trace final)
        = [(Some gid, item, Box.collaborationRoles_VIEWER, ty)]
        /\ (Box.collab_accepts b (Some (Box.user_id bu)) gid item ty = true ->
            res_sent final
            = Some (200, TextBody "Provided all users with access to item")
            /\ Box.collaborations (box final)
               = Box.collaborations b
                 ++ [wanted_collab b (channel_id req) ty item bu])
        /\ (Box.collab_accepts b (Some (Box.user_id bu)) gid item ty = false ->
            res_sent final
            = Some (200, TextBody "Could not provide all users access")
            /\ Box.collaborations (box final) = Box.collaborations b))
    /\ (hd_error (Box.enterprise_getUsers email b) = None ->
        collab_calls (trace final) = []
        /\ res_sent final = Some (200, not_found email)
        /\ Box.collaborations (box final) = Box.collaborations b).
Proof.
  intros cfg sw b req t su Hroute Htext Hgood ty item Hvalid Hsu email gid final.
  destruct (command_flow cfg sw b req t Hroute Htext) as (_ & _ & _ & _ & Hc & Hco & _).
  { rewrite Hgood. reflexivity. }
  destruct (command_response cfg sw b req t su Hroute Htext Hgood Hvalid Hsu)
    as (Hres & _).
  fold final ty item gid in Hc, Hco, Hres. fold email in Hres.
  unfold requester in Hc, Hco. rewrite Hsu in Hc, Hco. fold email in Hc, Hco.
  split.
  - intros bu Hbu. rewrite Hbu in Hc, Hco, Hres. split; [exact Hc|].
    split; intros Hacc; rewrite Hacc in Hco, Hres; split; try exact Hres.
    + exact Hco.
    + rewrite app_nil_r in Hco. exact Hco.
  - intros Hbu. rewrite Hbu in Hc, Hco, Hres.
    rewrite app_nil_r in Hco. repeat split; assumption.
Qed.

Lemma C6_boxadd_collaboration_witness :
  collab_calls
    (trace (process Scenario.cfg Scenario.workspace Scenario.enterprise
              (Scenario.command_req "secret" "C1" "U1" "file 123456")))
  = [(Some "100"%string, Some "123456"%string, "viewer"%string, Some "file"%string)]
  /\ res_sent (process Scenario.cfg Scenario.workspace Scenario.enterprise
                 (Scenario.command_req "secret" "C1" "U1" "file 123456"))
     = Some (200, TextBody "Provided all users with access to item").
Proof.
  destruct (C6_boxadd_collaboration
              Scenario.cfg Scenario.workspace Scenario.enterprise
              (Scenario.command_req "secret" "C1" "U1" "file 123456")
              "file 123456"
              (Scenario.person "alice" (Some "alice@example.com"%string))
              eq_refl eq_refl eq_refl eq_refl eq_refl) as [H _].
  destruct (H Scenario.alice eq_refl) as (Hc & Hok & _).
  destruct (Hok eq_refl) as [Hres _].
  split; [exact Hc | exact Hres].
Defined.

(** C6 as stated fails: a verified [/boxadd file 999] of a requester that
    resolves to a Box user asks for the collaboration once, the service
    refuses it, and the response is the failure message, not the success
    one. *)
Lemma C6_refused_collaboration_is_no_success :
  invalid_input (Some "file"%string) (Some "999"%string) = false
  /\ requester Scenario.workspace Scenario.enterprise (Some "U1"%string)
     = Some Scenario.alice
  /\ collab_calls
       (trace (process Scenario.cfg Scenario.workspace Scenario.enterprise
                 (Scenario.command_req "secret" "C1" "U1" "file 999")))
     = [(Some "100"%string, Some "999"%string, "viewer"%string, Some "file"%string)]
  /\ res_sent (process Scenario.cfg Scenario.workspace Scenario.enterprise
                 (Scenario.command_req "secret" "C1" "U1" "file 999"))
     = Some (200, TextBody "Could not provide all users access")
  /\ res_sent (process Scenario.cfg Scenario.workspace Scenario.enterprise
                 (Scenario.command_req "secret" "C1" "U1" "file 999"))
     <> Some (200, TextBody "Provided all users with access to item").
Proof. repeat split. discriminate. Qed.

(** ** Error responses that do not stop the processing *)

(** A [/boxadd] that fails both checks: the response is the 400 of the
    token test, the [send] of the usage message throws, and [handleCommand]
    ends there, before find-or-create. *)
Lemma command_both_checks_fail (cfg : Config) (sw : Slack.Workspace)
  (b : Box.Enterprise) (req : ReqBody) (t : string) :
  JS.strict_eq (token req) (Some (verificationToken cfg)) = false ->
  routes_to_command req = true ->
  text req = Some t ->
  invalid_input (nth_error (JS.split_space t) 0) (nth_error (JS.split_space t) 1)
  = true ->
  process cfg sw b req
  = {| slack := sw; box := b; res_status := 400;
       res_sent := Some (400, verification_failed); pending := [];
       trace := [ResSend 400 verification_failed; UnhandledRejection HeadersSent] |}.
Proof.
  intros Hbad Hroute Htext Hinvalid.
  unfold process. rewrite (post_event_command cfg sw b req Hroute).
  unfold handleCommand, after_verify. rewrite Hbad, Htext. run.
  rewrite Hinvalid. reflexivity.
Qed.

(** C7. When the token does not match, the 400 response goes out and the
    classification runs all the same, from the state with that response out;
    an event callback then leads to the same calls and the same groups and
    collaborations as with the right token, and so does a [/boxadd] whose
    text is valid.  When the text of a verified [/boxadd] fails the
    validation, the usage response goes out and the rest of [handleCommand]
    runs all the same: the mirror group is found or created, and the
    collaboration is asked for (and made, if the service accepts it) whenever
    the requester resolves to a Box user.  When the token does not match and
    the text fails the validation as well, no usage response goes out: the
    400 is the response, the second [send] throws inside [handleCommand], and
    the handler ends there, before find-or-create and every step after it. *)
Theorem C7_error_response_then_fall_through :
  forall (cfg : Config) (sw : Slack.Workspace) (b : Box.Enterprise) (req : ReqBody),
    (JS.strict_eq (token req) (Some (verificationToken cfg)) = false ->
     let verified := with_token (Some (verificationToken cfg)) req in
     verify cfg req (initial sw b) = (Ret tt, rejected sw b)
     /\ post_event cfg req (initial sw b)
        = express_finish (dispatch cfg req (rejected sw b))
     /\ ((exists ev u, type req = Some "event_callback"%string
                       /\ event req = Some ev
                       /\ lookup_user sw (ev_user ev) = Some u)
         \/ (exists t, routes_to_command req = true
                       /\ text req = Some t
                       /\ invalid_input (nth_error (JS.split_space t) 0)
                            (nth_error (JS.split_space t) 1) = false) ->
         add_calls (trace (process cfg sw b req))
         = add_calls (trace (process cfg sw b verified))
         /\ remove_calls (trace (process cfg sw b req))
            = remove_calls (trace (process cfg sw b verified))
         /\ collab_calls (trace (process cfg sw b req))
            = collab_calls (trace (process cfg sw b verified))
         /\ Box.groups (box (process cfg sw b req))
            = Box.groups (box (process cfg sw b verified))
         /\ Box.collaborations (box (process cfg sw b req))
            = Box.collaborations (box (process cfg sw b verified))))
    /\ (forall t : string,
          JS.strict_eq (token req) (Some (verificationToken cfg)) = true ->
          routes_to_command req = true ->
          text req = Some t ->
          let ty := nth_error (JS.split_space t) 0 in
          let item := nth_error (JS.split_space t) 1 in
          let gid := Box.group_id (mirror_group (channel_id req) b) in
          invalid_input ty item = true ->
          handleCommand cfg req (initial sw b)
          = handleCommand_rest cfg (channel_id req) (user_id req) ty item
              (told_usage sw b)
          /\ res_sent (process cfg sw b req) = Some (200, usage)
          /\ Box.groups (box (process cfg sw b req))
             = Box.groups (box (snd (getGroup (channel_id req) (initial sw b))))
          /\ collab_calls (trace (process cfg sw b req))
             = match requester sw b (user_id req) with
               | Some _ => [(Some gid, item, Box.collaborationRoles_VIEWER, ty)]
               | None => []
               end
          /\ Box.collaborations (box (process cfg sw b req))
             = Box.collaborations b
               ++ match requester sw b (user_id req) with
                  | Some bu =>
                      if Box.collab_accepts b (Some (Box.user_id bu)) gid item ty
                      then [wanted_collab b (channel_id req) ty item bu]
                      else []
                  | None => []
                  end)
    /\ (forall t : string,
          JS.strict_eq (token req) (Some (verificationToken cfg)) = false ->
          routes_to_command req = true ->
          text req = Some t ->
          invalid_input (nth_error (JS.split_space t) 0)
            (nth_error (JS.split_space t) 1) = true ->
          trace (process cfg sw b req)
          = [ResSend 400 verification_failed; UnhandledRejection HeadersSent]
          /\ res_sent (process cfg sw b req) = Some (400, verification_failed)
          /\ box (process cfg sw b req) = b).
Proof.
  intros cfg sw b req. split; [|split].
  - intros Hbad verified.
    assert (Hv : verify cfg req (initial sw b) = (Ret tt, rejected sw b)).
    { rewrite verify_run. unfold after_verify. rewrite Hbad. reflexivity. }
    split; [exact Hv|]. split.
    { unfold post_event, bind. rewrite Hv. reflexivity. }
    intros [(ev & u & Ht & Hev & Hu) | (t & Hroute & Htext & Hvalid)].
    + destruct (event_flow cfg sw b req ev u Ht Hev Hu)
        as (Ha & Hr & Hc & Hg & Hco & _).
      destruct (event_flow cfg sw b verified ev u Ht Hev Hu)
        as (Ha' & Hr' & Hc' & Hg' & Hco' & _).
      repeat split; congruence.
    + destruct (command_flow cfg sw b req t Hroute Htext)
        as (Hg & _ & Ha & Hr & Hc & Hco & _).
      { rewrite Hvalid. apply orb_true_r. }
      destruct (command_flow cfg sw b verified t Hroute Htext)
        as (Hg' & _ & Ha' & Hr' & Hc' & Hco' & _).
      { rewrite Hvalid. apply orb_true_r. }
      cbn [verified with_token channel_id user_id] in *.
      repeat split; congruence.
  - intros t Hgood Hroute Htext ty item gid Hinvalid.
    destruct (command_flow cfg sw b req t Hroute Htext)
      as (Hg & _ & _ & _ & Hc & Hco & _ & Hres).
    { rewrite Hgood. reflexivity. }
    split.
    { unfold handleCommand, told_usage, usage, initial. rewrite Htext. run.
      unfold ty, item in Hinvalid. rewrite Hinvalid. reflexivity. }
    rewrite getGroup_run. cbn [snd]. rewrite box_upd. cbn [initial box].
    repeat split; auto.
  - intros t Hbad Hroute Htext Hinvalid.
    rewrite (command_both_checks_fail cfg sw b req t Hbad Hroute Htext Hinvalid).
    repeat split.
Qed.

Lemma C7_error_response_then_fall_through_witness :
  (post_event Scenario.cfg (Scenario.event_req "wrong" "member_joined_channel" "C1" "U1")
     (initial Scenario.workspace Scenario.enterprise)
   = express_finish
       (dispatch Scenario.cfg
          (Scenario.event_req "wrong" "member_joined_channel" "C1" "U1")
          (rejected Scenario.workspace Scenario.enterprise)))
  /\ add_calls
       (trace (process Scenario.cfg Scenario.workspace Scenario.enterprise
                 (Scenario.event_req "wrong" "member_joined_channel" "C1" "U1")))
     = [(Some "100"%string, Some "alice@example.com"%string)]
  /\ res_sent (process Scenario.cfg Scenario.workspace Scenario.enterprise
                 (Scenario.command_req "secret" "C1" "U1" "badtype 123456"))
     = Some (200, usage)
  /\ Box.collaborations
       (box (process Scenario.cfg Scenario.workspace Scenario.enterprise
               (Scenario.command_req "secret" "C1" "U1" "badtype 123456")))
     = [{| Box.collab_as_user := Some "11"%string; Box.collab_group := "100"%string;
           Box.collab_item := Some "123456"%string;
           Box.collab_role := "viewer"%string;
           Box.collab_type := Some "badtype"%string |}]
  /\ box (process Scenario.cfg Scenario.workspace Scenario.enterprise
             (Scenario.command_req "wrong" "C1" "U1" "file abc"))
     = Scenario.enterprise.
Proof.
  destruct (C7_error_response_then_fall_through
              Scenario.cfg Scenario.workspace Scenario.enterprise
              (Scenario.event_req "wrong" "member_joined_channel" "C1" "U1"))
    as (A & _ & _).
  destruct (A eq_refl) as (_ & Hpost & Hsame).
  destruct Hsame as (Ha & _).
  { left.
    exists {| ev_type := Some "member_joined_channel"%string;
              ev_channel := Some "C1"%string; ev_user := Some "U1"%string |}.
    exists (Scenario.person "alice" (Some "alice@example.com"%string)).
    repeat split. }
  destruct (C7_error_response_then_fall_through
              Scenario.cfg Scenario.workspace Scenario.enterprise
              (Scenario.command_req "secret" "C1" "U1" "badtype 123456"))
    as (_ & B & _).
  destruct (B "badtype 123456"%string eq_refl eq_refl eq_refl eq_refl)
    as (_ & Hres & _ & _ & Hco).
  destruct (C7_error_response_then_fall_through
              Scenario.cfg Scenario.workspace Scenario.enterprise
              (Scenario.command_req "wrong" "C1" "U1" "file abc"))
    as (_ & _ & C).
  destruct (C "file abc"%string eq_refl eq_refl eq_refl eq_refl)
    as (_ & _ & Hbox).
  split; [exact Hpost|]. split; [rewrite Ha; reflexivity|].
  split; [exact Hres|]. split; [rewrite Hco; reflexivity | exact Hbox].
Defined.

(** C7 as stated fails: on a [/boxadd] whose token does not match and
    whose text fails the validation, the 400 of the token test is the
    response, the [send] of the usage message throws, and [handleCommand]
    ends there: no usage response, no find-or-create, no lookup, no
    collaboration.  The same command with the right token goes on to create
    the mirror group. *)
Lemma C7_both_checks_fail_ends_the_command :
  let req := Scenario.command_req "wrong" "C1" "U1" "badtype abc" in
  let final := process Scenario.cfg Scenario.workspace Scenario.enterprise req in
  JS.strict_eq (token req) (Some (verificationToken Scenario.cfg)) = false
  /\ invalid_input (nth_error (JS.split_space "badtype abc") 0)
       (nth_error (JS.split_space "badtype abc") 1) = true
  /\ trace final
     = [ResSend 400 verification_failed; UnhandledRejection HeadersSent]
  /\ res_sent final = Some (400, verification_failed)
  /\ box final = Scenario.enterprise
  /\ Box.groups
       (box (process Scenario.cfg Scenario.workspace Scenario.enterprise
               (Scenario.command_req "secret" "C1" "U1" "badtype abc")))
     = [{| Box.group_id := "100"%string; Box.group_name := "slack-C1"%string |}].
Proof. repeat split. Qed.

(** ** The membership test of [addGroupUser] *)

(** What [addGroupUser] tests is whether the user has any membership at
    all: every entry of [users.getGroupMemberships(userId)] has that user, so
    the filter on [m.user.id] keeps them all.  With one membership, in
    whatever group, the enterprise is left as it is. *)
Lemma addGroupUser_skips_on_any_membership (groupId email : JS.str) (s : State)
  (u : Box.User) (m : Box.Membership) :
  hd_error (Box.enterprise_getUsers email (box s)) = Some u ->
  In m (Box.memberships (box s)) ->
  Box.user_id (Box.membership_user m) = Box.user_id u ->
  fst (addGroupUser groupId email s) = Ret tt
  /\ box (snd (addGroupUser groupId email s)) = box s.
Proof.
  intros Hu Hin Hid.
  unfold addGroupUser. destruct s as [sw b st sent pend tr]. run.
  cbn [box] in Hu, Hin. rewrite Hu.
  unfold Box.users_getGroupMemberships.
  assert (Hm : In m (filter
                       (fun m0 => (Box.user_id (Box.membership_user m0)
                                   =? Box.user_id u)%string)
                       (filter
                          (fun m0 => (Box.user_id (Box.membership_user m0)
                                      =? Box.user_id u)%string)
                          (Box.memberships b)))).
  { apply filter_In. split; [apply filter_In; split|]; try assumption;
      rewrite Hid; apply String.eqb_refl. }
  destruct (filter _ (filter _ (Box.memberships b))) as [|m0 ms];
    [destruct Hm|].
  split; reflexivity.
Qed.

(** C1, where the program departs from it. Alice is a member of the
    mirror group of C2 and of no other group.  [addGroupUser] for the mirror
    group of C1 finds her membership of the other group, logs that she is
    already a member of the group of C1, and adds nothing: after a
    [member_joined_channel] event for C1 she is still not a member of its
    group. *)
Theorem C1_membership_test_ignores_the_group :
  has_membership Scenario.enterprise2 "7" (Some "alice@example.com"%string) = false
  /\ has_membership Scenario.enterprise2 "8" (Some "alice@example.com"%string) = true
  /\ addGroupUser (Some "7"%string) (Some "alice@example.com"%string)
       (initial Scenario.workspace Scenario.enterprise2)
     = (Ret tt,
        {| slack := Scenario.workspace; box := Scenario.enterprise2;
           res_status := 200; res_sent := None; pending := [];
           trace :=
             [Enter_addGroupUser (Some "7"%string) (Some "alice@example.com"%string);
              ConsoleLog "Adding alice@example.com to group 7";
              Sdk (Enterprise_getUsers (Some "alice@example.com"%string));
              Sdk (Users_getGroupMemberships "11");
              ConsoleLog "User alice@example.com is already a member of group 7"] |})
  /\ add_calls
       (trace (process Scenario.cfg Scenario.workspace Scenario.enterprise2
                 (Scenario.event_req "secret" "member_joined_channel" "C1" "U1")))
     = [(Some "7"%string, Some "alice@example.com"%string)]
  /\ has_membership
       (box (process Scenario.cfg Scenario.workspace Scenario.enterprise2
               (Scenario.event_req "secret" "member_joined_channel" "C1" "U1")))
       "7" (Some "alice@example.com"%string) = false.
Proof. repeat split. Qed.

(** ** A user lookup that fails *)

(** An event callback whose acting user the lookup does not return: the
    handler ends in a rejection that nobody handles, before find-or-create;
    it sends no response and the enterprise is as it was. *)
Lemma failed_lookup_ends_event_callback (cfg : Config) (sw : Slack.Workspace)
  (b : Box.Enterprise) (req : ReqBody) (ev : SlackEvent) :
  type req = Some "event_callback"%string ->
  event req = Some ev ->
  lookup_user sw (ev_user ev) = None ->
  box (process cfg sw b req) = b
  /\ res_sent (process cfg sw b req) = res_sent (after_verify cfg sw b req)
  /\ (exists e, errors (trace (process cfg sw b req)) = [e])
  /\ add_calls (trace (process cfg sw b req)) = []
  /\ remove_calls (trace (process cfg sw b req)) = [].
Proof.
  intros Ht Hev Hu.
  remember (process cfg sw b req) as final eqn:Hf.
  unfold process in Hf. rewrite (post_event_event_callback cfg sw b req Ht) in Hf.
  destruct (after_verify_shape cfg sw b req) as (st & sent & tr & E & Qa & Qr & Qc).
  assert (Qe : errors tr = []).
  { unfold after_verify in E.
    destruct (JS.strict_eq (token req) (Some (verificationToken cfg)));
      injection E as _ _ <-; reflexivity. }
  rewrite E in Hf |- *. unfold handleEventCallback in Hf. rewrite Hev in Hf.
  run_in Hf.
  destruct (getSlackUser_missing cfg (ev_user ev)
              {| slack := sw; box := b; res_status := st; res_sent := sent;
                 pending := []; trace := tr |} Hu)
    as (r & evs & G & (Ha & Hr & Hc) & Hcase & He).
  rewrite G in Hf. unfold syncSlackUsers in Hf. run_in Hf.
  destruct Hcase as [-> | [e ->]]; run_in Hf; unfold settle in Hf;
    cbn [pending run_tasks set_pending trace slack box res_sent res_status app] in Hf;
    subst final; cbn [set_pending trace box res_sent];
    repeat (progress cbn [add_calls remove_calls errors app]
            || rewrite add_calls_app || rewrite remove_calls_app
            || rewrite errors_app);
    rewrite ?Qa, ?Qr, ?Qe, ?Ha, ?Hr, ?He; repeat split; eexists; reflexivity.
Qed.

(** C8, where the program departs from it. The lookup of U404 answers
    200 without a [user]: [getSlackUser] logs it and returns [undefined],
    [syncSlackUsers] reads [user.name], and the handler ends in a rejection
    that nobody handles, with no response sent.  The lookup of U500 answers
    500: axios rejects, nothing is logged, and the handler ends the same
    way.  [handleCommand] reads [slackUser.profile] and ends the same way,
    after the mirror group has been created.  Only in the fan-out does the
    failure stay with the one member: the others get their calls. *)
Theorem C8_failed_lookup_ends_the_request :
  lookup_user Scenario.workspace (Some "U404"%string) = None
  /\ (let final := process Scenario.cfg Scenario.workspace Scenario.enterprise
                     (Scenario.event_req "secret" "member_joined_channel" "C1" "U404")
      in
      trace final
      = [AxiosGet "https://slack.com/api/users.info?token=xoxb&user=U404";
         ConsoleError "No user data found";
         UnhandledRejection (TypeError "name")]
      /\ res_sent final = None
      /\ box final = Scenario.enterprise)
  /\ (let final := process Scenario.cfg Scenario.workspace Scenario.enterprise
                     (Scenario.event_req "secret" "member_joined_channel" "C1" "U500")
      in
      trace final
      = [AxiosGet "https://slack.com/api/users.info?token=xoxb&user=U500";
         UnhandledRejection (AxiosError 500)]
      /\ res_sent final = None)
  /\ (let final := process Scenario.cfg Scenario.workspace Scenario.enterprise
                     (Scenario.command_req "secret" "C1" "U404" "file 123456")
      in
      errors (trace final) = [TypeError "profile"]
      /\ res_sent final = None
      /\ collab_calls (trace final) = []
      /\ Box.groups (box final)
         = [{| Box.group_id := "100"%string; Box.group_name := "slack-C1"%string |}])
  /\ (let final := process Scenario.cfg Scenario.workspace Scenario.enterprise
                     (Scenario.event_req "secret" "member_joined_channel" "C1" "B1")
      in
      errors (trace final) = [TypeError "profile"]
      /\ add_calls (trace final)
         = [(Some "100"%string, Some "alice@example.com"%string);
            (Some "100"%string, Some "carol@example.com"%string)]).
Proof. repeat split. Qed.

(** ** Item ids that pass the validation *)

Lemma digit_not_space (c : ascii) : JS.is_digit c = true -> JS.is_space c = false.
Proof.
  unfold JS.is_digit, JS.in_range, JS.is_space.
  change (nat_of_ascii "0") with 48. change (nat_of_ascii "9") with 57.
  intros H. apply andb_true_iff in H. destruct H as [H1 H2].
  apply Nat.leb_le in H1, H2.
  apply orb_false_iff. split.
  - apply andb_false_iff. right. apply Nat.leb_gt. lia.
  - apply Nat.eqb_neq. lia.
Qed.

Lemma digit_not_sign (c : ascii) : JS.is_digit c = true -> JS.is_sign c = false.
Proof.
  unfold JS.is_sign. intros H.
  destruct (Ascii.eqb_spec c "+") as [->|_]; [discriminate H|].
  destruct (Ascii.eqb_spec c "-") as [->|_]; [discriminate H|].
  reflexivity.
Qed.

Lemma skip_all (p : ascii -> bool) (l : list ascii) :
  forallb p l = true -> JS.skip p l = [].
Proof.
  induction l as [|c l IH]; [reflexivity|].
  cbn. destruct (p c); [exact IH | discriminate].
Qed.

(** A decimal digit is no byte of the white space of two or three bytes
    that could stand first or last. *)
Lemma digit_value (c : ascii) :
  JS.is_digit c = true -> 48 <= nat_of_ascii c <= 57.
Proof.
  unfold JS.is_digit, JS.in_range.
  change (nat_of_ascii "0") with 48. change (nat_of_ascii "9") with 57.
  intros H. apply andb_true_iff in H. destruct H as [H1 H2].
  apply Nat.leb_le in H1, H2. lia.
Qed.

Lemma neq_eqb (n k : nat) : n <> k -> Nat.eqb n k = false.
Proof. apply Nat.eqb_neq. Qed.

Lemma digit_not_space2 (c d : ascii) :
  JS.is_digit c = true -> JS.is_space2 c d = false /\ JS.is_space2 d c = false.
Proof.
  intros H. apply digit_value in H. unfold JS.is_space2.
  rewrite (neq_eqb (nat_of_ascii c) 194), (neq_eqb (nat_of_ascii c) 160) by lia.
  rewrite andb_false_r. split; reflexivity.
Qed.

Lemma digit_not_space3 (c d e : ascii) :
  JS.is_digit c = true ->
  JS.is_space3 c d e = false /\ JS.is_space3 d e c = false.
Proof.
  intros H. apply digit_value in H. unfold JS.is_space3. cbv zeta.
  rewrite (neq_eqb (nat_of_ascii c) 225), (neq_eqb (nat_of_ascii c) 226),
    (neq_eqb (nat_of_ascii c) 227), (neq_eqb (nat_of_ascii c) 239),
    (neq_eqb (nat_of_ascii c) 128), (neq_eqb (nat_of_ascii c) 168),
    (neq_eqb (nat_of_ascii c) 169), (neq_eqb (nat_of_ascii c) 175),
    (neq_eqb (nat_of_ascii c) 159), (neq_eqb (nat_of_ascii c) 191) by lia.
  replace (Nat.leb 128 (nat_of_ascii c)) with false
    by (symmetry; apply Nat.leb_gt; lia).
  rewrite ?andb_false_r, ?andb_false_l, ?orb_false_r. split; reflexivity.
Qed.

Lemma skip_leading_digits (l : list ascii) :
  forallb JS.is_digit l = true -> JS.skip_leading l = l.
Proof.
  destruct l as [|c l]; [reflexivity|].
  cbn [forallb]. intros H. apply andb_true_iff in H. destruct H as [H _].
  unfold JS.skip_leading. cbn [JS.skip_space].
  rewrite (digit_not_space c H).
  destruct l as [|d l]; [reflexivity|].
  rewrite (proj1 (digit_not_space2 c d H)).
  destruct l as [|e l]; [reflexivity|].
  rewrite (proj1 (digit_not_space3 c d e H)). reflexivity.
Qed.

Lemma skip_trailing_digits (l : list ascii) :
  forallb JS.is_digit l = true -> JS.skip_trailing l = l.
Proof.
  destruct l as [|c l]; [reflexivity|].
  cbn [forallb]. intros H. apply andb_true_iff in H. destruct H as [H _].
  unfold JS.skip_trailing. cbn [JS.skip_space].
  rewrite (digit_not_space c H).
  destruct l as [|d l]; [reflexivity|].
  rewrite (proj2 (digit_not_space2 c d H)).
  destruct l as [|e l]; [reflexivity|].
  rewrite (proj2 (digit_not_space3 c e d H)). reflexivity.
Qed.

Lemma forallb_rev (p : ascii -> bool) (l : list ascii) :
  forallb p l = true -> forallb p (rev l) = true.
Proof.
  rewrite !forallb_forall. intros H x Hx. apply H, in_rev, Hx.
Qed.

(** The white space is stripped whatever its encoding: an item id of
    digits followed by a no-break space (C2 A0), or led by a byte order mark
    (EF BB BF), is a number, and an item id that is only an em space
    (E2 80 83) is the number 0. *)
Lemma wide_space_is_trimmed :
  let nbsp := String (ascii_of_nat 194) (String (ascii_of_nat 160) "") in
  let bom :=
    String (ascii_of_nat 239) (String (ascii_of_nat 187)
      (String (ascii_of_nat 191) "")) in
  let em :=
    String (ascii_of_nat 226) (String (ascii_of_nat 128)
      (String (ascii_of_nat 131) "")) in
  invalid_input (Some "file") (Some ("12" ++ nbsp)%string) = false
  /\ invalid_input (Some "file") (Some (bom ++ "7")%string) = false
  /\ invalid_input (Some "folder") (Some em) = false
  /\ invalid_input (Some "file") (Some ("1" ++ nbsp ++ "2")%string) = true.
Proof. repeat split. Qed.

(** A non-empty string of decimal digits is not NaN. *)
Lemma digits_are_numeric (s : string) :
  JS.chars s <> [] ->
  forallb JS.is_digit (JS.chars s) = true ->
  JS.isNaN (Some s) = false.
Proof.
  unfold JS.isNaN, JS.numeric_literal, JS.trim.
  generalize (JS.chars s). intros l Hne Hd.
  rewrite (skip_leading_digits l Hd),
    (skip_trailing_digits (rev l) (forallb_rev _ _ Hd)), rev_involutive.
  destruct l as [|c l]; [congruence|].
  cbn [forallb] in Hd. apply andb_true_iff in Hd. destruct Hd as [Hc Hl].
  rewrite (digit_not_sign c Hc). unfold JS.unsigned_decimal.
  destruct (list_eq_dec _ _ _); [rewrite orb_true_r; reflexivity|].
  rewrite Hc, (skip_all _ l Hl), orb_true_r. reflexivity.
Qed.

(** [file] or [folder] with a decimal item id passes the validation. *)
Lemma decimal_item_is_valid (ty s : string) :
  ty = "file"%string \/ ty = "folder"%string ->
  JS.chars s <> [] ->
  forallb JS.is_digit (JS.chars s) = true ->
  invalid_input (Some ty) (Some s) = false.
Proof.
  intros Hty Hne Hd. unfold invalid_input.
  rewrite (digits_are_numeric s Hne Hd).
  destruct Hty as [-> | ->]; reflexivity.
Qed.

(** * Further properties of the program *)

(** ** What every step keeps *)

Section Frame.

Variable R : State -> State -> Prop.

Hypothesis R_refl : forall s, R s s.
Hypothesis R_trans : forall s1 s2 s3, R s1 s2 -> R s2 s3 -> R s1 s3.
Hypothesis R_trace : forall s tr, R s (set_trace tr s).
Hypothesis R_status : forall s n, R s (set_res_status n s).

(** What [R] has to allow, one hypothesis for each way the program
    touches the response, the callbacks and the enterprise. *)
Hypothesis R_send : forall s body, R s (snd (res_send body s)).
Hypothesis R_spawn : forall s t, R s (set_pending (pending s ++ [t]) s).
Hypothesis R_settle : forall s, R s (set_pending [] s).
Hypothesis R_create :
  forall c s,
    group_named (mirror_name c) (box s) = None ->
    R s (set_box (snd (Box.groups_create (mirror_name c) (box s))) s).
Hypothesis R_addUser :
  forall s gid uid role b',
    Box.groups_addUser gid uid role (box s) = Some b' -> R s (set_box b' s).
Hypothesis R_remove :
  forall s mid, R s (set_box (Box.groups_removeMembership mid (box s)) s).
Hypothesis R_asUser :
  forall s uid, R s (set_box (Box.with_as_user (Some uid) (box s)) s).
Hypothesis R_collab :
  forall s gid item role ty b',
    Box.collaborations_createWithGroupID gid item role ty (box s) = Some b' ->
    R s (set_box b' s).

Lemma preserves_ret {A} (a : A) : preserves R (ret a).
Proof. intros s. apply R_refl. Qed.

Lemma preserves_throw {A} (e : exn) : preserves R (@throw A e).
Proof. intros s. apply R_refl. Qed.

Lemma preserves_bind {A B} (m : M A) (k : A -> M B) :
  preserves R m -> (forall a, preserves R (k a)) -> preserves R (bind m k).
Proof.
  intros Hm Hk s. unfold bind. specialize (Hm s).
  destruct (m s) as [[a|e] s1]; cbn [snd] in *.
  - eapply R_trans; [exact Hm | apply Hk].
  - exact Hm.
Qed.

Lemma preserves_try_catch {A} (m : M A) (h : exn -> M A) :
  preserves R m -> (forall e, preserves R (h e)) -> preserves R (try_catch m h).
Proof.
  intros Hm Hh s. unfold try_catch. specialize (Hm s).
  destruct (m s) as [[a|e] s1]; cbn [snd] in *.
  - exact Hm.
  - eapply R_trans; [exact Hm | apply Hh].
Qed.

Lemma preserves_emit (e : Event) : preserves R (emit e).
Proof. intros s. apply R_trace. Qed.

Lemma preserves_deref {A} (x : option A) (p : string) : preserves R (deref x p).
Proof. destruct x; [apply preserves_ret | apply preserves_throw]. Qed.

Lemma preserves_axios_get {A} (url : string)
  (answer : Slack.Workspace -> Slack.Response A) :
  preserves R (axios_get url answer).
Proof.
  apply preserves_bind; [apply preserves_emit|]. intros _ s. cbv beta zeta.
  destruct (Slack.ok_status _); apply R_refl.
Qed.

Lemma preserves_sdk_read {A} (c : SdkCall) (f : Box.Enterprise -> A) :
  preserves R (sdk_read c f).
Proof.
  apply preserves_bind; [apply preserves_emit|]. intros _ s. apply R_refl.
Qed.

Lemma preserves_sdk_write (c : SdkCall) (name : string)
  (f : Box.Enterprise -> option Box.Enterprise) :
  (forall s b', f (box s) = Some b' -> R s (set_box b' s)) ->
  preserves R (sdk_write c name f).
Proof.
  intros Hf. apply preserves_bind; [apply preserves_emit|]. intros _ s.
  cbv beta.
  destruct (f (box s)) as [b'|] eqn:E; cbn [snd]; [apply Hf, E | apply R_refl].
Qed.

Lemma preserves_fire (m : M unit) : preserves R m -> preserves R (fire m).
Proof.
  intros Hm s. unfold fire. specialize (Hm s).
  destruct (m s) as [[[]|e] s1]; cbn [snd] in *.
  - exact Hm.
  - eapply R_trans; [exact Hm | apply R_trace].
Qed.

Lemma preserves_forEach {A} (xs : list A) (f : A -> M unit) :
  (forall x, preserves R (f x)) -> preserves R (forEach xs f).
Proof.
  intros Hf. induction xs as [|x xs IH]; [apply preserves_ret|].
  cbn [forEach]. apply preserves_bind; [apply Hf | intros _; exact IH].
Qed.

(** One step of a proof that a function keeps [R]. *)
Ltac frame_step :=
  match goal with
  | |- preserves _ (ret _) => apply preserves_ret
  | |- preserves _ (throw _) => apply preserves_throw
  | |- preserves _ (emit _) => apply preserves_emit
  | |- preserves _ (deref _ _) => apply preserves_deref
  | |- preserves _ (axios_get _ _) => apply preserves_axios_get
  | |- preserves _ (sdk_read _ _) => apply preserves_sdk_read
  | |- preserves _ (bind _ _) => apply preserves_bind; [|intros ?]
  | |- preserves _ (match ?x with _ => _ end) => destruct x
  | |- preserves _ (let _ := _ in _) => cbv zeta
  end.

Lemma getSlackUser_preserves (cfg : Config) (userId : JS.str) :
  preserves R (getSlackUser cfg userId).
Proof.
  unfold getSlackUser, console_error.
  apply preserves_bind; [apply preserves_axios_get | intros response].
  repeat frame_step.
Qed.

Lemma getGroup_preserves (channelId : JS.str) : preserves R (getGroup channelId).
Proof.
  intros s. rewrite getGroup_run. cbn [snd]. unfold upd, with_mirror_group.
  destruct (group_named (mirror_name channelId) (box s)) eqn:E.
  - replace (set_box (box s) (set_trace (trace s ++ getGroup_events channelId (box s)) s))
      with (set_trace (trace s ++ getGroup_events channelId (box s)) s)
      by (destruct s; reflexivity).
    apply R_trace.
  - eapply R_trans; [apply R_trace|].
    apply (R_create channelId
             (set_trace (trace s ++ getGroup_events channelId (box s)) s)).
    exact E.
Qed.

Lemma res_send_preserves (body : ResBody) : preserves R (res_send body).
Proof. intros s. apply R_send. Qed.

Lemma res_status_set_preserves (n : nat) : preserves R (res_status_set n).
Proof. intros s. apply R_status. Qed.

Lemma spawn_preserves (t : Task) : preserves R (spawn t).
Proof. intros s. apply R_spawn. Qed.

Lemma addGroupUser_preserves (groupId email : JS.str) :
  preserves R (addGroupUser groupId email).
Proof.
  unfold addGroupUser, console_log, console_error.
  repeat frame_step.
  apply preserves_sdk_write. intros s b'. apply R_addUser.
Qed.

Lemma removeGroupUser_preserves (groupId email : JS.str) :
  preserves R (removeGroupUser groupId email).
Proof.
  unfold removeGroupUser, console_log, console_error.
  repeat frame_step.
  - intros s. cbv beta. destruct (Box.groups_getMemberships _ _); apply R_refl.
  - apply preserves_sdk_write. intros s b' E. injection E as <-. apply R_remove.
Qed.

Lemma forEach_callback_preserves (cfg : Config) (groupId : JS.str) (userId : string) :
  preserves R (forEach_callback cfg groupId userId).
Proof.
  unfold forEach_callback.
  apply preserves_bind; [apply getSlackUser_preserves | intros user].
  apply preserves_bind; [apply preserves_deref | intros u].
  destruct (_ && _); [apply addGroupUser_preserves | apply preserves_ret].
Qed.

Lemma syncChannelToGroup_preserves (cfg : Config) (channelId groupId : JS.str) :
  preserves R (syncChannelToGroup cfg channelId groupId).
Proof.
  unfold syncChannelToGroup, console_log.
  repeat frame_step.
  apply preserves_forEach. intros x. apply spawn_preserves.
Qed.

Lemma syncSlackUsers_preserves (cfg : Config) (user : option Slack.User)
  (event channelId : JS.str) :
  preserves R (syncSlackUsers cfg user event channelId).
Proof.
  unfold syncSlackUsers, console_log.
  apply preserves_bind; [apply preserves_deref | intros u].
  apply preserves_bind; [apply preserves_emit | intros _].
  apply preserves_bind; [apply getGroup_preserves | intros group].
  destruct (Slack.is_bot _); [apply syncChannelToGroup_preserves|].
  destruct (JS.truthy _); [|apply preserves_ret].
  destruct (JS.strict_eq _ _); [apply addGroupUser_preserves|].
  destruct (JS.strict_eq _ _); [apply removeGroupUser_preserves | apply preserves_ret].
Qed.

Lemma handleEventCallback_preserves (cfg : Config) (req : ReqBody) :
  preserves R (handleEventCallback cfg req).
Proof.
  unfold handleEventCallback.
  apply preserves_bind; [apply preserves_deref | intros ev]. cbv zeta.
  apply preserves_bind; [apply getSlackUser_preserves | intros user].
  apply preserves_bind; [apply syncSlackUsers_preserves | intros _].
  apply res_send_preserves.
Qed.

Lemma handleCommand_rest_preserves (cfg : Config)
  (channelId userId itemType itemId : JS.str) :
  preserves R (handleCommand_rest cfg channelId userId itemType itemId).
Proof.
  unfold handleCommand_rest.
  apply preserves_bind; [apply getGroup_preserves | intros group].
  apply preserves_bind; [apply getSlackUser_preserves | intros slackUser].
  apply preserves_bind; [apply preserves_deref | intros su]. cbv zeta.
  apply preserves_bind; [apply preserves_sdk_read | intros boxUsers].
  destruct (hd_error boxUsers) as [boxUser|]; [|apply res_send_preserves].
  apply preserves_bind.
  - apply preserves_sdk_write. intros s b' E. injection E as <-. apply R_asUser.
  - intros _. apply preserves_try_catch.
    + apply preserves_bind; [|intros _; apply res_send_preserves].
      apply preserves_sdk_write. intros s b'. apply R_collab.
    + intros _. apply res_send_preserves.
Qed.

Lemma handleCommand_preserves (cfg : Config) (req : ReqBody) :
  preserves R (handleCommand cfg req).
Proof.
  unfold handleCommand. cbv zeta.
  apply preserves_bind; [apply preserves_deref | intros t].
  apply preserves_bind; [|intros _; apply handleCommand_rest_preserves].
  destruct (invalid_input _ _); [apply res_send_preserves | apply preserves_ret].
Qed.

Lemma handleUrlVerification_preserves (req : ReqBody) :
  preserves R (handleUrlVerification req).
Proof.
  unfold handleUrlVerification, console_log.
  apply preserves_bind; [apply preserves_emit | intros _; apply res_send_preserves].
Qed.

Lemma verify_preserves (cfg : Config) (req : ReqBody) : preserves R (verify cfg req).
Proof.
  unfold verify. destruct (negb _); [|apply preserves_ret].
  apply preserves_bind; [apply res_status_set_preserves|].
  intros _. apply res_send_preserves.
Qed.

Lemma dispatch_preserves (cfg : Config) (req : ReqBody) :
  preserves R (dispatch cfg req).
Proof.
  unfold dispatch.
  destruct (JS.strict_eq _ _); [apply handleUrlVerification_preserves|].
  destruct (JS.strict_eq _ _);
    [apply preserves_fire, handleEventCallback_preserves|].
  destruct (JS.strict_eq _ _); [apply preserves_fire, handleCommand_preserves|].
  apply preserves_bind; [apply res_status_set_preserves|].
  intros _. apply res_send_preserves.
Qed.

Lemma express_finish_preserves (m : M unit) (s : State) :
  preserves R m -> R s (express_finish (m s)).
Proof.
  intros Hm. specialize (Hm s). unfold express_finish.
  destruct (m s) as [[[]|e] s1]; cbn [snd] in Hm; [exact Hm|].
  eapply R_trans; [exact Hm|]. eapply R_trans; [apply R_trace|].
  cbv zeta. destruct (res_sent _); [apply R_refl|].
  apply (preserves_bind (res_status_set 500) (fun _ => res_send (ErrorPage e))).
  - apply res_status_set_preserves.
  - intros _. apply res_send_preserves.
Qed.

Lemma run_tasks_preserves (cfg : Config) (ts : list Task) :
  forall s, R s (run_tasks cfg ts s).
Proof.
  induction ts as [|[groupId userId] ts IH]; intros s; [apply R_refl|].
  cbn [run_tasks run_task]. eapply R_trans; [|apply IH].
  apply preserves_fire, forEach_callback_preserves.
Qed.

Lemma settle_preserves (cfg : Config) (s : State) : R s (settle cfg s).
Proof.
  unfold settle. eapply R_trans; [apply R_settle|].
  replace (pending s) with (pending s) by reflexivity.
  apply run_tasks_preserves.
Qed.

(** Whatever the request, [R] holds between the state the classification
    starts in and the state when nothing of the request is left to run. *)
Lemma process_preserves_after_verify (cfg : Config) (sw : Slack.Workspace)
  (b : Box.Enterprise) (req : ReqBody) :
  R (after_verify cfg sw b req) (process cfg sw b req).
Proof.
  unfold process, post_event, bind. rewrite verify_run.
  eapply R_trans; [|apply settle_preserves].
  apply express_finish_preserves, dispatch_preserves.
Qed.

(** The same from the arrival of the request. *)
Lemma process_preserves (cfg : Config) (sw : Slack.Workspace)
  (b : Box.Enterprise) (req : ReqBody) :
  R (initial sw b) (process cfg sw b req).
Proof.
  eapply R_trans; [|apply process_preserves_after_verify].
  pose proof (verify_preserves cfg req (initial sw b)) as H.
  rewrite verify_run in H. exact H.
Qed.

(** An event callback, from the classification on. *)
Lemma event_request_preserves (cfg : Config) (sw : Slack.Workspace)
  (b : Box.Enterprise) (req : ReqBody) :
  type req = Some "event_callback"%string ->
  R (after_verify cfg sw b req) (process cfg sw b req).
Proof.
  intros Ht. unfold process. rewrite (post_event_event_callback cfg sw b req Ht).
  eapply R_trans; [|apply settle_preserves].
  apply preserves_fire, handleEventCallback_preserves.
Qed.

(** A request that is not classified as an event callback, from the
    classification until the route's callback is over. *)
Lemma other_request_preserves (cfg : Config) (sw : Slack.Workspace)
  (b : Box.Enterprise) (req : ReqBody) :
  JS.strict_eq (type req) (Some "event_callback"%string) = false ->
  R (after_verify cfg sw b req) (post_event cfg req (initial sw b)).
Proof.
  intros Ht. unfold post_event, bind. rewrite verify_run.
  apply express_finish_preserves. unfold dispatch. rewrite Ht.
  destruct (JS.strict_eq (type req) (Some "url_verification"%string));
    [apply handleUrlVerification_preserves|].
  destruct (JS.strict_eq (command req) (Some "/boxadd"%string));
    [apply preserves_fire, handleCommand_preserves|].
  apply preserves_bind; [apply res_status_set_preserves|].
  intros _. apply res_send_preserves.
Qed.

End Frame.

(** ** The response *)

Lemma response_kept_refl (s : State) : response_kept s s.
Proof. intros x H. exact H. Qed.

Lemma response_kept_trans (s1 s2 s3 : State) :
  response_kept s1 s2 -> response_kept s2 s3 -> response_kept s1 s3.
Proof. intros H1 H2 x H. apply H2, H1, H. Qed.

Lemma response_kept_send (s : State) (body : ResBody) :
  response_kept s (snd (res_send body s)).
Proof.
  intros x H. unfold res_send. rewrite H. destruct body; exact H.
Qed.

(** X1. A request whose token does not match is answered 400 with
    ["Slack Verification Failed"], whatever else it holds and whatever the
    handler it is classified for goes on to do: no later [send] replaces the
    response. *)
Theorem wrong_token_is_answered_400 :
  forall (cfg : Config) (sw : Slack.Workspace) (b : Box.Enterprise) (req : ReqBody),
    JS.strict_eq (token req) (Some (verificationToken cfg)) = false ->
    res_sent (process cfg sw b req) = Some (400, verification_failed).
Proof.
  intros cfg sw b req Hbad.
  assert (H : response_kept (after_verify cfg sw b req) (process cfg sw b req)).
  { apply process_preserves_after_verify;
      try (intros; intros x Hx; exact Hx).
    - apply response_kept_trans.
    - apply response_kept_send. }
  apply H. unfold after_verify. rewrite Hbad. reflexivity.
Qed.

Lemma wrong_token_is_answered_400_witness :
  res_sent (process Scenario.cfg Scenario.workspace Scenario.enterprise
              (Scenario.command_req "wrong" "C1" "U1" "file 123456"))
  = Some (400, verification_failed).
Proof.
  apply (wrong_token_is_answered_400 Scenario.cfg Scenario.workspace
           Scenario.enterprise
           (Scenario.command_req "wrong" "C1" "U1" "file 123456")).
  reflexivity.
Defined.

(** ** Groups and users *)

Lemma groups_addUser_frame (gid : JS.str) (uid role : string) (b b' : Box.Enterprise) :
  Box.groups_addUser gid uid role b = Some b' ->
  Box.groups b' = Box.groups b
  /\ Box.users b' = Box.users b
  /\ Box.collaborations b' = Box.collaborations b
  /\ Box.as_user b' = Box.as_user b
  /\ Box.search_match b' = Box.search_match b
  /\ Box.collab_accepts b' = Box.collab_accepts b.
Proof.
  unfold Box.groups_addUser. destruct gid as [i|]; [|discriminate].
  destruct (Box.find_group i b); [|discriminate].
  destruct (Box.find_user uid b); [|discriminate].
  intros E. injection E as <-. repeat split.
Qed.

Lemma createWithGroupID_frame (gid item : JS.str) (role : string) (ty : JS.str)
  (b b' : Box.Enterprise) :
  Box.collaborations_createWithGroupID gid item role ty b = Some b' ->
  Box.groups b' = Box.groups b
  /\ Box.users b' = Box.users b
  /\ Box.memberships b' = Box.memberships b
  /\ Box.as_user b' = Box.as_user b
  /\ Box.search_match b' = Box.search_match b
  /\ Box.collab_accepts b' = Box.collab_accepts b.
Proof.
  unfold Box.collaborations_createWithGroupID. destruct gid as [i|]; [|discriminate].
  destruct (Box.find_group i b); [|discriminate].
  destruct (Box.collab_accepts b (Box.as_user b) i item ty); [|discriminate].
  intros E. injection E as <-. repeat split.
Qed.

Lemma res_send_frame (body : ResBody) (s : State) :
  box (snd (res_send body s)) = box s
  /\ pending (snd (res_send body s)) = pending s.
Proof.
  unfold res_send. destruct (res_sent s); [destruct body|]; split; reflexivity.
Qed.

Lemma groups_grow_same (s s' : State) :
  Box.groups (box s') = Box.groups (box s) -> groups_grow s s'.
Proof. intros H. exists []. rewrite app_nil_r. split; [exact H | constructor]. Qed.

Lemma groups_grow_trans (s1 s2 s3 : State) :
  groups_grow s1 s2 -> groups_grow s2 s3 -> groups_grow s1 s3.
Proof.
  intros (e1 & H1 & F1) (e2 & H2 & F2). exists (e1 ++ e2).
  rewrite H2, H1, app_assoc. split; [reflexivity|].
  apply Forall_app. split; assumption.
Qed.

Lemma directory_kept_trans (s1 s2 s3 : State) :
  directory_kept s1 s2 -> directory_kept s2 s3 -> directory_kept s1 s3.
Proof.
  intros (A1 & B1 & C1) (A2 & B2 & C2). repeat split; congruence.
Qed.

(** X2. Whatever the request, processing it removes, changes and reorders
    no group of the enterprise: the groups afterwards are the groups before,
    followed by groups whose name is ["slack-"] and a channel identifier.
    The users of the enterprise are what they were. *)
Theorem groups_only_grow :
  forall (cfg : Config) (sw : Slack.Workspace) (b : Box.Enterprise) (req : ReqBody),
    (exists extra,
        Box.groups (box (process cfg sw b req)) = Box.groups b ++ extra
        /\ Forall (fun g => exists c, Box.group_name g = ("slack-" ++ JS.show c)%string)
             extra)
    /\ Box.users (box (process cfg sw b req)) = Box.users b.
Proof.
  intros cfg sw b req. split.
  - apply (process_preserves groups_grow);
      try (intros; apply groups_grow_same; reflexivity).
    + apply groups_grow_trans.
    + intros s body. apply groups_grow_same. f_equal. apply res_send_frame.
    + intros c s _. exists [fst (Box.groups_create (mirror_name c) (box s))].
      split; [reflexivity|]. constructor; [|constructor]. exists c. reflexivity.
    + intros s gid uid role b' E. apply groups_grow_same.
      apply (groups_addUser_frame _ _ _ _ _ E).
    + intros s gid item role ty b' E. apply groups_grow_same.
      apply (createWithGroupID_frame _ _ _ _ _ _ E).
  - apply (process_preserves directory_kept);
      try (intros; repeat split; reflexivity).
    + apply directory_kept_trans.
    + intros s body. destruct (res_send_frame body s) as [E _].
      unfold directory_kept. rewrite E. repeat split.
    + intros s gid uid role b' E.
      destruct (groups_addUser_frame _ _ _ _ _ E) as (_ & A & _ & _ & B & C).
      repeat split; assumption.
    + intros s gid item role ty b' E.
      destruct (createWithGroupID_frame _ _ _ _ _ _ E) as (_ & A & _ & _ & B & C).
      repeat split; assumption.
Qed.

Lemma group_named_none (name : string) (b : Box.Enterprise) :
  group_named name b = None -> ~ In name (map Box.group_name (Box.groups b)).
Proof.
  unfold group_named. intros H Hin.
  apply in_map_iff in Hin. destruct Hin as (g & Hn & Hg).
  assert (Hf : In g (filter (fun g => (Box.group_name g =? name)%string)
                       (Box.groups b))).
  { apply filter_In. split; [exact Hg|]. rewrite Hn. apply String.eqb_refl. }
  destruct (filter _ (Box.groups b)); [destruct Hf | discriminate].
Qed.

Lemma NoDup_snoc {A} (l : list A) (x : A) :
  NoDup l -> ~ In x l -> NoDup (l ++ [x]).
Proof.
  induction l as [|y l IH]; intros Hl Hx; cbn.
  - constructor; [intros [] | constructor].
  - inversion Hl as [|? ? Hy Hl']; subst. constructor.
    + intros Hin. apply in_app_or in Hin. destruct Hin as [Hin|[->|[]]].
      * exact (Hy Hin).
      * apply Hx. left. reflexivity.
    + apply IH; [exact Hl'|]. intros Hin. apply Hx. right. exact Hin.
Qed.

Lemma names_stay_unique_same (s s' : State) :
  Box.groups (box s') = Box.groups (box s) -> names_stay_unique s s'.
Proof. unfold names_stay_unique, unique_names. intros ->. auto. Qed.

(** X3. If no two groups of the enterprise have the same name before a
    request is processed, no two have afterwards: find-or-create makes a
    group only when the listing has none of that name. *)
Theorem group_names_stay_unique :
  forall (cfg : Config) (sw : Slack.Workspace) (b : Box.Enterprise) (req : ReqBody),
    NoDup (map Box.group_name (Box.groups b)) ->
    NoDup (map Box.group_name (Box.groups (box (process cfg sw b req)))).
Proof.
  intros cfg sw b req.
  apply (process_preserves names_stay_unique);
    try (intros; apply names_stay_unique_same; reflexivity).
  - intros s1 s2 s3 H1 H2 H. apply H2, H1, H.
  - intros s body. apply names_stay_unique_same. f_equal. apply res_send_frame.
  - intros c s Hnone Hu. unfold unique_names in *. cbn.
    rewrite map_app. cbn. apply NoDup_snoc; [exact Hu|].
    apply group_named_none, Hnone.
  - intros s gid uid role b' E. apply names_stay_unique_same.
    apply (groups_addUser_frame _ _ _ _ _ E).
  - intros s gid item role ty b' E. apply names_stay_unique_same.
    apply (createWithGroupID_frame _ _ _ _ _ _ E).
Qed.

Lemma group_names_stay_unique_witness :
  NoDup
    (map Box.group_name
       (Box.groups
          (box (process Scenario.cfg Scenario.workspace Scenario.enterprise2
                  (Scenario.event_req "secret" "member_joined_channel" "C3" "U3"))))).
Proof.
  apply (group_names_stay_unique Scenario.cfg Scenario.workspace Scenario.enterprise2
           (Scenario.event_req "secret" "member_joined_channel" "C3" "U3")).
  cbn. repeat constructor; cbn; intuition discriminate.
Defined.

(** ** What each kind of request leaves alone *)

Lemma sharing_kept_trans (s1 s2 s3 : State) :
  sharing_kept s1 s2 -> sharing_kept s2 s3 -> sharing_kept s1 s3.
Proof. intros (A1 & B1) (A2 & B2). split; congruence. Qed.

Lemma after_verify_box (cfg : Config) (sw : Slack.Workspace) (b : Box.Enterprise)
  (req : ReqBody) :
  box (after_verify cfg sw b req) = b /\ pending (after_verify cfg sw b req) = [].
Proof.
  unfold after_verify. destruct (JS.strict_eq _ _); split; reflexivity.
Qed.

Lemma event_callback_sharing_kept (cfg : Config) (sw : Slack.Workspace)
  (b : Box.Enterprise) (req : ReqBody) :
  type req = Some "event_callback"%string ->
  sharing_kept (after_verify cfg sw b req) (process cfg sw b req).
Proof.
  intros Ht.
  apply event_request_preserves;
    try (intros; split; reflexivity); try exact Ht.
  - apply sharing_kept_trans.
  - intros s body. destruct (res_send_frame body s) as [E _].
    unfold sharing_kept. rewrite E. split; reflexivity.
  - intros s gid uid role b' E.
    destruct (groups_addUser_frame _ _ _ _ _ E) as (_ & _ & A & B & _).
    split; assumption.
Qed.

(** X4. Processing an event callback, whatever its event, its acting
    user and the outcome of the lookups, creates no collaboration and leaves
    the acting user of the shared client ([asUser]) as it is. *)
Theorem event_callback_keeps_sharing :
  forall (cfg : Config) (sw : Slack.Workspace) (b : Box.Enterprise) (req : ReqBody),
    type req = Some "event_callback"%string ->
    Box.collaborations (box (process cfg sw b req)) = Box.collaborations b
    /\ Box.as_user (box (process cfg sw b req)) = Box.as_user b.
Proof.
  intros cfg sw b req Ht.
  pose proof (event_callback_sharing_kept cfg sw b req Ht) as H.
  destruct (after_verify_box cfg sw b req) as [Eb _]. unfold sharing_kept in H.
  rewrite Eb in H. exact H.
Qed.

Lemma event_callback_keeps_sharing_witness :
  Box.collaborations
    (box (process Scenario.cfg Scenario.workspace Scenario.enterprise
            (Scenario.event_req "secret" "member_joined_channel" "C1" "B1")))
  = []
  /\ Box.as_user
       (box (process Scenario.cfg Scenario.workspace Scenario.enterprise
               (Scenario.event_req "secret" "member_joined_channel" "C1" "B1")))
     = None.
Proof.
  apply (event_callback_keeps_sharing Scenario.cfg Scenario.workspace
           Scenario.enterprise
           (Scenario.event_req "secret" "member_joined_channel" "C1" "B1")).
  reflexivity.
Defined.

Lemma memberships_kept_trans (s1 s2 s3 : State) :
  memberships_kept s1 s2 -> memberships_kept s2 s3 -> memberships_kept s1 s3.
Proof. intros (A1 & B1) (A2 & B2). split; [congruence | auto]. Qed.

(** X5. Only event callbacks change memberships: processing a request
    that is not classified as an event callback (a URL verification, a
    [/boxadd] command, anything else) leaves every membership of the
    enterprise as it is, and starts no callback. *)
Theorem only_event_callbacks_change_memberships :
  forall (cfg : Config) (sw : Slack.Workspace) (b : Box.Enterprise) (req : ReqBody),
    JS.strict_eq (type req) (Some "event_callback"%string) = false ->
    Box.memberships (box (process cfg sw b req)) = Box.memberships b
    /\ pending (post_event cfg req (initial sw b)) = [].
Proof.
  intros cfg sw b req Ht.
  assert (H : memberships_kept (after_verify cfg sw b req)
                (post_event cfg req (initial sw b))).
  { apply other_request_preserves;
      try (intros; split; [reflexivity | auto]); try exact Ht.
    - apply memberships_kept_trans.
    - intros s body. destruct (res_send_frame body s) as [E1 E2].
      unfold memberships_kept. rewrite E1, E2. split; auto.
    - intros s gid item role ty b' E.
      destruct (createWithGroupID_frame _ _ _ _ _ _ E) as (_ & _ & A & _).
      split; [exact A | auto]. }
  destruct (after_verify_box cfg sw b req) as [Eb Ep].
  destruct H as [Hm Hp]. rewrite Eb in Hm. specialize (Hp Ep).
  unfold process, settle. rewrite Hp. cbn [run_tasks].
  repeat split; assumption.
Qed.

Lemma only_event_callbacks_change_memberships_witness :
  Box.memberships
    (box (process Scenario.cfg Scenario.workspace Scenario.enterprise2
            (Scenario.command_req "secret" "C1" "U1" "file 123456")))
  = Box.memberships Scenario.enterprise2.
Proof.
  apply (only_event_callbacks_change_memberships Scenario.cfg Scenario.workspace
           Scenario.enterprise2
           (Scenario.command_req "secret" "C1" "U1" "file 123456")).
  reflexivity.
Defined.

(** ** Adding and removing a member *)

Lemma getUsers_found_user (email : JS.str) (b : Box.Enterprise) (u : Box.User) :
  hd_error (Box.enterprise_getUsers email b) = Some u ->
  exists u', Box.find_user (Box.user_id u) b = Some u'
             /\ Box.user_id u' = Box.user_id u.
Proof.
  intros H.
  assert (Hin : In u (Box.users b)).
  { unfold Box.enterprise_getUsers in H. destruct email as [t|].
    - destruct (filter _ _) as [|x l] eqn:E; [discriminate|].
      injection H as ->.
      assert (Hx : In u (u :: l)) by (left; reflexivity).
      rewrite <- E in Hx. apply filter_In in Hx. apply Hx.
    - destruct (Box.users b); [discriminate|]. injection H as ->. left; reflexivity. }
  unfold Box.find_user.
  destruct (find _ (Box.users b)) as [u'|] eqn:F.
  - exists u'. split; [reflexivity|]. apply find_some in F.
    apply String.eqb_eq, F.
  - eapply find_none in F; [|exact Hin]. cbn in F.
    rewrite String.eqb_refl in F. discriminate.
Qed.

Lemma filter_twice {A} (p : A -> bool) (l : list A) :
  filter p (filter p l) = filter p l.
Proof.
  induction l as [|x l IH]; [reflexivity|].
  cbn. destruct (p x) eqn:E; [cbn; rewrite E, IH; reflexivity | exact IH].
Qed.

(** [addGroupUser] on a group of the enterprise returns normally, and
    leaves the enterprise with the membership it made, if any. *)
Lemma addGroupUser_outcome (gid : string) (email : JS.str) (s : State) :
  Box.find_group gid (box s) <> None ->
  exists evs,
    addGroupUser (Some gid) email s
    = (Ret tt, upd (after_add gid email (box s)) evs s)
    /\ errors evs = [].
Proof.
  intros Hg. unfold addGroupUser, after_add, added_membership.
  destruct s as [sw b st sent pend tr]. run. cbn [box] in Hg.
  destruct (hd_error (Box.enterprise_getUsers email b)) as [u|] eqn:Hu.
  - unfold Box.users_getGroupMemberships at 1. rewrite filter_twice.
    fold (Box.users_getGroupMemberships (Box.user_id u) b).
    destruct (Box.users_getGroupMemberships (Box.user_id u) b) as [|m ms];
      cbn [hd_error].
    + destruct (getUsers_found_user email b u Hu) as (u' & Hf & _).
      unfold Box.groups_addUser. rewrite Hf.
      destruct (Box.find_group gid b) as [g|]; [|congruence].
      eexists. flat. split; reflexivity.
    + eexists. flat. split; reflexivity.
  - eexists. flat. split; reflexivity.
Qed.

(** [removeGroupUser] on a group of the enterprise returns normally, and
    leaves the enterprise without the membership it picked, if any. *)
Lemma removeGroupUser_outcome (gid : string) (email : JS.str) (s : State) :
  Box.find_group gid (box s) <> None ->
  exists evs,
    removeGroupUser (Some gid) email s
    = (Ret tt, upd (after_remove gid email (box s)) evs s)
    /\ errors evs = [].
Proof.
  intros Hg. unfold removeGroupUser, after_remove, first_membership,
    Box.groups_getMemberships.
  destruct s as [sw b st sent pend tr]. run. cbn [box] in Hg.
  destruct (Box.find_group gid b) as [g|]; [|congruence].
  destruct (hd_error _) as [m|]; eexists; flat; split; reflexivity.
Qed.

(** The handler of an event callback of a non-bot user that the lookup
    returns: it returns normally, the response is out afterwards, and the
    enterprise is what the branch of [syncSlackUsers] makes of it. *)
Lemma handleEventCallback_member (cfg : Config) (req : ReqBody) (ev : SlackEvent)
  (u : Slack.User) (sw : Slack.Workspace) (b : Box.Enterprise) (st : nat)
  (sent : option (nat * ResBody)) (tr : list Event) :
  event req = Some ev ->
  lookup_user sw (ev_user ev) = Some u ->
  Slack.is_bot u = false ->
  exists evs,
    handleEventCallback cfg req
      {| slack := sw; box := b; res_status := st; res_sent := sent;
         pending := []; trace := tr |}
    = (Ret tt,
       {| slack := sw;
          box := member_effect ev u (Box.group_id (mirror_group (ev_channel ev) b))
                   (with_mirror_group (ev_channel ev) b);
          res_status := st;
          res_sent := match sent with
                      | Some x => Some x
                      | None => Some (st, NoBody)
                      end;
          pending := []; trace := tr ++ evs |})
    /\ errors evs = [].
Proof.
  intros Hev Hu Hbot.
  unfold handleEventCallback, member_effect. rewrite Hev. run.
  erewrite getSlackUser_found by exact Hu. run.
  unfold syncSlackUsers. run. rewrite getGroup_run. run.
  rewrite Hbot. cbn [dot_id].
  pose proof (getGroup_events_no_error (ev_channel ev) b) as Hq.
  pose proof (mirror_group_found (ev_channel ev) b) as Hfound.
  destruct (JS.truthy (Slack.email (Slack.profile u))).
  - destruct (JS.strict_eq (ev_type ev) (Some "member_joined_channel"%string)).
    + match goal with
      | |- context [addGroupUser (Some ?g) ?e ?s] =>
          destruct (addGroupUser_outcome g e s Hfound) as (evs & E & He);
            rewrite E
      end.
      run. destruct sent as [x|]; eexists; flat; (split; [reflexivity|]);
        cbn [errors]; rewrite !errors_app, Hq, He; reflexivity.
    + destruct (JS.strict_eq (ev_type ev) (Some "member_left_channel"%string)).
      * match goal with
        | |- context [removeGroupUser (Some ?g) ?e ?s] =>
            destruct (removeGroupUser_outcome g e s Hfound) as (evs & E & He);
              rewrite E
        end.
        run. destruct sent as [x|]; eexists; flat; (split; [reflexivity|]);
          cbn [errors]; rewrite !errors_app, Hq, He; reflexivity.
      * run. destruct sent as [x|]; eexists; flat; (split; [reflexivity|]);
          cbn [errors]; rewrite ?errors_app, Hq; reflexivity.
  - run. destruct sent as [x|]; eexists; flat; (split; [reflexivity|]);
      cbn [errors]; rewrite ?errors_app, Hq; reflexivity.
Qed.

(** The same for the whole request. *)
Lemma member_event_process (cfg : Config) (sw : Slack.Workspace) (b : Box.Enterprise)
  (req : ReqBody) (ev : SlackEvent) (u : Slack.User) :
  type req = Some "event_callback"%string ->
  event req = Some ev ->
  lookup_user sw (ev_user ev) = Some u ->
  Slack.is_bot u = false ->
  box (process cfg sw b req)
  = member_effect ev u (Box.group_id (mirror_group (ev_channel ev) b))
      (with_mirror_group (ev_channel ev) b)
  /\ errors (trace (process cfg sw b req)) = []
  /\ res_sent (process cfg sw b req)
     = (if JS.strict_eq (token req) (Some (verificationToken cfg))
        then Some (200, NoBody)
        else Some (400, verification_failed)).
Proof.
  intros Ht Hev Hu Hbot.
  remember (process cfg sw b req) as final eqn:Hf.
  unfold process in Hf. rewrite (post_event_event_callback cfg sw b req Ht) in Hf.
  unfold after_verify, initial, fire in Hf.
  destruct (JS.strict_eq (token req) (Some (verificationToken cfg)));
    match type of Hf with
    | context [handleEventCallback _ _
                 {| slack := _; box := _; res_status := ?st; res_sent := ?sent;
                    pending := _; trace := ?tr |}] =>
        destruct (handleEventCallback_member cfg req ev u sw b st sent tr
                    Hev Hu Hbot) as (evs & E & He)
    end;
    rewrite E in Hf; unfold settle in Hf;
    cbn [snd pending run_tasks set_pending] in Hf; subst final;
    cbn [set_pending box trace res_sent app errors]; rewrite ?He; repeat split.
Qed.

(** X6. A verified event callback of a non-bot user that the lookup
    returns is always answered 200 with an empty body, and nothing goes wrong
    on the way, whatever the event type, whether or not the user has an
    email, a Box account or memberships: on the mirror group, which
    find-or-create has just made sure of, neither [addGroupUser] nor
    [removeGroupUser] throws. *)
Theorem member_event_is_answered :
  forall (cfg : Config) (sw : Slack.Workspace) (b : Box.Enterprise)
         (req : ReqBody) (ev : SlackEvent) (u : Slack.User),
    JS.strict_eq (token req) (Some (verificationToken cfg)) = true ->
    type req = Some "event_callback"%string ->
    event req = Some ev ->
    lookup_user sw (ev_user ev) = Some u ->
    Slack.is_bot u = false ->
    res_sent (process cfg sw b req) = Some (200, NoBody)
    /\ errors (trace (process cfg sw b req)) = [].
Proof.
  intros cfg sw b req ev u Hgood Ht Hev Hu Hbot.
  destruct (member_event_process cfg sw b req ev u Ht Hev Hu Hbot) as (_ & He & Hr).
  rewrite Hgood in Hr. split; assumption.
Qed.

Lemma member_event_is_answered_witness :
  res_sent (process Scenario.cfg Scenario.workspace Scenario.enterprise2
              (Scenario.event_req "secret" "member_left_channel" "C2" "U1"))
  = Some (200, NoBody)
  /\ errors
       (trace (process Scenario.cfg Scenario.workspace Scenario.enterprise2
                 (Scenario.event_req "secret" "member_left_channel" "C2" "U1")))
     = [].
Proof.
  apply (member_event_is_answered Scenario.cfg Scenario.workspace
           Scenario.enterprise2
           (Scenario.event_req "secret" "member_left_channel" "C2" "U1")
           {| ev_type := Some "member_left_channel"%string;
              ev_channel := Some "C2"%string; ev_user := Some "U1"%string |}
           (Scenario.person "alice" (Some "alice@example.com"%string)));
    reflexivity.
Defined.

Lemma with_mirror_group_added (c : JS.str) (b : Box.Enterprise) (email : JS.str) :
  hd_error (Box.enterprise_getUsers email (with_mirror_group c b))
  = hd_error (Box.enterprise_getUsers email b)
  /\ (forall uid,
        Box.users_getGroupMemberships uid (with_mirror_group c b)
        = Box.users_getGroupMemberships uid b)
  /\ (forall uid,
        Box.find_user uid (with_mirror_group c b) = Box.find_user uid b).
Proof.
  unfold with_mirror_group. destruct (group_named _ b); repeat split.
Qed.

(** X7. A [member_joined_channel] event of a non-bot user with an email,
    when the search for that email finds a Box user who has no membership at
    all, adds exactly one membership to the enterprise, behind the others:
    of that user, in the channel's mirror group, with the role [member]. *)
Theorem join_adds_one_membership :
  forall (cfg : Config) (sw : Slack.Workspace) (b : Box.Enterprise)
         (req : ReqBody) (ev : SlackEvent) (su : Slack.User) (u : Box.User),
    type req = Some "event_callback"%string ->
    event req = Some ev ->
    ev_type ev = Some "member_joined_channel"%string ->
    lookup_user sw (ev_user ev) = Some su ->
    Slack.is_bot su = false ->
    JS.truthy (Slack.email (Slack.profile su)) = true ->
    hd_error (Box.enterprise_getUsers (Slack.email (Slack.profile su)) b) = Some u ->
    Box.users_getGroupMemberships (Box.user_id u) b = [] ->
    exists (g : Box.Group) (m : Box.Membership),
      fst (getGroup (ev_channel ev) (initial sw b)) = Ret g
      /\ Box.memberships (box (process cfg sw b req)) = Box.memberships b ++ [m]
      /\ Box.group_id (Box.membership_group m) = Box.group_id g
      /\ Box.user_id (Box.membership_user m) = Box.user_id u
      /\ Box.membership_role m = "member"%string.
Proof.
  intros cfg sw b req ev su u Ht Hev Hjoin Hsu Hbot Hmail Hu Hnone.
  destruct (member_event_process cfg sw b req ev su Ht Hev Hsu Hbot) as (Hb & _).
  exists (mirror_group (ev_channel ev) b).
  rewrite Hb, getGroup_run. unfold member_effect.
  rewrite Hmail, Hjoin. cbn [JS.strict_eq]. rewrite String.eqb_refl.
  unfold after_add, added_membership.
  destruct (with_mirror_group_added (ev_channel ev) b (Slack.email (Slack.profile su)))
    as (E1 & E2 & E3).
  rewrite E1, Hu, E2, Hnone, E3.
  destruct (getUsers_found_user _ b u Hu) as (u' & Hf & Hid). rewrite Hf.
  pose proof (mirror_group_found (ev_channel ev) b) as Hfound.
  destruct (Box.find_group _ (with_mirror_group (ev_channel ev) b)) as [g|] eqn:G;
    [|congruence].
  eexists. split; [reflexivity|]. cbn.
  rewrite with_mirror_group_memberships. split; [reflexivity|].
  unfold Box.find_group in G. apply find_some in G. destruct G as [_ G].
  apply String.eqb_eq in G. repeat split; assumption.
Qed.

Lemma join_adds_one_membership_witness :
  exists m : Box.Membership,
    Box.memberships
      (box (process Scenario.cfg Scenario.workspace Scenario.enterprise2
              (Scenario.event_req "secret" "member_joined_channel" "C1" "U3")))
    = Box.memberships Scenario.enterprise2 ++ [m]
    /\ Box.group_id (Box.membership_group m) = "7"%string
    /\ Box.user_id (Box.membership_user m) = "12"%string.
Proof.
  destruct (join_adds_one_membership Scenario.cfg Scenario.workspace
              Scenario.enterprise2
              (Scenario.event_req "secret" "member_joined_channel" "C1" "U3")
              {| ev_type := Some "member_joined_channel"%string;
                 ev_channel := Some "C1"%string; ev_user := Some "U3"%string |}
              (Scenario.person "carol" (Some "carol@example.com"%string))
              Scenario.carol eq_refl eq_refl eq_refl eq_refl eq_refl eq_refl
              eq_refl eq_refl) as (g & m & Hg & Hm & Hgid & Huid & _).
  injection Hg as <-. exists m. repeat split; assumption.
Defined.

Lemma group_named_same_groups (name : string) (b1 b2 : Box.Enterprise) :
  Box.groups b1 = Box.groups b2 -> group_named name b1 = group_named name b2.
Proof. unfold group_named. intros ->. reflexivity. Qed.

Lemma mirror_group_present (c : JS.str) (b : Box.Enterprise) (g : Box.Group) :
  group_named (mirror_name c) b = Some g ->
  with_mirror_group c b = b /\ mirror_group c b = g.
Proof.
  intros H. unfold with_mirror_group, mirror_group. rewrite H. split; reflexivity.
Qed.

Lemma after_add_frame (gid : string) (email : JS.str) (b : Box.Enterprise) :
  Box.groups (after_add gid email b) = Box.groups b
  /\ Box.users (after_add gid email b) = Box.users b
  /\ Box.search_match (after_add gid email b) = Box.search_match b.
Proof.
  unfold after_add. destruct (added_membership gid email b); repeat split.
Qed.

Lemma after_remove_frame (gid : string) (email : JS.str) (b : Box.Enterprise) :
  Box.groups (after_remove gid email b) = Box.groups b
  /\ Box.users (after_remove gid email b) = Box.users b
  /\ Box.search_match (after_remove gid email b) = Box.search_match b.
Proof.
  unfold after_remove. destruct (first_membership gid email b); repeat split.
Qed.

Lemma member_effect_groups (ev : SlackEvent) (u : Slack.User) (gid : string)
  (b : Box.Enterprise) :
  Box.groups (member_effect ev u gid b) = Box.groups b.
Proof.
  unfold member_effect.
  destruct (JS.truthy _); [|reflexivity].
  destruct (JS.strict_eq _ _); [apply after_add_frame|].
  destruct (JS.strict_eq _ _); [apply after_remove_frame | reflexivity].
Qed.

Lemma getUsers_same (email : JS.str) (b1 b2 : Box.Enterprise) :
  Box.users b1 = Box.users b2 ->
  Box.search_match b1 = Box.search_match b2 ->
  Box.enterprise_getUsers email b1 = Box.enterprise_getUsers email b2.
Proof.
  unfold Box.enterprise_getUsers. intros -> ->. reflexivity.
Qed.

(** After [addGroupUser], [addGroupUser] again makes no membership. *)
Lemma added_after_add (gid : string) (email : JS.str) (b : Box.Enterprise) :
  added_membership gid email (after_add gid email b) = [].
Proof.
  destruct (after_add_frame gid email b) as (_ & Hu & Hs).
  unfold added_membership at 1.
  rewrite (getUsers_same email _ b Hu Hs).
  unfold after_add, added_membership.
  destruct (hd_error (Box.enterprise_getUsers email b)) as [u|] eqn:E;
    [|reflexivity].
  destruct (Box.users_getGroupMemberships (Box.user_id u) b) as [|m ms] eqn:M.
  - destruct (Box.find_group gid b) as [g|] eqn:G.
    + destruct (getUsers_found_user email b u E) as (u' & F & Hid). rewrite F.
      unfold Box.users_getGroupMemberships in *.
      cbn [Box.memberships Box.with_memberships app].
      rewrite filter_app, M. cbn. rewrite Hid, String.eqb_refl. reflexivity.
    + rewrite M, G. reflexivity.
  - rewrite M. reflexivity.
Qed.

(** X8. Delivering the same [member_joined_channel] event of a non-bot
    user a second time changes nothing in the enterprise: the mirror group is
    found, and the user found by the email, if any, has a membership by
    then. *)
Theorem join_again_changes_nothing :
  forall (cfg : Config) (sw : Slack.Workspace) (b : Box.Enterprise)
         (req : ReqBody) (ev : SlackEvent) (u : Slack.User),
    type req = Some "event_callback"%string ->
    event req = Some ev ->
    ev_type ev = Some "member_joined_channel"%string ->
    lookup_user sw (ev_user ev) = Some u ->
    Slack.is_bot u = false ->
    box (process cfg sw (box (process cfg sw b req)) req)
    = box (process cfg sw b req).
Proof.
  intros cfg sw b req ev u Ht Hev Hjoin Hu Hbot.
  destruct (member_event_process cfg sw b req ev u Ht Hev Hu Hbot) as (Hb & _).
  destruct (member_event_process cfg sw (box (process cfg sw b req)) req ev u
              Ht Hev Hu Hbot) as (Hb2 & _).
  rewrite Hb2. clear Hb2. rewrite Hb.
  set (c := ev_channel ev). set (gid := Box.group_id (mirror_group c b)).
  set (b1 := member_effect ev u gid (with_mirror_group c b)).
  destruct (mirror_group_spec c b) as (_ & _ & Hnamed).
  assert (Hn1 : group_named (mirror_name c) b1 = Some (mirror_group c b)).
  { rewrite <- Hnamed. apply group_named_same_groups, member_effect_groups. }
  destruct (mirror_group_present c b1 _ Hn1) as [-> ->]. fold gid.
  unfold b1, member_effect. rewrite Hjoin. cbn [JS.strict_eq].
  rewrite String.eqb_refl.
  destruct (JS.truthy _); [|reflexivity].
  unfold after_add at 1. rewrite added_after_add. reflexivity.
Qed.

Lemma join_again_changes_nothing_witness :
  box (process Scenario.cfg Scenario.workspace
         (box (process Scenario.cfg Scenario.workspace Scenario.enterprise
                 (Scenario.event_req "secret" "member_joined_channel" "C1" "U1")))
         (Scenario.event_req "secret" "member_joined_channel" "C1" "U1"))
  = box (process Scenario.cfg Scenario.workspace Scenario.enterprise
           (Scenario.event_req "secret" "member_joined_channel" "C1" "U1")).
Proof.
  apply (join_again_changes_nothing Scenario.cfg Scenario.workspace
           Scenario.enterprise
           (Scenario.event_req "secret" "member_joined_channel" "C1" "U1")
           {| ev_type := Some "member_joined_channel"%string;
              ev_channel := Some "C1"%string; ev_user := Some "U1"%string |}
           (Scenario.person "alice" (Some "alice@example.com"%string)));
    reflexivity.
Defined.

Lemma first_membership_spec (gid : string) (email : JS.str) (b : Box.Enterprise)
  (m : Box.Membership) :
  first_membership gid email b = Some m ->
  In m (Box.memberships b)
  /\ Box.group_id (Box.membership_group m) = gid
  /\ JS.strict_eq (Some (Box.user_login (Box.membership_user m))) email = true.
Proof.
  unfold first_membership. intros H.
  destruct (filter _ (filter _ _)) as [|x l] eqn:E; [discriminate|].
  injection H as ->.
  assert (Hin : In m (m :: l)) by (left; reflexivity).
  rewrite <- E in Hin. apply filter_In in Hin. destruct Hin as [Hin Hl].
  apply filter_In in Hin. destruct Hin as [Hin Hg].
  apply String.eqb_eq in Hg. repeat split; assumption.
Qed.

Lemma has_membership_first (gid : string) (email : JS.str) (b : Box.Enterprise) :
  has_membership b gid email = true ->
  exists m, first_membership gid email b = Some m.
Proof.
  unfold has_membership, first_membership. intros H.
  apply existsb_exists in H. destruct H as (m & Hin & H).
  apply andb_true_iff in H. destruct H as [Hg Hl].
  assert (Hf : In m (filter
                       (fun m => JS.strict_eq
                                   (Some (Box.user_login (Box.membership_user m))) email)
                       (filter (fun m => (Box.group_id (Box.membership_group m)
                                          =? gid)%string)
                          (Box.memberships b)))).
  { apply filter_In. split; [apply filter_In; split|]; assumption. }
  destruct (filter _ (filter _ _)) as [|x l]; [destruct Hf|].
  exists x. reflexivity.
Qed.

(** X9. A [member_left_channel] event of a non-bot user with an email,
    when the channel's mirror group has a membership whose user's login is
    that email, removes the first such membership (every membership with its
    id) and no other: the memberships afterwards are the others, in their
    order. *)
Theorem leave_removes_the_membership :
  forall (cfg : Config) (sw : Slack.Workspace) (b : Box.Enterprise)
         (req : ReqBody) (ev : SlackEvent) (u : Slack.User),
    type req = Some "event_callback"%string ->
    event req = Some ev ->
    ev_type ev = Some "member_left_channel"%string ->
    lookup_user sw (ev_user ev) = Some u ->
    Slack.is_bot u = false ->
    JS.truthy (Slack.email (Slack.profile u)) = true ->
    has_membership b (Box.group_id (mirror_group (ev_channel ev) b))
      (Slack.email (Slack.profile u)) = true ->
    exists m : Box.Membership,
      In m (Box.memberships b)
      /\ Box.group_id (Box.membership_group m)
         = Box.group_id (mirror_group (ev_channel ev) b)
      /\ JS.strict_eq (Some (Box.user_login (Box.membership_user m)))
           (Slack.email (Slack.profile u)) = true
      /\ Box.memberships (box (process cfg sw b req))
         = filter (fun m' => negb (Box.membership_id m' =? Box.membership_id m)%string)
             (Box.memberships b).
Proof.
  intros cfg sw b req ev u Ht Hev Hleft Hu Hbot Hmail Hhas.
  destruct (member_event_process cfg sw b req ev u Ht Hev Hu Hbot) as (Hb & _).
  destruct (has_membership_first _ _ _ Hhas) as (m & Hm).
  destruct (first_membership_spec _ _ _ _ Hm) as (Hin & Hg & Hl).
  exists m. repeat split; try assumption.
  rewrite Hb. unfold member_effect. rewrite Hmail, Hleft.
  cbn [JS.strict_eq String.eqb Ascii.eqb Bool.eqb].
  unfold after_remove.
  replace (first_membership _ _ (with_mirror_group (ev_channel ev) b))
    with (first_membership (Box.group_id (mirror_group (ev_channel ev) b))
            (Slack.email (Slack.profile u)) b)
    by (unfold first_membership; rewrite with_mirror_group_memberships; reflexivity).
  rewrite Hm. cbn. rewrite with_mirror_group_memberships. reflexivity.
Qed.

Lemma leave_removes_the_membership_witness :
  Box.memberships
    (box (process Scenario.cfg Scenario.workspace Scenario.enterprise2
            (Scenario.event_req "secret" "member_left_channel" "C2" "U1")))
  = [].
Proof.
  destruct (leave_removes_the_membership Scenario.cfg Scenario.workspace
              Scenario.enterprise2
              (Scenario.event_req "secret" "member_left_channel" "C2" "U1")
              {| ev_type := Some "member_left_channel"%string;
                 ev_channel := Some "C2"%string; ev_user := Some "U1"%string |}
              (Scenario.person "alice" (Some "alice@example.com"%string))
              eq_refl eq_refl eq_refl eq_refl eq_refl eq_refl eq_refl)
    as (m & [Hin|[]] & _ & _ & Hm).
  rewrite Hm, <- Hin. reflexivity.
Defined.

Lemma no_membership_filter (gid : string) (email : JS.str) (b : Box.Enterprise) :
  has_membership b gid email = false ->
  filter (fun m => JS.strict_eq (Some (Box.user_login (Box.membership_user m))) email)
    (filter (fun m => (Box.group_id (Box.membership_group m) =? gid)%string)
       (Box.memberships b)) = [].
Proof.
  unfold has_membership. induction (Box.memberships b) as [|m ms IH]; [reflexivity|].
  cbn. intros H. apply orb_false_iff in H. destruct H as [Hm Hms].
  destruct (Box.group_id (Box.membership_group m) =? gid)%string; cbn in *.
  - rewrite Hm. auto.
  - auto.
Qed.

Lemma id_unused_filter (i : string) (b : Box.Enterprise) :
  id_unused i b = true ->
  filter (fun m => negb (Box.membership_id m =? i)%string) (Box.memberships b)
  = Box.memberships b.
Proof.
  unfold id_unused. induction (Box.memberships b) as [|m ms IH]; [reflexivity|].
  cbn. intros H. apply andb_true_iff in H. destruct H as [Hm Hms].
  rewrite Hm, IH by assumption. reflexivity.
Qed.

(** X10. Joining and then leaving is a round trip on the memberships:
    when the email of the Slack user finds a Box user with that login and
    without any membership, nobody with that login is in the mirror group
    and the identifier the service hands out next is not in use, a
    [member_joined_channel] event followed by a [member_left_channel] event
    of the same user and channel leaves the memberships as they were. *)
Theorem join_then_leave_restores_memberships :
  forall (cfg : Config) (sw : Slack.Workspace) (b : Box.Enterprise)
         (joined left : ReqBody) (evj evl : SlackEvent)
         (su : Slack.User) (u : Box.User),
    type joined = Some "event_callback"%string ->
    event joined = Some evj ->
    ev_type evj = Some "member_joined_channel"%string ->
    type left = Some "event_callback"%string ->
    event left = Some evl ->
    ev_type evl = Some "member_left_channel"%string ->
    ev_channel evl = ev_channel evj ->
    ev_user evl = ev_user evj ->
    lookup_user sw (ev_user evj) = Some su ->
    Slack.is_bot su = false ->
    JS.truthy (Slack.email (Slack.profile su)) = true ->
    hd_error (Box.enterprise_getUsers (Slack.email (Slack.profile su)) b) = Some u ->
    Box.find_user (Box.user_id u) b = Some u ->
    JS.strict_eq (Some (Box.user_login u)) (Slack.email (Slack.profile su)) = true ->
    Box.users_getGroupMemberships (Box.user_id u) b = [] ->
    has_membership b (Box.group_id (mirror_group (ev_channel evj) b))
      (Slack.email (Slack.profile su)) = false ->
    id_unused (Box.fresh_id (with_mirror_group (ev_channel evj) b)) b = true ->
    Box.memberships (box (process cfg sw (box (process cfg sw b joined)) left))
    = Box.memberships b.
Proof.
  intros cfg sw b joined left evj evl su u Htj Hevj Hjoin Htl Hevl Hleft Hc Hu
         Hsu Hbot Hmail Hfound Hself Hlogin Hnone Hnot Hfresh.
  destruct (member_event_process cfg sw b joined evj su Htj Hevj Hsu Hbot)
    as (Hb1 & _).
  rewrite <- Hu in Hsu.
  destruct (member_event_process cfg sw (box (process cfg sw b joined)) left evl su
              Htl Hevl Hsu Hbot) as (Hb2 & _).
  rewrite Hb2, Hc. clear Hb2. rewrite Hb1. clear Hb1.
  set (c := ev_channel evj) in *. set (email := Slack.email (Slack.profile su)) in *.
  set (gid := Box.group_id (mirror_group c b)) in *.
  set (b1 := member_effect evj su gid (with_mirror_group c b)).
  destruct (mirror_group_spec c b) as (_ & _ & Hnamed).
  assert (Hn1 : group_named (mirror_name c) b1 = Some (mirror_group c b)).
  { rewrite <- Hnamed. apply group_named_same_groups, member_effect_groups. }
  destruct (mirror_group_present c b1 _ Hn1) as [-> ->]. fold gid.
  unfold member_effect at 1. fold email.
  rewrite Hmail, Hleft. cbn [JS.strict_eq String.eqb Ascii.eqb Bool.eqb].
  assert (Hb1 : exists g,
             Box.group_id g = gid
             /\ b1 = Box.with_memberships
                       (Box.memberships b
                        ++ [{| Box.membership_id := Box.fresh_id (with_mirror_group c b);
                               Box.membership_user := u;
                               Box.membership_group := g;
                               Box.membership_role := Box.userRoles_MEMBER |}])%list
                       (S (Box.next_id (with_mirror_group c b)))
                       (with_mirror_group c b)).
  { unfold b1, member_effect. fold email. rewrite Hmail, Hjoin.
    cbn [JS.strict_eq]. rewrite String.eqb_refl.
    unfold after_add, added_membership.
    destruct (with_mirror_group_added c b email) as (E1 & E2 & E3).
    rewrite E1, Hfound, E2, Hnone, E3, Hself.
    pose proof (mirror_group_found c b) as Hf. fold gid in Hf.
    destruct (Box.find_group gid (with_mirror_group c b)) as [g|] eqn:G;
      [|congruence].
    exists g. split.
    - unfold Box.find_group in G. apply find_some in G. destruct G as [_ G].
      apply String.eqb_eq in G. exact G.
    - cbn [app]. rewrite with_mirror_group_memberships. reflexivity. }
  destruct Hb1 as (g & Hg & ->).
  unfold after_remove, first_membership.
  cbn [Box.memberships Box.with_memberships].
  rewrite !filter_app, (no_membership_filter gid email b Hnot).
  cbn [filter app Box.membership_group Box.membership_user].
  rewrite Hg, String.eqb_refl. cbn [filter Box.membership_user]. rewrite Hlogin.
  cbn [hd_error Box.groups_removeMembership Box.memberships Box.with_memberships
         Box.membership_id].
  rewrite filter_app, (id_unused_filter _ b Hfresh).
  cbn [filter Box.membership_id]. rewrite String.eqb_refl. cbn.
  apply app_nil_r.
Qed.

Lemma join_then_leave_restores_memberships_witness :
  Box.memberships
    (box (process Scenario.cfg Scenario.workspace
            (box (process Scenario.cfg Scenario.workspace Scenario.enterprise2
                    (Scenario.event_req "secret" "member_joined_channel" "C1" "U3")))
            (Scenario.event_req "secret" "member_left_channel" "C1" "U3")))
  = Box.memberships Scenario.enterprise2.
Proof.
  apply (join_then_leave_restores_memberships Scenario.cfg Scenario.workspace
           Scenario.enterprise2
           (Scenario.event_req "secret" "member_joined_channel" "C1" "U3")
           (Scenario.event_req "secret" "member_left_channel" "C1" "U3")
           {| ev_type := Some "member_joined_channel"%string;
              ev_channel := Some "C1"%string; ev_user := Some "U3"%string |}
           {| ev_type := Some "member_left_channel"%string;
              ev_channel := Some "C1"%string; ev_user := Some "U3"%string |}
           (Scenario.person "carol" (Some "carol@example.com"%string))
           Scenario.carol);
    reflexivity.
Defined.

(** X11. A verified [url_verification] request is answered with status
    200 and the challenge of the request, whatever it is; the enterprise is
    left as it was, nothing is started and nothing goes wrong. *)
Theorem url_verification_echoes_challenge :
  forall (cfg : Config) (sw : Slack.Workspace) (b : Box.Enterprise) (req : ReqBody),
    JS.strict_eq (token req) (Some (verificationToken cfg)) = true ->
    type req = Some "url_verification"%string ->
    res_sent (process cfg sw b req) = Some (200, ChallengeBody (challenge req))
    /\ box (process cfg sw b req) = b
    /\ errors (trace (process cfg sw b req)) = [].
Proof.
  intros cfg sw b req Htok Ht.
  unfold process, post_event, bind. rewrite verify_run.
  unfold after_verify. rewrite Htok.
  unfold dispatch, handleUrlVerification. rewrite Ht.
  cbn [JS.strict_eq]. rewrite String.eqb_refl.
  repeat split.
Qed.

Lemma url_verification_echoes_challenge_witness :
  res_sent
    (process Scenario.cfg Scenario.workspace Scenario.enterprise
       {| token := Some "secret"%string; type := Some "url_verification"%string;
          challenge := Some "3eZbrw1aB"%string; event := None; command := None;
          channel_id := None; user_id := None; text := None |})
  = Some (200, ChallengeBody (Some "3eZbrw1aB"%string)).
Proof.
  apply (url_verification_echoes_challenge Scenario.cfg Scenario.workspace
           Scenario.enterprise
           {| token := Some "secret"%string; type := Some "url_verification"%string;
              challenge := Some "3eZbrw1aB"%string; event := None; command := None;
              channel_id := None; user_id := None; text := None |});
    reflexivity.
Defined.

(** X12. A verified request that is no URL verification, no event
    callback and no [/boxadd] command is answered with status 400 and an
    empty body; the enterprise is left as it was and no call goes out. *)
Theorem unknown_request_is_refused :
  forall (cfg : Config) (sw : Slack.Workspace) (b : Box.Enterprise) (req : ReqBody),
    JS.strict_eq (token req) (Some (verificationToken cfg)) = true ->
    JS.strict_eq (type req) (Some "url_verification"%string) = false ->
    JS.strict_eq (type req) (Some "event_callback"%string) = false ->
    JS.strict_eq (command req) (Some "/boxadd"%string) = false ->
    res_sent (process cfg sw b req) = Some (400, NoBody)
    /\ box (process cfg sw b req) = b
    /\ trace (process cfg sw b req) = [ResSend 400 NoBody].
Proof.
  intros cfg sw b req Htok H1 H2 H3.
  unfold process, post_event, bind. rewrite verify_run.
  unfold after_verify. rewrite Htok.
  unfold dispatch. rewrite H1, H2, H3.
  repeat split.
Qed.

Lemma unknown_request_is_refused_witness :
  res_sent
    (process Scenario.cfg Scenario.workspace Scenario.enterprise
       {| token := Some "secret"%string; type := Some "app_rate_limited"%string;
          challenge := None; event := None; command := Some "/boxremove"%string;
          channel_id := None; user_id := None; text := None |})
  = Some (400, NoBody).
Proof.
  apply (unknown_request_is_refused Scenario.cfg Scenario.workspace
           Scenario.enterprise
           {| token := Some "secret"%string; type := Some "app_rate_limited"%string;
              challenge := None; event := None; command := Some "/boxremove"%string;
              channel_id := None; user_id := None; text := None |});
    reflexivity.
Defined.

(** X13. A verified event callback without an [event], and a verified
    [/boxadd] command without a [text], are never answered: the handler's
    promise rejects with a [TypeError] that nobody handles, no response is
    sent, and the enterprise is left as it was. *)
Theorem request_without_payload_is_never_answered :
  forall (cfg : Config) (sw : Slack.Workspace) (b : Box.Enterprise) (req : ReqBody),
    JS.strict_eq (token req) (Some (verificationToken cfg)) = true ->
    (type req = Some "event_callback"%string /\ event req = None)
    \/ (routes_to_command req = true /\ text req = None) ->
    res_sent (process cfg sw b req) = None
    /\ box (process cfg sw b req) = b
    /\ exists p : string,
         trace (process cfg sw b req) = [UnhandledRejection (TypeError p)].
Proof.
  intros cfg sw b req Htok [[Ht Hev] | [Hroute Htext]]; unfold process.
  - rewrite (post_event_event_callback cfg sw b req Ht).
    unfold after_verify, handleEventCallback. rewrite Htok, Hev.
    repeat split. eexists. reflexivity.
  - rewrite (post_event_command cfg sw b req Hroute).
    unfold after_verify, handleCommand. rewrite Htok, Htext.
    repeat split. eexists. reflexivity.
Qed.

Lemma request_without_payload_is_never_answered_witness :
  res_sent
    (process Scenario.cfg Scenario.workspace Scenario.enterprise
       {| token := Some "secret"%string; type := Some "event_callback"%string;
          challenge := None; event := None; command := None;
          channel_id := None; user_id := None; text := None |})
  = None
  /\ res_sent
       (process Scenario.cfg Scenario.workspace Scenario.enterprise
          {| token := Some "secret"%string; type := None;
             challenge := None; event := None; command := Some "/boxadd"%string;
             channel_id := Some "C1"%string; user_id := Some "U1"%string;
             text := None |})
     = None.
Proof.
  split.
  - apply (request_without_payload_is_never_answered Scenario.cfg Scenario.workspace
             Scenario.enterprise
             {| token := Some "secret"%string; type := Some "event_callback"%string;
                challenge := None; event := None; command := None;
                channel_id := None; user_id := None; text := None |});
      [reflexivity | left; split; reflexivity].
  - apply (request_without_payload_is_never_answered Scenario.cfg Scenario.workspace
             Scenario.enterprise
             {| token := Some "secret"%string; type := None;
                challenge := None; event := None; command := Some "/boxadd"%string;
                channel_id := Some "C1"%string; user_id := Some "U1"%string;
                text := None |});
      [reflexivity | right; split; reflexivity].
Defined.

(** X14. A verified, well-formed [/boxadd] command of a user that the
    Slack lookup does not resolve is never answered: the handler's promise
    rejects, unhandled, before any response is sent and before any
    collaboration is asked for.  The channel's mirror group has been
    resolved by then, and created when it was missing. *)
Theorem command_of_unknown_user_is_never_answered :
  forall (cfg : Config) (sw : Slack.Workspace) (b : Box.Enterprise)
         (req : ReqBody) (t : string),
    JS.strict_eq (token req) (Some (verificationToken cfg)) = true ->
    routes_to_command req = true ->
    text req = Some t ->
    invalid_input (nth_error (JS.split_space t) 0) (nth_error (JS.split_space t) 1)
    = false ->
    lookup_user sw (user_id req) = None ->
    res_sent (process cfg sw b req) = None
    /\ box (process cfg sw b req) = with_mirror_group (channel_id req) b
    /\ (exists e, errors (trace (process cfg sw b req)) = [e])
    /\ collab_calls (trace (process cfg sw b req)) = [].
Proof.
  intros cfg sw b req t Htok Hroute Htext Hvalid Hu.
  remember (process cfg sw b req) as final eqn:Hf.
  unfold process in Hf. rewrite (post_event_command cfg sw b req Hroute) in Hf.
  unfold handleCommand, after_verify, initial in Hf.
  rewrite Htok, Htext in Hf. run_in Hf. rewrite Hvalid in Hf.
  unfold handleCommand_rest in Hf. run_in Hf. rewrite getGroup_run in Hf.
  run_in Hf.
  match type of Hf with
  | context [getSlackUser cfg (user_id req) ?s] =>
      destruct (getSlackUser_missing cfg (user_id req) s Hu)
        as (r & evs & G & (Ha & Hr & Hc) & Hcase & He);
      rewrite G in Hf
  end.
  assert (Hq : quiet (getGroup_events (channel_id req) b)).
  { unfold getGroup_events. destruct (group_named _ b); repeat split. }
  destruct Hq as (_ & _ & Hqc).
  pose proof (getGroup_events_no_error (channel_id req) b) as Hqe.
  destruct Hcase as [-> | [e ->]]; run_in Hf; unfold settle in Hf;
    cbn [pending run_tasks set_pending trace slack box res_sent res_status app] in Hf;
    subst final; cbn [set_pending trace box res_sent];
    repeat (progress cbn [collab_calls errors app]
            || rewrite collab_calls_app || rewrite errors_app);
    rewrite ?Hqc, ?Hqe, ?Hc, ?He; repeat split; eexists; reflexivity.
Qed.

Lemma command_of_unknown_user_is_never_answered_witness :
  res_sent (process Scenario.cfg Scenario.workspace Scenario.enterprise
              (Scenario.command_req "secret" "C1" "U404" "file 123456"))
  = None
  /\ Box.groups (box (process Scenario.cfg Scenario.workspace Scenario.enterprise
                        (Scenario.command_req "secret" "C1" "U404" "file 123456")))
     = [{| Box.group_id := "100"; Box.group_name := "slack-C1" |}].
Proof.
  destruct (command_of_unknown_user_is_never_answered Scenario.cfg Scenario.workspace
              Scenario.enterprise
              (Scenario.command_req "secret" "C1" "U404" "file 123456")
              "file 123456" eq_refl eq_refl eq_refl eq_refl eq_refl)
    as (Hsent & Hbox & _).
  split; [exact Hsent | rewrite Hbox; reflexivity].
Defined.

(** ** The text of a command *)

Lemma split_space_nonempty (s : string) : JS.split_space s <> [].
Proof.
  destruct s as [|c s]; cbn; [discriminate|].
  destruct (Ascii.eqb c " "); [discriminate|].
  destruct (JS.split_space s); discriminate.
Qed.

Lemma split_space_word (w : string) :
  spaceless w = true -> JS.split_space w = [w].
Proof.
  unfold spaceless, JS.chars.
  induction w as [|c w IH]; [reflexivity|].
  cbn. intros H. apply andb_true_iff in H. destruct H as [Hc Hw].
  apply negb_true_iff in Hc. rewrite Hc, (IH Hw). reflexivity.
Qed.

Lemma split_space_token (w rest : string) :
  spaceless w = true ->
  JS.split_space (w ++ String " " rest) = w :: JS.split_space rest.
Proof.
  unfold spaceless, JS.chars.
  induction w as [|c w IH]; [reflexivity|].
  cbn. intros H. apply andb_true_iff in H. destruct H as [Hc Hw].
  apply negb_true_iff in Hc. rewrite Hc, (IH Hw). reflexivity.
Qed.

Lemma append_empty (s : string) : (s ++ "")%string = s.
Proof. induction s as [|c s IH]; cbn; [|rewrite IH]; reflexivity. Qed.

Lemma decimal_digits_spaceless (s : string) :
  decimal_digits s = true -> spaceless s = true.
Proof.
  unfold decimal_digits, spaceless, JS.all1.
  destruct (JS.chars s) as [|c l] eqn:E; [discriminate|].
  rewrite !forallb_forall. intros H x Hx.
  pose proof (digit_not_space x (H x Hx)) as Hs.
  unfold JS.is_space in Hs. apply orb_false_iff in Hs. destruct Hs as [_ Hs].
  apply negb_true_iff. destruct (Ascii.eqb_spec x " ") as [->|]; [discriminate Hs|].
  reflexivity.
Qed.

(** X15. The validation of [/boxadd] accepts every text made of [file]
    or [folder], one space and one or more decimal digits, alone or followed
    by a space and anything: the item type is the word, the item id the
    digits, and what follows is not looked at. *)
Theorem decimal_item_text_is_accepted :
  forall (ty digits more : string),
    ty = "file"%string \/ ty = "folder"%string ->
    decimal_digits digits = true ->
    more = ""%string \/ (exists rest, more = String " " rest) ->
    let t := (ty ++ String " " (digits ++ more))%string in
    item_type_of t = Some ty
    /\ item_id_of t = Some digits
    /\ invalid_input (item_type_of t) (item_id_of t) = false.
Proof.
  intros ty digits more Hty Hd Hmore t.
  assert (Hsp : spaceless ty = true) by (destruct Hty as [-> | ->]; reflexivity).
  assert (Hparts : exists tl, JS.split_space t = ty :: digits :: tl).
  { unfold t. rewrite (split_space_token ty _ Hsp).
    destruct Hmore as [-> | [rest ->]].
    - rewrite append_empty.
      exists []. f_equal. apply split_space_word, decimal_digits_spaceless, Hd.
    - eexists. f_equal.
      apply split_space_token, decimal_digits_spaceless, Hd. }
  destruct Hparts as (tl & Hparts).
  unfold item_type_of, item_id_of. rewrite Hparts. cbn [nth_error].
  repeat split. apply decimal_item_is_valid; [exact Hty | |].
  - unfold decimal_digits, JS.all1 in Hd.
    destruct (JS.chars digits); [discriminate | discriminate].
  - unfold decimal_digits, JS.all1 in Hd.
    destruct (JS.chars digits); [discriminate | exact Hd].
Qed.

Lemma decimal_item_text_is_accepted_witness :
  item_id_of "folder 123456 please" = Some "123456"%string
  /\ invalid_input (item_type_of "folder 123456 please")
       (item_id_of "folder 123456 please") = false.
Proof.
  destruct (decimal_item_text_is_accepted "folder" "123456" " please"
              (or_intror eq_refl) eq_refl
              (or_intror (ex_intro _ "please"%string eq_refl)))
    as (_ & Hid & Hok).
  split; [exact Hid | exact Hok].
Defined.

(** X16. A verified [/boxadd] command whose text has no space in it, the
    empty text included, is answered with the usage message: there is no
    second token, and [isNaN(undefined)] holds. *)
Theorem one_word_command_is_told_usage :
  forall (cfg : Config) (sw : Slack.Workspace) (b : Box.Enterprise)
         (req : ReqBody) (t : string),
    JS.strict_eq (token req) (Some (verificationToken cfg)) = true ->
    routes_to_command req = true ->
    text req = Some t ->
    spaceless t = true ->
    item_id_of t = None
    /\ res_sent (process cfg sw b req) = Some (200, usage).
Proof.
  intros cfg sw b req t Htok Hroute Htext Hword.
  pose proof (command_flow cfg sw b req t Hroute Htext) as H. cbv zeta in H.
  unfold item_id_of. rewrite (split_space_word t Hword) in *. cbn [nth_error] in *.
  rewrite Htok in H. destruct (H eq_refl) as (_ & _ & _ & _ & _ & _ & _ & Husage).
  split; [reflexivity|]. apply Husage; [reflexivity|].
  unfold invalid_input. cbn [JS.isNaN]. apply orb_true_r.
Qed.

Lemma one_word_command_is_told_usage_witness :
  res_sent (process Scenario.cfg Scenario.workspace Scenario.enterprise
              (Scenario.command_req "secret" "C1" "U1" "file"))
  = Some (200, usage).
Proof.
  apply (one_word_command_is_told_usage Scenario.cfg Scenario.workspace
           Scenario.enterprise (Scenario.command_req "secret" "C1" "U1" "file")
           "file" eq_refl eq_refl eq_refl eq_refl).
Defined.

(** X17. Two spaces after [file] or [folder] make the item id the empty
    string, which [isNaN] takes for the number 0: the text passes the
    validation whatever follows, and for a requester with a Box user the
    collaboration is asked for with the empty item id. *)
Theorem double_space_gives_empty_item_id :
  forall (cfg : Config) (sw : Slack.Workspace) (b : Box.Enterprise)
         (req : ReqBody) (ty rest : string) (bu : Box.User),
    routes_to_command req = true ->
    ty = "file"%string \/ ty = "folder"%string ->
    text req = Some (ty ++ String " " (String " " rest))%string ->
    requester sw b (user_id req) = Some bu ->
    invalid_input (item_type_of (ty ++ String " " (String " " rest)))
      (item_id_of (ty ++ String " " (String " " rest))) = false
    /\ collab_calls (trace (process cfg sw b req))
       = [(Some (Box.group_id (mirror_group (channel_id req) b)),
           Some ""%string, Box.collaborationRoles_VIEWER, Some ty)].
Proof.
  intros cfg sw b req ty rest bu Hroute Hty Htext Hreq.
  assert (Hsp : spaceless ty = true) by (destruct Hty as [-> | ->]; reflexivity).
  pose proof (command_flow cfg sw b req _ Hroute Htext) as H. cbv zeta in H.
  unfold item_type_of, item_id_of.
  rewrite (split_space_token ty _ Hsp) in *.
  change (JS.split_space (String " " rest)) with (""%string :: JS.split_space rest) in *.
  cbn [nth_error] in *.
  assert (Hok : invalid_input (Some ty) (Some ""%string) = false)
    by (destruct Hty as [-> | ->]; reflexivity).
  rewrite Hok, Hreq in H. rewrite Hok.
  destruct (H (orb_true_r _)) as (_ & _ & _ & _ & Hcalls & _).
  split; [reflexivity | exact Hcalls].
Qed.

Lemma double_space_gives_empty_item_id_witness :
  collab_calls
    (trace (process Scenario.cfg Scenario.workspace Scenario.enterprise2
              (Scenario.command_req "secret" "C1" "U1" "file  123456")))
  = [(Some "7"%string, Some ""%string, "viewer"%string, Some "file"%string)].
Proof.
  destruct (double_space_gives_empty_item_id Scenario.cfg Scenario.workspace
              Scenario.enterprise2
              (Scenario.command_req "secret" "C1" "U1" "file  123456")
              "file" "123456" Scenario.alice
              eq_refl (or_introl eq_refl) eq_refl eq_refl) as (_ & H).
  exact H.
Defined.

(** ** The fan-out and the response *)

Lemma listing_failed_first_page (sw : Slack.Workspace) (c : JS.str) :
  listing_ok sw c = false -> first_page sw c = [].
Proof.
  unfold listing_ok, first_page. cbv zeta.
  destruct (Slack.ok_status _); [|reflexivity].
  destruct (Slack.data _) as [d|]; [|reflexivity].
  destruct (Slack.members d); [discriminate | reflexivity].
Qed.

(** [handleEventCallback] for an event of a bot, on a response that is
    not out yet. *)
Lemma handleEventCallback_bot (cfg : Config) (req : ReqBody) (ev : SlackEvent)
  (u : Slack.User) (sw : Slack.Workspace) (b : Box.Enterprise) (st : nat)
  (tr : list Event) :
  event req = Some ev ->
  lookup_user sw (ev_user ev) = Some u ->
  Slack.is_bot u = true ->
  exists evs,
    add_calls evs = [] /\ errors evs = []
    /\ (listing_ok sw (ev_channel ev) = true ->
        handleEventCallback cfg req
          {| slack := sw; box := b; res_status := st; res_sent := None;
             pending := []; trace := tr |}
        = (Ret tt,
           {| slack := sw; box := with_mirror_group (ev_channel ev) b;
              res_status := st; res_sent := Some (st, NoBody);
              pending :=
                map (ForEachCallback
                       (Some (Box.group_id (mirror_group (ev_channel ev) b))))
                  (first_page sw (ev_channel ev));
              trace := tr ++ evs ++ [ResSend st NoBody] |}))
    /\ (listing_ok sw (ev_channel ev) = false ->
        exists e,
          handleEventCallback cfg req
            {| slack := sw; box := b; res_status := st; res_sent := None;
               pending := []; trace := tr |}
          = (Throw e,
             {| slack := sw; box := with_mirror_group (ev_channel ev) b;
                res_status := st; res_sent := None; pending := [];
                trace := tr ++ evs |})).
Proof.
  intros Hev Hu Hbot.
  unfold handleEventCallback. rewrite Hev. run.
  erewrite getSlackUser_found by exact Hu. run.
  unfold syncSlackUsers. run. rewrite getGroup_run. run.
  rewrite Hbot. cbn [dot_id].
  pose proof (getGroup_events_no_error (ev_channel ev) b) as Hq.
  assert (Hqa : add_calls (getGroup_events (ev_channel ev) b) = []).
  { unfold getGroup_events. destruct (group_named _ b); reflexivity. }
  unfold syncChannelToGroup, listing_ok, first_page. run.
  eexists (AxiosGet _ :: ConsoleLog _ :: getGroup_events (ev_channel ev) b
             ++ [ConsoleLog _; AxiosGet _]).
  split; [cbn [add_calls]; rewrite add_calls_app, Hqa; reflexivity|].
  split; [cbn [errors]; rewrite errors_app, Hq; reflexivity|].
  destruct (Slack.ok_status _).
  - destruct (Slack.data _) as [d|].
    + destruct (Slack.members d) as [ms|].
      * split; [intros _ | discriminate].
        rewrite forEach_spawn. run. cbn [app]. flat. reflexivity.
      * split; [discriminate | intros _].
        eexists. flat. reflexivity.
    + split; [discriminate | intros _]. eexists. flat. reflexivity.
  - split; [discriminate | intros _]. eexists. flat. reflexivity.
Qed.

(** X18. A verified event of a bot whose channel listing comes back is
    answered with status 200 and an empty body before the first member is
    added: no call of [addGroupUser] precedes the response in the trace, and
    the calls for the eligible members of the first page all follow it. *)
Theorem fan_out_answers_before_it_adds :
  forall (cfg : Config) (sw : Slack.Workspace) (b : Box.Enterprise)
         (req : ReqBody) (ev : SlackEvent) (u : Slack.User),
    JS.strict_eq (token req) (Some (verificationToken cfg)) = true ->
    type req = Some "event_callback"%string ->
    event req = Some ev ->
    lookup_user sw (ev_user ev) = Some u ->
    Slack.is_bot u = true ->
    listing_ok sw (ev_channel ev) = true ->
    res_sent (process cfg sw b req) = Some (200, NoBody)
    /\ exists pre post : list Event,
         trace (process cfg sw b req) = pre ++ ResSend 200 NoBody :: post
         /\ add_calls pre = []
         /\ add_calls post
            = flat_map
                (fun m =>
                   map (pair (Some (Box.group_id (mirror_group (ev_channel ev) b))))
                     (eligible_email sw m))
                (first_page sw (ev_channel ev)).
Proof.
  intros cfg sw b req ev u Htok Ht Hev Hu Hbot Hlist.
  remember (process cfg sw b req) as final eqn:Hf.
  unfold process in Hf. rewrite (post_event_event_callback cfg sw b req Ht) in Hf.
  unfold after_verify, initial, fire in Hf. rewrite Htok in Hf.
  destruct (handleEventCallback_bot cfg req ev u sw b 200 [] Hev Hu Hbot)
    as (evs & Ha & _ & Hok & _).
  rewrite (Hok Hlist) in Hf. unfold settle in Hf.
  cbn [snd pending set_pending slack box res_status res_sent trace app] in Hf.
  match type of Hf with
  | _ = run_tasks _ (map (ForEachCallback ?g) ?ms) ?s =>
      destruct (run_tasks_run cfg g ms s) as (b' & evs2 & E & Ha2 & _)
  end.
  rewrite E in Hf. subst final. unfold upd.
  cbn [set_box set_trace set_pending slack box res_status res_sent pending trace].
  split; [reflexivity|].
  exists evs, evs2. rewrite <- app_assoc. cbn [app].
  repeat split; assumption.
Qed.

Lemma fan_out_answers_before_it_adds_witness :
  res_sent (process Scenario.cfg Scenario.workspace Scenario.enterprise
              (Scenario.event_req "secret" "member_joined_channel" "C1" "B1"))
  = Some (200, NoBody).
Proof.
  apply (fan_out_answers_before_it_adds Scenario.cfg Scenario.workspace
           Scenario.enterprise
           (Scenario.event_req "secret" "member_joined_channel" "C1" "B1")
           {| ev_type := Some "member_joined_channel"%string;
              ev_channel := Some "C1"%string; ev_user := Some "B1"%string |}
           (Scenario.robot "syncbot")
           eq_refl eq_refl eq_refl eq_refl eq_refl eq_refl).
Defined.

(** X19. A verified event of a bot whose channel listing fails, or comes
    back without [members], is never answered and adds nobody: the handler's
    promise rejects, unhandled, after the mirror group has been resolved. *)
Theorem failed_listing_is_never_answered :
  forall (cfg : Config) (sw : Slack.Workspace) (b : Box.Enterprise)
         (req : ReqBody) (ev : SlackEvent) (u : Slack.User),
    JS.strict_eq (token req) (Some (verificationToken cfg)) = true ->
    type req = Some "event_callback"%string ->
    event req = Some ev ->
    lookup_user sw (ev_user ev) = Some u ->
    Slack.is_bot u = true ->
    listing_ok sw (ev_channel ev) = false ->
    res_sent (process cfg sw b req) = None
    /\ box (process cfg sw b req) = with_mirror_group (ev_channel ev) b
    /\ add_calls (trace (process cfg sw b req)) = []
    /\ exists e, errors (trace (process cfg sw b req)) = [e].
Proof.
  intros cfg sw b req ev u Htok Ht Hev Hu Hbot Hlist.
  remember (process cfg sw b req) as final eqn:Hf.
  unfold process in Hf. rewrite (post_event_event_callback cfg sw b req Ht) in Hf.
  unfold after_verify, initial, fire in Hf. rewrite Htok in Hf.
  destruct (handleEventCallback_bot cfg req ev u sw b 200 [] Hev Hu Hbot)
    as (evs & Ha & He & _ & Hfail).
  destruct (Hfail Hlist) as (e & E). rewrite E in Hf. unfold settle in Hf.
  cbn [snd pending set_pending set_trace run_tasks slack box res_status res_sent
         trace app] in Hf.
  subst final.
  cbn [set_pending set_trace slack box res_status res_sent pending trace].
  rewrite add_calls_app, errors_app, Ha, He.
  repeat split. exists e. reflexivity.
Qed.

Lemma failed_listing_is_never_answered_witness :
  res_sent (process Scenario.cfg Scenario.workspace Scenario.enterprise
              (Scenario.event_req "secret" "member_joined_channel" "C9" "B1"))
  = None.
Proof.
  apply (failed_listing_is_never_answered Scenario.cfg Scenario.workspace
           Scenario.enterprise
           (Scenario.event_req "secret" "member_joined_channel" "C9" "B1")
           {| ev_type := Some "member_joined_channel"%string;
              ev_channel := Some "C9"%string; ev_user := Some "B1"%string |}
           (Scenario.robot "syncbot")
           eq_refl eq_refl eq_refl eq_refl eq_refl eq_refl).
Defined.

(** ** The client after a command *)





(** X21. A [member_joined_channel] event of a non-bot user whose email
    finds no Box user adds nobody: the enterprise afterwards is the one with
    the channel's mirror group resolved, and nothing else has changed. *)
Theorem join_of_unknown_email_adds_nothing :
  forall (cfg : Config) (sw : Slack.Workspace) (b : Box.Enterprise)
         (req : ReqBody) (ev : SlackEvent) (u : Slack.User),
    type req = Some "event_callback"%string ->
    event req = Some ev ->
    ev_type ev = Some "member_joined_channel"%string ->
    lookup_user sw (ev_user ev) = Some u ->
    Slack.is_bot u = false ->
    Box.enterprise_getUsers (Slack.email (Slack.profile u)) b = [] ->
    box (process cfg sw b req) = with_mirror_group (ev_channel ev) b
    /\ errors (trace (process cfg sw b req)) = [].
Proof.
  intros cfg sw b req ev u Ht Hev Hjoin Hu Hbot Hnone.
  destruct (member_event_process cfg sw b req ev u Ht Hev Hu Hbot) as (Hb & He & _).
  split; [|exact He].
  rewrite Hb. unfold member_effect, after_add, added_membership.
  rewrite with_mirror_group_users, Hnone.
  destruct (JS.truthy _); [|reflexivity].
  destruct (JS.strict_eq _ _); [reflexivity|].
  rewrite Hjoin. reflexivity.
Qed.

Lemma join_of_unknown_email_adds_nothing_witness :
  Box.memberships
    (box (process Scenario.cfg Scenario.workspace
            {| Box.groups := [Scenario.team]; Box.users := [Scenario.alice];
               Box.memberships := []; Box.collaborations := [];
               Box.next_id := 100; Box.as_user := None;
               Box.search_match := fun t u => (Box.user_login u =? t)%string;
               Box.collab_accepts := fun _ _ _ _ => true |}
            (Scenario.event_req "secret" "member_joined_channel" "C1" "U3")))
  = [].
Proof.
  destruct (join_of_unknown_email_adds_nothing Scenario.cfg Scenario.workspace
              {| Box.groups := [Scenario.team]; Box.users := [Scenario.alice];
                 Box.memberships := []; Box.collaborations := [];
                 Box.next_id := 100; Box.as_user := None;
                 Box.search_match := fun t u => (Box.user_login u =? t)%string;
                 Box.collab_accepts := fun _ _ _ _ => true |}
              (Scenario.event_req "secret" "member_joined_channel" "C1" "U3")
              {| ev_type := Some "member_joined_channel"%string;
                 ev_channel := Some "C1"%string; ev_user := Some "U3"%string |}
              (Scenario.person "carol" (Some "carol@example.com"%string))
              eq_refl eq_refl eq_refl eq_refl eq_refl eq_refl) as [H _].
  rewrite H. reflexivity.
Defined.


